(** * Quiz attempt lifecycle and scoring: a shallow embedding

    Source files embedded here:
    - [app/models/quiz.py]   : [Quiz], [Question], [QuizAttempt] and their methods;
    - [app/models/course.py] : [Course.is_enrolled_by_user], [Course.can_be_accessed_by_user];
    - [app/models/user.py]   : [User.is_teacher], [User.is_admin];
    - [app/main/routes.py]   : the view [take_quiz].

    Conventions.
    - The column declarations of the model classes give the record fields;
      every method body is embedded statement by statement.  An attribute
      read inside a method body that names no declared column or
      relationship raises [AttributeError], as it does in Python.
    - Python exceptions are values of [result]; a method that mutates [self]
      returns the mutated record.
    - Python [str] is embedded as [string] (7-bit ASCII text).
    - A number stored in [score] is the rational [Qc] it denotes.  The
      percentage of [calculate_score] is computed exactly.  The average of
      [get_average_score] adds and divides floats: [sum] on floats and [/]
      are taken from the interpreter, as parameters, and binary64 arithmetic
      is one instance of them.
    - A nullable column is an [option]; [Question.points] is taken as
      always present.
    - The database is a record of tables; a relationship such as
      [quiz.attempts] is the filter of the table on the foreign key, in table
      order. *)

From Stdlib Require Import ZArith QArith Qcanon String Ascii DecimalString.
From Stdlib Require Floats.
From stdpp Require Import base numbers strings gmap list.

Open Scope Z_scope.

(** ** Python values, exceptions and the builtins the methods call *)

Inductive exn : Type :=
  | AttributeError
  | TypeError
  | ZeroDivisionError
  | JSONDecodeError
  | BuildError.

#[global] Instance exn_eq_dec : EqDecision exn.
Proof. solve_decision. Defined.

Inductive result (A : Type) : Type :=
  | Ok (a : A)
  | Raise (e : exn).

Arguments Ok {A} a.
Arguments Raise {A} e.

Definition bind {A B : Type} (r : result A) (k : A -> result B) : result B :=
  match r with
  | Ok a => k a
  | Raise e => Raise e
  end.

Notation "'let!' x ':=' r 'in' k" := (bind r (fun x => k))
  (at level 10, x name, r at level 100, k at level 200).

(** [try: body  except e: handler] *)
Definition try_except {A : Type} (body : result A) (e : exn) (handler : result A)
  : result A :=
  match body with
  | Ok a => Ok a
  | Raise e' => if decide (e' = e) then handler else Raise e'
  end.

(** The values a decoded JSON answer can hold (arrays, objects and floats
    are not carried). *)
Inductive pyval : Type :=
  | VNone
  | VBool (b : bool)
  | VInt (n : Z)
  | VStr (s : string).

(** [str(v)] *)
Definition py_str (v : pyval) : string :=
  match v with
  | VNone => "None"
  | VBool true => "True"
  | VBool false => "False"
  | VInt n => NilZero.string_of_int (Z.to_int n)
  | VStr s => s
  end.

(** [v is not None] *)
Definition is_not_None (v : pyval) : bool :=
  match v with
  | VNone => false
  | _ => true
  end.

(** [str.isspace] on the ASCII range: TAB, LF, VT, FF, CR, FS, GS, RS, US, SPACE. *)
Definition is_space (c : ascii) : bool :=
  let n := Z.of_N (N_of_ascii c) in
  ((9 <=? n) && (n <=? 13)) || ((28 <=? n) && (n <=? 32)).

Fixpoint lstrip (s : string) : string :=
  match s with
  | EmptyString => EmptyString
  | String c s' => if is_space c then lstrip s' else s
  end.

Fixpoint rstrip (s : string) : string :=
  match s with
  | EmptyString => EmptyString
  | String c s' =>
      match rstrip s' with
      | EmptyString => if is_space c then EmptyString else String c EmptyString
      | r => String c r
      end
  end.

(** [s.strip()] on ASCII text.  A [string] here is a [str] whose characters
    are all below 128; on such text [str.strip] removes exactly the
    characters of [is_space].  Whitespace outside that range (U+0085,
    U+00A0, ...) is not carried by the model, so statements about [strip]
    are made for ASCII text. *)
Definition strip (s : string) : string := rstrip (lstrip s).

Definition lower_char (c : ascii) : ascii :=
  let n := N_of_ascii c in
  if ((65 <=? n) && (n <=? 90))%N then ascii_of_N (n + 32) else c.

(** [s.lower()] on ASCII text: [A]..[Z] become [a]..[z], every other
    character below 128 is kept.  Capital letters outside that range are not
    carried by the model. *)
Fixpoint lower (s : string) : string :=
  match s with
  | EmptyString => EmptyString
  | String c s' => String (lower_char c) (lower s')
  end.

(** Truth value of an optional text column: [None] and [''] are falsy. *)
Definition truthy (s : option string) : bool :=
  match s with
  | None => false
  | Some EmptyString => false
  | Some _ => true
  end.

(** [a / b] on numbers *)
Definition truediv (a b : Qc) : result Qc :=
  if decide (b = 0%Qc) then Raise ZeroDivisionError else Ok (a / b)%Qc.

(** [sum(l)] *)
Definition sumZ (l : list Z) : Z := fold_left Z.add l 0.

(** [max(l)] on a non-empty list [x :: l]: the first greatest element. *)
Definition py_max (x : Qc) (l : list Qc) : Qc :=
  fold_left (fun best y => if decide (best < y)%Qc then y else best) l x.

(** ** The data model *)

Module User.
Record t : Type := mk { id : Z; role : string }.
End User.

Module Course.
Record t : Type := mk { id : Z }.
End Course.

Module Enrollment.
Record t : Type := mk { user_id : Z; course_id : Z; is_active : bool }.
End Enrollment.

Module Question.
Record t : Type := mk {
  id : Z;
  quiz_id : Z;
  question_type : string;
  correct_answer : string;
  points : Z;
  order_index : Z
}.
End Question.

Module Quiz.
Record t : Type := mk {
  id : Z;
  course_id : Z;
  max_attemtps : option Z;
  passing_score : Z;
  is_published : bool;
  is_randomized : bool
}.
End Quiz.

Module QuizAttempt.
Record t : Type := mk {
  id : Z;
  user_id : Z;
  quiz_id : Z;
  status : string;
  score : option Qc;
  total_points : option Z;
  earned_points : option Z;
  answers : option string;
  started_at : option Z;
  completed_at : option Z
}.
End QuizAttempt.

Record DB : Type := mkDB {
  courses : list Course.t;
  enrollments : list Enrollment.t;
  quizzes : list Quiz.t;
  questions : list Question.t;
  quiz_attempts : list QuizAttempt.t
}.

(** ** [Question.check_answer] *)

(** [correct_answer] is a text column, so [str(self.correct_answer)] is the
    text itself. *)
Definition check_answer (self : Question.t) (user_answer : pyval) : bool :=
  if String.eqb (Question.question_type self) "multiple_choice" then
    String.eqb (lower (strip (py_str user_answer)))
               (lower (strip (Question.correct_answer self)))
  else if String.eqb (Question.question_type self) "true_false" then
    String.eqb (lower (strip (py_str user_answer)))
               (lower (strip (Question.correct_answer self)))
  else if String.eqb (Question.question_type self) "short_answer" then
    String.eqb (lower (strip (py_str user_answer)))
               (lower (strip (Question.correct_answer self)))
  else if String.eqb (Question.question_type self) "short_answer" then
    String.eqb (lower (strip (py_str user_answer)))
               (lower (strip (Question.correct_answer self)))
  else false.

(** ** [QuizAttempt.get_answers_dict] and [QuizAttempt.calculate_score] *)

(** [self.answer]: [QuizAttempt] declares the column [answers] and no
    attribute named [answer], so the read raises. *)
Definition getattr_answer (self : QuizAttempt.t) : result string :=
  Raise AttributeError.

(** [d.get(k)]: [None] when the key is missing. *)
Definition dict_get (d : gmap string pyval) (k : string) : pyval :=
  default VNone (d !! k).

(** Relationship [quiz.questions]. *)
Definition questions_of (db : DB) (quiz_id : Z) : list Question.t :=
  List.filter (fun q => Z.eqb (Question.quiz_id q) quiz_id) (questions db).

(** Relationship [quiz.attempts]. *)
Definition attempts_of (db : DB) (quiz_id : Z) : list QuizAttempt.t :=
  List.filter (fun a => Z.eqb (QuizAttempt.quiz_id a) quiz_id) (quiz_attempts db).

(** Backref [attempt.quiz], [Quiz.query.get]. *)
Definition get_quiz (db : DB) (quiz_id : Z) : option Quiz.t :=
  List.find (fun q => Z.eqb (Quiz.id q) quiz_id) (quizzes db).

(** Backref [quiz.course]. *)
Definition get_course (db : DB) (course_id : Z) : option Course.t :=
  List.find (fun c => Z.eqb (Course.id c) course_id) (courses db).

(** The body of the [for question in self.quiz.questions] loop, on the pair
    [(total_points, earned_points)]. *)
Definition score_step (answers_dict : gmap string pyval) (acc : Z * Z)
    (question : Question.t) : Z * Z :=
  let '(total_points, earned_points) := acc in
  let total_points := total_points + Question.points question in
  let user_answer := dict_get answers_dict (py_str (VInt (Question.id question))) in
  if is_not_None user_answer && check_answer question user_answer
  then (total_points, earned_points + Question.points question)
  else (total_points, earned_points).

Definition score_loop (answers_dict : gmap string pyval) (qs : list Question.t)
  : Z * Z :=
  fold_left (score_step answers_dict) qs (0, 0).

(** [(earned_points / total_points * 100) if total_points > 0 else 0] *)
Definition percentage (earned_points total_points : Z) : result Qc :=
  if 0 <? total_points then
    let! r := truediv (Qc_of_Z earned_points) (Qc_of_Z total_points) in
    Ok (r * Qc_of_Z 100)%Qc
  else Ok 0%Qc.

Section Json.

(** [json.loads] of the standard library, restricted to documents that
    decode to an object; a malformed text raises [JSONDecodeError]. *)
Variable json_loads : string -> result (gmap string pyval).

Definition get_answers_dict (self : QuizAttempt.t) : result (gmap string pyval) :=
  if truthy (QuizAttempt.answers self) then
    try_except (let! text := getattr_answer self in json_loads text)
               JSONDecodeError
               (Ok ∅)
  else Ok ∅.

(** Returns [self] after the call; a raised exception leaves [self] as it was. *)
Definition calculate_score (db : DB) (self : QuizAttempt.t) : result QuizAttempt.t :=
  if negb (String.eqb (QuizAttempt.status self) "completed") then Ok self
  else
    let! answers_dict := get_answers_dict self in
    let! quiz := match get_quiz db (QuizAttempt.quiz_id self) with
                 | Some quiz => Ok quiz
                 | None => Raise AttributeError
                 end in
    let '(total_points, earned_points) :=
      score_loop answers_dict (questions_of db (Quiz.id quiz)) in
    let! score := percentage earned_points total_points in
    Ok (QuizAttempt.mk
          (QuizAttempt.id self) (QuizAttempt.user_id self)
          (QuizAttempt.quiz_id self) (QuizAttempt.status self)
          (Some score) (Some total_points) (Some earned_points)
          (QuizAttempt.answers self) (QuizAttempt.started_at self)
          (QuizAttempt.completed_at self)).

End Json.

(** The attempt record after a call: unchanged when the call raised. *)
Definition after (r : result QuizAttempt.t) (self : QuizAttempt.t) : QuizAttempt.t :=
  match r with
  | Ok self' => self'
  | Raise _ => self
  end.

(** ** [Quiz] methods *)

Definition get_total_points (db : DB) (self : Quiz.t) : Z :=
  sumZ (map Question.points (questions_of db (Quiz.id self))).

(** [[a.score for a in attempts if a.score is not None]] *)
Definition present_scores (l : list QuizAttempt.t) : list Qc :=
  omap QuizAttempt.score l.

Definition is_completed (a : QuizAttempt.t) : bool :=
  String.eqb (QuizAttempt.status a) "completed".

Section Float.

(** [score] is a [Float] column: [sum(scores)] adds doubles and [/] divides
    a double by the [int] [len(scores)].  Both operations round, and the
    value of [sum] on floats depends on the interpreter (plain left-to-right
    addition up to Python 3.11, compensated summation from 3.12), so both
    are taken from the interpreter.  [float_truediv x n] is [x / n] for a
    float [x] and an int [n]; it raises [ZeroDivisionError] when [n] is 0. *)
Variable float_sum : list Qc -> Qc.
Variable float_truediv : Qc -> Z -> result Qc.

Definition get_average_score (db : DB) (self : Quiz.t) : result Qc :=
  let completed_attemtps := List.filter is_completed (attempts_of db (Quiz.id self)) in
  let scores := present_scores completed_attemtps in
  match scores with
  | [] => Ok 0%Qc
  | _ => float_truediv (float_sum scores) (Z.of_nat (length scores))
  end.

End Float.

Definition can_user_attempt (db : DB) (self : Quiz.t) (user : User.t) : result bool :=
  let user_attempts :=
    Z.of_nat (length (List.filter (fun a => Z.eqb (QuizAttempt.user_id a) (User.id user))
                                  (attempts_of db (Quiz.id self)))) in
  match Quiz.max_attemtps self with
  | Some n => Ok (user_attempts <? n)
  | None => Raise TypeError
  end.

Definition get_user_best_score (db : DB) (self : Quiz.t) (user : User.t) : option Qc :=
  let user_attempts :=
    List.filter (fun a => Z.eqb (QuizAttempt.user_id a) (User.id user) && is_completed a)
                (attempts_of db (Quiz.id self)) in
  let scores := present_scores user_attempts in
  match scores with
  | [] => None
  | x :: l => Some (py_max x l)
  end.

(** ** [User] and [Course] methods *)

Definition is_teacher (self : User.t) : bool := String.eqb (User.role self) "teacher".
Definition is_admin (self : User.t) : bool := String.eqb (User.role self) "admin".

Definition is_enrolled_by_user (db : DB) (self : Course.t) (user : User.t) : bool :=
  match List.find (fun e => Z.eqb (Enrollment.course_id e) (Course.id self)
                            && Z.eqb (Enrollment.user_id e) (User.id user)
                            && Enrollment.is_active e)
                  (enrollments db) with
  | Some _ => true
  | None => false
  end.

Definition can_be_accessed_by_user (db : DB) (self : Course.t) (user : User.t) : bool :=
  if is_teacher user || is_admin user then true
  else is_enrolled_by_user db self user.

(** ** The view [take_quiz] *)

Inductive response : Type :=
  | NotFound404
  | Redirect (endpoint : string) (flashed : string)
  | Rendered (template : string) (shown : list Question.t) (attempt : QuizAttempt.t)
  | ServerError (e : exn).

(** Endpoints registered on the blueprint [main]. *)
Definition main_endpoints : list string :=
  [ "main.index"; "main.dashboard"; "main.courses"; "main.course_details";
    "main.enroll_course"; "main.lesson_detail"; "main.quiz_detail";
    "main.take_quiz" ]%string.

(** [url_for(endpoint, ...)]: an unregistered endpoint raises [BuildError]. *)
Definition url_for (endpoint : string) : result string :=
  if existsb (String.eqb endpoint) main_endpoints then Ok endpoint
  else Raise BuildError.

(** [redirect(url_for(endpoint, ...))] after [flash(message)]. *)
Definition flash_redirect (message endpoint : string) : response :=
  match url_for endpoint with
  | Ok target => Redirect target message
  | Raise e => ServerError e
  end.

(** [quiz.is_ramdomized]: [Quiz] declares the column [is_randomized] and no
    attribute named [is_ramdomized], so the read raises. *)
Definition getattr_is_ramdomized (quiz : Quiz.t) : result bool :=
  Raise AttributeError.

(** Primary key given to a new [QuizAttempt] row. *)
Definition next_attempt_id (db : DB) : Z :=
  1 + fold_right Z.max 0 (map QuizAttempt.id (quiz_attempts db)).

Fixpoint insert_by_order_index (q : Question.t) (l : list Question.t) : list Question.t :=
  match l with
  | [] => [q]
  | q' :: l' =>
      if Question.order_index q <=? Question.order_index q'
      then q :: l
      else q' :: insert_by_order_index q l'
  end.

(** [query.order_by(Question.order_index).all()] *)
Definition order_by_order_index (l : list Question.t) : list Question.t :=
  fold_right insert_by_order_index [] l.

(** Lines 380-391: the lookups and the two guards.  [inl] is an early
    return, [inr quiz] falls through to the creation of the attempt. *)
Definition take_quiz_checks (db : DB) (current_user : User.t) (quiz_id : Z)
  : response + Quiz.t :=
  match get_quiz db quiz_id with
  | None => inl NotFound404
  | Some quiz =>
      match get_course db (Quiz.course_id quiz) with
      | None => inl (ServerError AttributeError)
      | Some course =>
          if negb (can_be_accessed_by_user db course current_user) then
            inl (flash_redirect
                   "You must be enrolled in this course to access this quiz."
                   "main.course_detail")
          else
            match can_user_attempt db quiz current_user with
            | Raise e => inl (ServerError e)
            | Ok false =>
                inl (flash_redirect
                       "You have reached the maximum number of attempts for this quiz."
                       "main.quiz_detail")
            | Ok true => inr quiz
            end
      end
  end.

(** Lines 395-400: [QuizAttempt(user_id=..., quiz_id=...)], [add], [commit]. *)
Definition new_attempt (now : Z) (db : DB) (current_user : User.t) (quiz_id : Z)
  : QuizAttempt.t :=
  QuizAttempt.mk (next_attempt_id db) (User.id current_user) quiz_id
                 "in_progress" None None None None (Some now) None.

Definition add_commit (db : DB) (attempt : QuizAttempt.t) : DB :=
  mkDB (courses db) (enrollments db) (quizzes db) (questions db)
       (quiz_attempts db ++ [attempt]).

Section Random.

(** [random.sample(questions, len(questions))]: the generator's choice of
    an arrangement of the list. *)
Variable random_sample : list Question.t -> list Question.t.

(** Lines 403-411: the question list and the page. *)
Definition take_quiz_page (db : DB) (quiz : Quiz.t) (attempt : QuizAttempt.t)
  : response :=
  let questions := order_by_order_index (questions_of db (Quiz.id quiz)) in
  match getattr_is_ramdomized quiz with
  | Raise e => ServerError e
  | Ok flag =>
      let questions := if flag then random_sample questions else questions in
      Rendered "main/take_quiz.html" questions attempt
  end.

Definition take_quiz (now : Z) (db : DB) (current_user : User.t) (quiz_id : Z)
  : DB * response :=
  match take_quiz_checks db current_user quiz_id with
  | inl early => (db, early)
  | inr quiz =>
      let attempt := new_attempt now db current_user quiz_id in
      let db' := add_commit db attempt in
      (db', take_quiz_page db' quiz attempt)
  end.

(** A serial run of [take_quiz] requests [(now, user, quiz_id)]. *)
Definition run_requests (reqs : list (Z * User.t * Z)) (db : DB) : DB :=
  fold_left (fun db '(now, user, quiz_id) => fst (take_quiz now db user quiz_id))
            reqs db.

(** *** Overlapping requests

    A request in flight is between its guards and its commit.  One step
    of the server advances one request by one of the two database
    interactions of [take_quiz]: the reads of the guards, or the insert
    and commit. *)

Inductive phase : Type :=
  | Arrived
  | Checked (quiz : Quiz.t)
  | Finished (r : response).

Record request : Type := mkRequest {
  req_now : Z;
  req_user : User.t;
  req_quiz_id : Z;
  req_phase : phase
}.

Definition advance (db : DB) (r : request) : DB * request :=
  match req_phase r with
  | Arrived =>
      match take_quiz_checks db (req_user r) (req_quiz_id r) with
      | inl early =>
          (db, mkRequest (req_now r) (req_user r) (req_quiz_id r) (Finished early))
      | inr quiz =>
          (db, mkRequest (req_now r) (req_user r) (req_quiz_id r) (Checked quiz))
      end
  | Checked quiz =>
      let attempt := new_attempt (req_now r) db (req_user r) (req_quiz_id r) in
      let db' := add_commit db attempt in
      (db', mkRequest (req_now r) (req_user r) (req_quiz_id r)
                      (Finished (take_quiz_page db' quiz attempt)))
  | Finished _ => (db, r)
  end.

(** Advance the request at position [i]. *)
Definition step (i : nat) (st : DB * list request) : DB * list request :=
  match snd st !! i with
  | None => st
  | Some r =>
      let '(db', r') := advance (fst st) r in
      (db', <[i := r']> (snd st))
  end.

Definition run_schedule (schedule : list nat) (st : DB * list request)
  : DB * list request :=
  fold_left (fun st i => step i st) schedule st.

End Random.

(** Number of rows of [quiz_attempts] for a (user, quiz) pair, all statuses. *)
Definition attempts_used (db : DB) (user : User.t) (quiz_id : Z) : Z :=
  Z.of_nat (length (List.filter (fun a => Z.eqb (QuizAttempt.user_id a) (User.id user))
                                (attempts_of db quiz_id))).


(** * Further methods and views

    The rest of [app/models/quiz.py], and the methods and views of
    [app/models/course.py], [app/models/enrollment.py], [app/models/user.py],
    [app/main/routes.py], [app/api/courses.py] and [app/auth/routes.py]
    that the quiz subsystem sits beside. *)

From Stdlib Require Import Sorting.Sorted.

(** ** [Quiz.get_completion_rate] *)

(** [(completed_attempts / total_attempts * 100) if total_attempts > 0 else 0] *)
Definition Quiz_get_completion_rate (db : DB) (self : Quiz.t) : result Qc :=
  let total_attempts := Z.of_nat (length (attempts_of db (Quiz.id self))) in
  let completed_attempts :=
    Z.of_nat (length (List.filter is_completed (attempts_of db (Quiz.id self)))) in
  if 0 <? total_attempts then
    let! r := truediv (Qc_of_Z completed_attempts) (Qc_of_Z total_attempts) in
    Ok (r * Qc_of_Z 100)%Qc
  else Ok 0%Qc.

(** ** [Question.get_options_list], [Question.set_options_list] *)

(** The columns of [Question] beside those the scoring reads. *)
Module QuestionRow.
Record t : Type := mk {
  core : Question.t;
  question_text : string;
  options : option string;
  explanation : option string
}.
End QuestionRow.

Section JsonList.

(** [json.loads] and [json.dumps] of the standard library on a list of
    option texts. *)
Variable json_loads_list : string -> result (list string).
Variable json_dumps_list : list string -> string.

Definition get_options_list (self : QuestionRow.t) : result (list string) :=
  if truthy (QuestionRow.options self) then
    try_except (json_loads_list (default EmptyString (QuestionRow.options self)))
               JSONDecodeError
               (Ok [])
  else Ok [].

Definition set_options_list (self : QuestionRow.t) (options_list : list string)
  : QuestionRow.t :=
  QuestionRow.mk (QuestionRow.core self) (QuestionRow.question_text self)
                 (Some (json_dumps_list options_list))
                 (QuestionRow.explanation self).

End JsonList.

(** ** The catalogue tables *)

(** The columns of [Course] the views read. *)
Module CourseRow.
Record t : Type := mk { id : Z; instructor_id : Z; is_published : bool }.
End CourseRow.

Module EnrollmentRow.
Record t : Type := mk {
  id : Z;
  user_id : Z;
  course_id : Z;
  status : string;
  is_active : bool;
  progress_percentage : Qc;
  rating : option Z;
  enrolled_at : option Z;
  completed_at : option Z;
  last_accessed_at : option Z
}.
End EnrollmentRow.

Module Lesson.
Record t : Type := mk {
  id : Z;
  course_id : Z;
  order_index : Z;
  duration_minutes : option Z;
  is_published : bool;
  is_preview : bool
}.
End Lesson.

Module UserRow.
Record t : Type := mk {
  id : Z;
  username : string;
  email : string;
  password_hash : string;
  first_name : string;
  last_name : string;
  role : string;
  is_active : bool;
  bio : option string;
  timezone : string;
  language : string
}.
End UserRow.

(** The whole database: the catalogue tables with all the columns read
    here, and the quiz tables as before. *)
Record Store : Type := mkStore {
  user_rows : list UserRow.t;
  course_rows : list CourseRow.t;
  enrollment_rows : list EnrollmentRow.t;
  lessons : list Lesson.t;
  s_quizzes : list Quiz.t;
  s_questions : list Question.t;
  s_quiz_attempts : list QuizAttempt.t
}.

Definition course_core (c : CourseRow.t) : Course.t := Course.mk (CourseRow.id c).

Definition enrollment_core (e : EnrollmentRow.t) : Enrollment.t :=
  Enrollment.mk (EnrollmentRow.user_id e) (EnrollmentRow.course_id e)
                (EnrollmentRow.is_active e).

(** The view of the store that the quiz methods and [Course] access
    methods read. *)
Definition db_of (s : Store) : DB :=
  mkDB (map course_core (course_rows s)) (map enrollment_core (enrollment_rows s))
       (s_quizzes s) (s_questions s) (s_quiz_attempts s).

(** Exceptions beside the builtin ones already named. *)
Inductive exc : Type :=
  | Builtin (e : exn)
  | NameError
  | IndexError
  | NotFound.

(** What a view returns: a JSON body with its status code, a redirect after
    a flash, a rendered page, the 404 page, or an exception that no handler
    of the view catches. *)
Inductive reply (P : Type) : Type :=
  | Json (code : Z) (success : bool) (message : string)
  | RedirectTo (endpoint : string) (flashed : string)
  | Page (payload : P)
  | Abort404
  | Unhandled (e : exc).

Arguments Json {P} code success message.
Arguments RedirectTo {P} endpoint flashed.
Arguments Page {P} payload.
Arguments Abort404 {P}.
Arguments Unhandled {P} e.

(** [flash(message)] then [redirect(url_for(endpoint, ...))]. *)
Definition flash_then_redirect {P : Type} (message endpoint : string) : reply P :=
  match url_for endpoint with
  | Ok target => RedirectTo target message
  | Raise e => Unhandled (Builtin e)
  end.

(** [Course.query.get(course_id)] *)
Definition get_course_row (s : Store) (course_id : Z) : option CourseRow.t :=
  List.find (fun c => Z.eqb (CourseRow.id c) course_id) (course_rows s).

(** Relationship [course.enrollments]. *)
Definition enrollments_of (s : Store) (course_id : Z) : list EnrollmentRow.t :=
  List.filter (fun e => Z.eqb (EnrollmentRow.course_id e) course_id) (enrollment_rows s).

(** Relationship [course.lessons]. *)
Definition lessons_of (s : Store) (course_id : Z) : list Lesson.t :=
  List.filter (fun l => Z.eqb (Lesson.course_id l) course_id) (lessons s).

(** [Enrollment.query.filter_by(user_id=..., course_id=...).first()] *)
Definition first_enrollment (s : Store) (user_id course_id : Z)
  : option EnrollmentRow.t :=
  List.find (fun e => Z.eqb (EnrollmentRow.user_id e) user_id
                      && Z.eqb (EnrollmentRow.course_id e) course_id)
            (enrollment_rows s).

(** [Enrollment.query.filter_by(user_id=..., course_id=..., is_active=True).first()] *)
Definition first_active_enrollment (s : Store) (user_id course_id : Z)
  : option EnrollmentRow.t :=
  List.find (fun e => Z.eqb (EnrollmentRow.user_id e) user_id
                      && Z.eqb (EnrollmentRow.course_id e) course_id
                      && EnrollmentRow.is_active e)
            (enrollment_rows s).

Definition with_enrollment_rows (s : Store) (rows : list EnrollmentRow.t) : Store :=
  mkStore (user_rows s) (course_rows s) rows (lessons s)
          (s_quizzes s) (s_questions s) (s_quiz_attempts s).

(** Commit of a changed enrollment object: the row with its primary key is
    replaced. *)
Definition update_enrollment (s : Store) (e' : EnrollmentRow.t) : Store :=
  with_enrollment_rows s
    (map (fun e => if Z.eqb (EnrollmentRow.id e) (EnrollmentRow.id e') then e' else e)
         (enrollment_rows s)).

(** Commit of a new enrollment object. *)
Definition add_enrollment (s : Store) (e : EnrollmentRow.t) : Store :=
  with_enrollment_rows s (enrollment_rows s ++ [e]).

Definition next_enrollment_id (s : Store) : Z :=
  1 + fold_right Z.max 0 (map EnrollmentRow.id (enrollment_rows s)).

(** [Enrollment(user_id=..., course_id=...)] with the column defaults:
    [status='active'], [is_active=False], [progress_percentage=0],
    [enrolled_at=utcnow]. *)
Definition new_enrollment (now : Z) (s : Store) (user_id course_id : Z)
  : EnrollmentRow.t :=
  EnrollmentRow.mk (next_enrollment_id s) user_id course_id "active" false 0%Qc
                   None (Some now) None None.

(** [existing_enrollment.is_active = True; .status = 'active';
    .enrolled_at = datetime.utcnow()] *)
Definition reactivated (now : Z) (e : EnrollmentRow.t) : EnrollmentRow.t :=
  EnrollmentRow.mk (EnrollmentRow.id e) (EnrollmentRow.user_id e)
                   (EnrollmentRow.course_id e) "active" true
                   (EnrollmentRow.progress_percentage e) (EnrollmentRow.rating e)
                   (Some now) (EnrollmentRow.completed_at e)
                   (EnrollmentRow.last_accessed_at e).

(** ** The view [enroll_course] ([app/main/routes.py]) *)

Definition enroll_course (now : Z) (is_json : bool) (s : Store)
    (current_user : User.t) (course_id : Z) : Store * reply unit :=
  match get_course_row s course_id with
  | None => (s, Abort404)
  | Some course =>
      if negb (CourseRow.is_published course) then
        if is_json then (s, Json 400 false "Course is not available for enrollment.")
        else (s, flash_then_redirect "Course is not available for enrollment."
                                     "main.course_detial")
      else
        let '(s', message) :=
          match first_enrollment s (User.id current_user) course_id with
          | Some existing_enrollment =>
              if EnrollmentRow.is_active existing_enrollment
              then (s, "You are already enrolled in this course."%string)
              else (update_enrollment s (reactivated now existing_enrollment),
                    "Successfully re-enrolled in the course"%string)
          | None =>
              (add_enrollment s (new_enrollment now s (User.id current_user) course_id),
               "Successfully enrolled in the course!"%string)
          end in
        if is_json then (s', Json 200 true message)
        else (s', flash_then_redirect message "main.course_detial")
  end.

(** ** The endpoint [enroll_in_course] ([app/api/courses.py]) *)




(** ** [Enrollment.update_progress], [Enrollment.is_completed] *)

Definition with_progress (e : EnrollmentRow.t) (p : Qc) : EnrollmentRow.t :=
  EnrollmentRow.mk (EnrollmentRow.id e) (EnrollmentRow.user_id e)
                   (EnrollmentRow.course_id e) (EnrollmentRow.status e)
                   (EnrollmentRow.is_active e) p (EnrollmentRow.rating e)
                   (EnrollmentRow.enrolled_at e) (EnrollmentRow.completed_at e)
                   (EnrollmentRow.last_accessed_at e).

Definition mark_completed (now : Z) (e : EnrollmentRow.t) : EnrollmentRow.t :=
  EnrollmentRow.mk (EnrollmentRow.id e) (EnrollmentRow.user_id e)
                   (EnrollmentRow.course_id e) "completed"
                   (EnrollmentRow.is_active e) (EnrollmentRow.progress_percentage e)
                   (EnrollmentRow.rating e) (EnrollmentRow.enrolled_at e) (Some now)
                   (EnrollmentRow.last_accessed_at e).

(** Returns [self] after the call. *)
Definition update_progress (now : Z) (s : Store) (self : EnrollmentRow.t)
  : result EnrollmentRow.t :=
  match get_course_row s (EnrollmentRow.course_id self) with
  | None => Raise AttributeError
  | Some course =>
      let total_lessons :=
        Z.of_nat (length (List.filter Lesson.is_published
                                      (lessons_of s (CourseRow.id course)))) in
      if total_lessons =? 0 then Ok (with_progress self (Qc_of_Z 100))
      else
        let completed_lessons := 0 in
        let! r := truediv (Qc_of_Z completed_lessons) (Qc_of_Z total_lessons) in
        let self := with_progress self (r * Qc_of_Z 100)%Qc in
        if bool_decide (Qc_of_Z 100 <= EnrollmentRow.progress_percentage self)%Qc
           && String.eqb (EnrollmentRow.status self) "active"
        then Ok (mark_completed now self)
        else Ok self
  end.

Definition Enrollment_is_completed (self : EnrollmentRow.t) : bool :=
  String.eqb (EnrollmentRow.status self) "completed".

(** ** [Course] statistics *)

Definition get_enrollment_count (s : Store) (self : CourseRow.t) : Z :=
  Z.of_nat (length (List.filter EnrollmentRow.is_active
                                (enrollments_of s (CourseRow.id self)))).

Definition get_average_rating (s : Store) (self : CourseRow.t) : result Qc :=
  let ratings := omap EnrollmentRow.rating (enrollments_of s (CourseRow.id self)) in
  match ratings with
  | [] => Ok 0%Qc
  | _ => truediv (Qc_of_Z (sumZ ratings)) (Qc_of_Z (Z.of_nat (length ratings)))
  end.

Definition Course_get_completion_rate (s : Store) (self : CourseRow.t) : result Qc :=
  let total_enrollments :=
    Z.of_nat (length (List.filter EnrollmentRow.is_active
                                  (enrollments_of s (CourseRow.id self)))) in
  let completed_enrollments :=
    Z.of_nat (length (List.filter
                        (fun e => EnrollmentRow.is_active e && Enrollment_is_completed e)
                        (enrollments_of s (CourseRow.id self)))) in
  if 0 <? total_enrollments then
    let! r := truediv (Qc_of_Z completed_enrollments) (Qc_of_Z total_enrollments) in
    Ok (r * Qc_of_Z 100)%Qc
  else Ok 0%Qc.

(** [sum([lesson.duration_minutes or 0 for lesson in self.lessons])] *)
Definition get_total_duration (s : Store) (self : CourseRow.t) : Z :=
  sumZ (map (fun lesson =>
               match Lesson.duration_minutes lesson with
               | Some d => if d =? 0 then 0 else d
               | None => 0
               end)
            (lessons_of s (CourseRow.id self))).

(** ** [User.get_progress_summary] *)

Record ProgressSummary : Type := mkSummary {
  total_courses : Z;
  completed_courses : Z;
  completion_rate : Qc;
  total_quizzes : Z
}.

Definition get_progress_summary (s : Store) (self : User.t) : result ProgressSummary :=
  let mine := List.filter (fun e => Z.eqb (EnrollmentRow.user_id e) (User.id self))
                          (enrollment_rows s) in
  let total_courses := Z.of_nat (length (List.filter EnrollmentRow.is_active mine)) in
  let completed_courses :=
    Z.of_nat (length (List.filter
                        (fun e => EnrollmentRow.is_active e && Enrollment_is_completed e)
                        mine)) in
  let total_quizzes :=
    Z.of_nat (length (List.filter (fun a => Z.eqb (QuizAttempt.user_id a) (User.id self))
                                  (s_quiz_attempts s))) in
  let! rate :=
    (if 0 <? total_courses then
       let! r := truediv (Qc_of_Z completed_courses) (Qc_of_Z total_courses) in
       Ok (r * Qc_of_Z 100)%Qc
     else Ok 0%Qc) in
  Ok (mkSummary total_courses completed_courses rate total_quizzes).

(** ** The view [course_details] *)

Fixpoint insert_lesson (x : Lesson.t) (l : list Lesson.t) : list Lesson.t :=
  match l with
  | [] => [x]
  | y :: l' =>
      if Lesson.order_index x <=? Lesson.order_index y
      then x :: l
      else y :: insert_lesson x l'
  end.

(** [query.order_by(Lesson.order_index).all()] *)
Definition order_lessons (l : list Lesson.t) : list Lesson.t :=
  fold_right insert_lesson [] l.

Record CourseDetailPage : Type := mkCourseDetail {
  cd_course : CourseRow.t;
  cd_lessons : list Lesson.t;
  cd_enrollment : option EnrollmentRow.t;
  cd_enrollment_count : Z;
  cd_average_rating : Qc
}.

(** [current_user.is_authenticated and (current_user.is_admin() or
    current_user.id == course.instructor_id)]; [None] is the anonymous user. *)
Definition is_admin_or_instructor (current_user : option User.t) (course : CourseRow.t)
  : bool :=
  match current_user with
  | Some u => is_admin u || Z.eqb (User.id u) (CourseRow.instructor_id course)
  | None => false
  end.

Definition course_details (s : Store) (current_user : option User.t) (course_id : Z)
  : reply CourseDetailPage :=
  match get_course_row s course_id with
  | None => Abort404
  | Some course =>
      if negb (CourseRow.is_published course)
         && negb (is_admin_or_instructor current_user course)
      then flash_then_redirect "This course is not yet published." "main.courses"
      else
        let enrollment :=
          match current_user with
          | Some u => first_active_enrollment s (User.id u) course_id
          | None => None
          end in
        let lessons :=
          if (match enrollment with Some _ => true | None => false end)
             || is_admin_or_instructor current_user course
          then order_lessons (List.filter Lesson.is_published
                                          (lessons_of s (CourseRow.id course)))
          else order_lessons (List.filter
                                (fun l => Lesson.is_published l && Lesson.is_preview l)
                                (lessons_of s (CourseRow.id course))) in
        let enrollment_count := get_enrollment_count s course in
        match get_average_rating s course with
        | Raise e => Unhandled (Builtin e)
        | Ok average_rating =>
            Page (mkCourseDetail course lessons enrollment enrollment_count
                                 average_rating)
        end
  end.

(** ** The view [lesson_detail] *)

Record LessonPage : Type := mkLessonPage {
  lp_lesson : Lesson.t;
  lp_course : CourseRow.t;
  lp_all_lessons : list Lesson.t;
  lp_current_index : Z;
  lp_prev_lesson : option Lesson.t;
  lp_next_lesson : option Lesson.t
}.

Definition get_lesson (s : Store) (lesson_id : Z) : option Lesson.t :=
  List.find (fun l => Z.eqb (Lesson.id l) lesson_id) (lessons s).

(** [next((i for i, l in enumerate(all_lessons) if l.id == lesson_id), 0)],
    counting from [i]. *)
Fixpoint first_index (lesson_id : Z) (l : list Lesson.t) (i : Z) : option Z :=
  match l with
  | [] => None
  | x :: l' =>
      if Z.eqb (Lesson.id x) lesson_id then Some i
      else first_index lesson_id l' (i + 1)
  end.

(** [l[i]]: a negative index counts from the end; out of range raises. *)
Definition getitem {A : Type} (l : list A) (i : Z) : exc + A :=
  let n := Z.of_nat (length l) in
  let j := if i <? 0 then i + n else i in
  if (0 <=? j) && (j <? n) then
    match nth_error l (Z.to_nat j) with
    | Some x => inr x
    | None => inl IndexError
    end
  else inl IndexError.

Definition touch (now : Z) (e : EnrollmentRow.t) : EnrollmentRow.t :=
  EnrollmentRow.mk (EnrollmentRow.id e) (EnrollmentRow.user_id e)
                   (EnrollmentRow.course_id e) (EnrollmentRow.status e)
                   (EnrollmentRow.is_active e) (EnrollmentRow.progress_percentage e)
                   (EnrollmentRow.rating e) (EnrollmentRow.enrolled_at e)
                   (EnrollmentRow.completed_at e) (Some now).

Definition lesson_detail (now : Z) (s : Store) (current_user : User.t) (lesson_id : Z)
  : Store * reply LessonPage :=
  match get_lesson s lesson_id with
  | None => (s, Abort404)
  | Some lesson =>
      match get_course_row s (Lesson.course_id lesson) with
      | None => (s, Unhandled (Builtin AttributeError))
      | Some course =>
          if negb (can_be_accessed_by_user (db_of s) (course_core course) current_user)
             && negb (Lesson.is_preview lesson)
          then (s, flash_then_redirect
                     "You must be enrolled in this course to access this lesson."
                     "main.course_detial")
          else
            let all_lessons :=
              order_lessons (List.filter Lesson.is_published
                                         (lessons_of s (CourseRow.id course))) in
            let current_index := default 0 (first_index lesson_id all_lessons 0) in
            let prev_lesson :=
              if 0 <? current_index
              then sum_map id Some (getitem all_lessons (current_index - 1))
              else inr None in
            let next_lesson :=
              if current_index <? Z.of_nat (length all_lessons) - 1
              then sum_map id Some (getitem all_lessons (current_index + 1))
              else inr None in
            match prev_lesson, next_lesson with
            | inl e, _ => (s, Unhandled e)
            | _, inl e => (s, Unhandled e)
            | inr prev_lesson, inr next_lesson =>
                let s' :=
                  match first_active_enrollment s (User.id current_user)
                                                (CourseRow.id course) with
                  | Some enrollment => update_enrollment s (touch now enrollment)
                  | None => s
                  end in
                (s', Page (mkLessonPage lesson course all_lessons current_index
                                        prev_lesson next_lesson))
            end
      end
  end.

(** ** The views of [app/auth/routes.py]

    Each definition is the body of the view, entered once its decorator
    ([anonymous_required], [login_required]) has let the request through.
    The request body is a mapping from field names to texts. *)

Inductive http_method : Type := GET | POST.

Inductive auth_reply : Type :=
  | AuthJson (code : Z) (success : bool) (messages : list string)
  | AuthRender (template : string) (flashed : list string)
  | AuthRedirect (endpoint : string) (flashed : list string)
  | AuthError (e : exn).

(** Endpoints registered on the blueprint [auth]. *)
Definition auth_endpoints : list string :=
  [ "auth.login"; "auth.register"; "auth.logout"; "auth.profile";
    "auth.edit_profile"; "auth.change_password" ]%string.

(** [url_for] over both blueprints. *)
Definition app_url_for (endpoint : string) : result string :=
  if existsb (String.eqb endpoint) (main_endpoints ++ auth_endpoints) then Ok endpoint
  else Raise BuildError.

Definition auth_redirect (message endpoint : string) : auth_reply :=
  match app_url_for endpoint with
  | Ok target => AuthRedirect target [message]
  | Raise e => AuthError e
  end.

(** [data.get(key, default)] *)
Definition form_get (data : gmap string string) (key default_value : string) : string :=
  default default_value (data !! key).

(** [c in s] for a one-character [c]. *)
Fixpoint contains_char (c : ascii) (s : string) : bool :=
  match s with
  | EmptyString => false
  | String d s' => Ascii.eqb c d || contains_char c s'
  end.

(** [len(s)] *)
Definition len (s : string) : Z := Z.of_nat (String.length s).

(** [not s] on a text. *)
Definition is_empty (s : string) : bool :=
  match s with
  | EmptyString => true
  | String _ _ => false
  end.

(** [User.query.filter_by(username=...).first()], [...filter_by(email=...)...] *)
Definition first_user_by_username (s : Store) (username : string) : option UserRow.t :=
  List.find (fun u => String.eqb (UserRow.username u) username) (user_rows s).

Definition first_user_by_email (s : Store) (email : string) : option UserRow.t :=
  List.find (fun u => String.eqb (UserRow.email u) email) (user_rows s).

Definition with_user_rows (s : Store) (rows : list UserRow.t) : Store :=
  mkStore rows (course_rows s) (enrollment_rows s) (lessons s)
          (s_quizzes s) (s_questions s) (s_quiz_attempts s).

Definition add_user (s : Store) (u : UserRow.t) : Store :=
  with_user_rows s (user_rows s ++ [u]).

(** Commit of a changed user object: the row with its primary key is replaced. *)
Definition update_user (s : Store) (u' : UserRow.t) : Store :=
  with_user_rows s
    (map (fun u => if Z.eqb (UserRow.id u) (UserRow.id u') then u' else u) (user_rows s)).

Definition next_user_id (s : Store) : Z :=
  1 + fold_right Z.max 0 (map UserRow.id (user_rows s)).

(** [when b then [x] else []]: one [errors.append(x)] under an [if]. *)
Definition append_if (b : bool) (x : string) (errors : list string) : list string :=
  if b then errors ++ [x] else errors.

Section Passwords.

(** [werkzeug.security.generate_password_hash], [check_password_hash]. *)
Variable generate_password_hash : string -> string.
Variable check_password_hash : string -> string -> bool.

Definition set_password (self : UserRow.t) (password : string) : UserRow.t :=
  UserRow.mk (UserRow.id self) (UserRow.username self) (UserRow.email self)
             (generate_password_hash password)
             (UserRow.first_name self) (UserRow.last_name self) (UserRow.role self)
             (UserRow.is_active self) (UserRow.bio self) (UserRow.timezone self)
             (UserRow.language self).

Definition check_password (self : UserRow.t) (password : string) : bool :=
  check_password_hash (UserRow.password_hash self) password.

(** [request.is_json()]: [is_json] is a property holding a [bool], and a
    [bool] is not callable. *)
Definition call_is_json (is_json : bool) : result bool := Raise TypeError.

(** The validation of [register]: the list [errors]. *)
Definition register_errors (s : Store) (username email password first_name last_name
    : string) : list string :=
  let errors := [] in
  let errors := append_if (is_empty username || (len username <? 3))
                  "Username must be at least 3 characters long." errors in
  let errors := append_if (is_empty email || negb (contains_char "@" email))
                  "Please provide a valid email address." errors in
  let errors := append_if (is_empty password || (len password <? 6))
                  "Password must be at least 6 characters long." errors in
  let errors := append_if (is_empty first_name) "First name is required." errors in
  let errors := append_if (is_empty last_name) "Last name is required." errors in
  let errors := append_if (match first_user_by_username s username with
                           | Some _ => true | None => false end)
                  "Username already exists. Please choose a different one." errors in
  let errors := append_if (match first_user_by_email s email with
                           | Some _ => true | None => false end)
                  "Email already registered. Please use a different email." errors in
  errors.

Definition register (method : http_method) (is_json : bool)
    (data : gmap string string) (s : Store) : Store * auth_reply :=
  match method with
  | GET => (s, AuthRender "auth/register.html" [])
  | POST =>
      let username := strip (form_get data "username" "") in
      let email := lower (strip (form_get data "email" "")) in
      let password := form_get data "password" "" in
      let first_name := strip (form_get data "first_name" "") in
      let last_name := strip (form_get data "last_name" "") in
      let role := strip (form_get data "role" "student") in
      let role := if existsb (String.eqb role) ["student"; "teacher"]%string
                  then role else "student"%string in
      let errors := register_errors s username email password first_name last_name in
      match errors with
      | _ :: _ =>
          if is_json then (s, AuthJson 400 false errors)
          else (s, AuthRender "auth/register.html" errors)
      | [] =>
          let user := UserRow.mk (next_user_id s) username email EmptyString
                                 first_name last_name role true None "UTC" "en" in
          let user := set_password user password in
          (* try: add, commit, then [if request.is_json(): ...];
             except Exception: rollback (nothing uncommitted is left) *)
          let s' := add_user s user in
          let on_exception :=
            let error_msg :=
              "An error occured during registration. Please try again"%string in
            if is_json then (s', AuthJson 500 false [error_msg])
            else (s', AuthRender "auth/register.html" [error_msg]) in
          match call_is_json is_json with
          | Raise _ => on_exception
          | Ok true =>
              match app_url_for "auth_login" with
              | Raise _ => on_exception
              | Ok _ =>
                  (s', AuthJson 200 true
                         ["Registration successful! Please log in."%string])
              end
          | Ok false =>
              (s', AuthRender "auth/register.html"
                     ["Registration successful! Please log in with your cred."%string])
          end
      end
  end.

(** [change_password] for the logged-in [current_user]. *)
Definition change_password (is_json : bool) (data : gmap string string) (s : Store)
    (current_user : UserRow.t) : Store * auth_reply :=
  let current_password := form_get data "current_password" "" in
  let new_password := form_get data "new_password" "" in
  let confirm_password := form_get data "confirm_password" "" in
  let refuse (error_msg : string) :=
    if is_json then (s, AuthJson 400 false [error_msg])
    else (s, auth_redirect error_msg "auth.profile") in
  if is_empty current_password || is_empty new_password || is_empty confirm_password
  then refuse "All password fields are required."
  else if negb (check_password current_user current_password)
  then refuse "Current password is incorrect."
  else if negb (String.eqb new_password confirm_password)
  then refuse "New passwords do not match"
  else if len new_password <? 6
  then refuse "New password must be at least 6 chars long"
  else
    let s' := update_user s (set_password current_user new_password) in
    if is_json then (s', AuthJson 200 true ["Password changed successfully"%string])
    else (s', auth_redirect "Password changed successfully" "auth.profile").

End Passwords.

(** [edit_profile] for the logged-in [current_user]. *)
Definition edit_profile (method : http_method) (is_json : bool)
    (data : gmap string string) (s : Store) (current_user : UserRow.t)
  : Store * auth_reply :=
  match method with
  | GET => (s, AuthRender "auth/edit_profile.html" [])
  | POST =>
      let edited :=
        UserRow.mk (UserRow.id current_user) (UserRow.username current_user)
                   (UserRow.email current_user) (UserRow.password_hash current_user)
                   (strip (form_get data "first_name" (UserRow.first_name current_user)))
                   (strip (form_get data "last_name" (UserRow.last_name current_user)))
                   (UserRow.role current_user) (UserRow.is_active current_user)
                   (match data !! "bio"%string with
                    | Some b => Some b
                    | None => UserRow.bio current_user
                    end)
                   (form_get data "timezone" (UserRow.timezone current_user))
                   (form_get data "language" (UserRow.language current_user)) in
      let new_username := strip (form_get data "username" "") in
      let taken :=
        negb (is_empty new_username)
        && negb (String.eqb new_username (UserRow.username current_user))
        && (match first_user_by_username s new_username with
            | Some _ => true | None => false end) in
      if taken then
        let error_msg :=
          "Username already exists. Please choose a different one."%string in
        if is_json then (s, AuthJson 400 false [error_msg])
        else (s, AuthRender "auth/edit_profile.html" [error_msg])
      else
        (* [current_user.user = new_username] sets no column *)
        let s' := update_user s edited in
        if is_json then (s', AuthJson 200 true ["Profile updated successfully"%string])
        else (s', auth_redirect "Profile updated successfully!" "auth.profile")
  end.

(** ** The endpoint [delete_course] ([app/api/courses.py])

    The body under its decorators [login_required] and [role_required]. *)

(** [db.session.delete(course)] with the cascades of the relationships:
    the lessons, enrollments and quizzes of the course go with it, and with
    each quiz its questions and attempts. *)
Definition cascade_delete (s : Store) (course : CourseRow.t) : Store :=
  let cid := CourseRow.id course in
  let gone (quiz_id : Z) : bool :=
    existsb (fun q => Z.eqb (Quiz.id q) quiz_id && Z.eqb (Quiz.course_id q) cid)
            (s_quizzes s) in
  mkStore (user_rows s)
          (List.filter (fun c => negb (Z.eqb (CourseRow.id c) cid)) (course_rows s))
          (List.filter (fun e => negb (Z.eqb (EnrollmentRow.course_id e) cid))
                       (enrollment_rows s))
          (List.filter (fun l => negb (Z.eqb (Lesson.course_id l) cid)) (lessons s))
          (List.filter (fun q => negb (Z.eqb (Quiz.course_id q) cid)) (s_quizzes s))
          (List.filter (fun q => negb (gone (Question.quiz_id q))) (s_questions s))
          (List.filter (fun a => negb (gone (QuizAttempt.quiz_id a))) (s_quiz_attempts s)).

Definition delete_course_try (s : Store) (current_user : User.t) (course_id : Z)
  : Store * (exc + reply unit) :=
  match get_course_row s course_id with
  | None => (s, inl NotFound)
  | Some course =>
      if negb (is_admin current_user)
         && negb (Z.eqb (CourseRow.instructor_id course) (User.id current_user))
      then (s, inr (Json 403 false "Access Denied"))
      else
        let active_enrollments :=
          Z.of_nat (length (List.filter EnrollmentRow.is_active
                                        (enrollments_of s (CourseRow.id course)))) in
        if 0 <? active_enrollments
        then (s, inr (Json 400 false "Cannot delete course with active enrollments"))
        else (cascade_delete s course, inr (Json 200 true "Course delete successfully"))
  end.

Definition delete_course (s : Store) (current_user : User.t) (course_id : Z)
  : Store * reply unit :=
  match delete_course_try s current_user course_id with
  | (s', inr r) => (s', r)
  | (_, inl _) => (s, Json 500 false "Failed to delete course")
  end.
(** * Specification-side definitions and concrete inputs *)

(** The specification's reading of [correctnessOf], written without the
    code's [strip] and [lower]: the answer is normalised by removing the
    whitespace around it and replacing each capital letter by its small
    letter. *)

(** The whitespace characters of the ASCII range: TAB, LF, VT, FF, CR, FS,
    GS, RS, US and the space. *)
Definition ascii_whitespace : list ascii :=
  [ "009"; "010"; "011"; "012"; "013"; "028"; "029"; "030"; "031"; " " ]%char.

Definition whitespace_only (s : string) : Prop :=
  forall c, In c (list_ascii_of_string s) -> In c ascii_whitespace.

(** [t] is [s] without its surrounding whitespace: [s] is [t] between two
    runs of whitespace, and [t] neither starts nor ends with whitespace. *)
Definition trimmed_of (s t : string) : Prop :=
  exists pre post,
    s = (pre ++ t ++ post)%string
    /\ whitespace_only pre /\ whitespace_only post
    /\ (forall c r, t = String c r -> ~ In c ascii_whitespace)
    /\ (forall r c, t = (r ++ String c EmptyString)%string -> ~ In c ascii_whitespace).

(** The capital letters and, at the same positions, their small letters. *)
Definition capital_letters : string := "ABCDEFGHIJKLMNOPQRSTUVWXYZ".
Definition small_letters : string := "abcdefghijklmnopqrstuvwxyz".

Definition letter_pairs : list (ascii * ascii) :=
  combine (list_ascii_of_string capital_letters) (list_ascii_of_string small_letters).

(** [d] is [c] lowercased: the small letter of the capital [c], or [c]
    itself when [c] is no capital. *)
Definition lowercase_char_of (c d : ascii) : Prop :=
  In (c, d) letter_pairs
  \/ (~ In c (map fst letter_pairs) /\ d = c).

Inductive lowercase_of : string -> string -> Prop :=
  | lowercase_nil : lowercase_of EmptyString EmptyString
  | lowercase_cons (c d : ascii) (s t : string) :
      lowercase_char_of c d -> lowercase_of s t ->
      lowercase_of (String c s) (String d t).

Definition normalized_of (s n : string) : Prop :=
  exists t, trimmed_of s t /\ lowercase_of t n.

(** The text of a submitted value, as [str()] gives it. *)
Inductive text_of : pyval -> string -> Prop :=
  | text_of_str (s : string) : text_of (VStr s) s
  | text_of_true : text_of (VBool true) "True"
  | text_of_false : text_of (VBool false) "False"
  | text_of_none : text_of VNone "None"
  | text_of_int (n : Z) : text_of (VInt n) (NilZero.string_of_int (Z.to_int n)).

(** Every character is below 128. *)
Definition is_ascii (s : string) : bool :=
  forallb (fun c => (N_of_ascii c <? 128)%N) (list_ascii_of_string s).

Definition recognized_type (ty : string) : Prop :=
  ty = "multiple_choice"%string \/ ty = "true_false"%string
  \/ ty = "short_answer"%string.

Definition correctnessOf_spec (question : Question.t) (submitted : pyval) : Prop :=
  recognized_type (Question.question_type question)
  /\ exists text n,
       text_of submitted text
       /\ normalized_of text n
       /\ normalized_of (Question.correct_answer question) n.

(** [credited d q]: the answer map [d] has a non-None entry for the id of
    [q] and [check_answer] accepts it. *)
Definition credited (d : gmap string pyval) (q : Question.t) : bool :=
  let v := dict_get d (py_str (VInt (Question.id q))) in
  is_not_None v && check_answer q v.

(** The scenario of the specification: a quiz with two questions worth 1
    and 3 points, passing score 70; only the 3-point question is answered,
    correctly. *)
Definition scenario_q1 : Question.t := Question.mk 1 1 "multiple_choice" "a" 1 0.
Definition scenario_q2 : Question.t := Question.mk 2 1 "short_answer" "b" 3 1.
Definition scenario_quiz : Quiz.t := Quiz.mk 1 1 (Some 3) 70 true false.

Definition dquote : string := String "034" EmptyString.

(** The stored text [{"2": "b"}]. *)
Definition scenario_answers_text : string :=
  ("{" ++ dquote ++ "2" ++ dquote ++ ": " ++ dquote ++ "b" ++ dquote ++ "}")%string.

(** The mapping that text denotes. *)
Definition scenario_answers : gmap string pyval := {[ "2"%string := VStr "b" ]}.

Definition scenario_attempt : QuizAttempt.t :=
  QuizAttempt.mk 1 7 1 "completed" None None None
                 (Some scenario_answers_text) (Some 0) (Some 5).

Definition scenario_db : DB :=
  mkDB [Course.mk 1] [Enrollment.mk 7 1 true] [scenario_quiz]
       [scenario_q1; scenario_q2] [scenario_attempt].

(** A stored attempt whose answers text is the empty JSON object [{}]. *)
Definition empty_object_attempt : QuizAttempt.t :=
  QuizAttempt.mk 1 7 1 "completed" None None None (Some "{}"%string) (Some 0) (Some 5).

(** A quiz without questions and a completed attempt on it. *)
Definition no_question_quiz : Quiz.t := Quiz.mk 1 1 (Some 3) 70 true false.

Definition no_question_db : DB :=
  mkDB [Course.mk 1] [Enrollment.mk 7 1 true] [no_question_quiz] []
       [empty_object_attempt].

(** [a] is a completed attempt of [user] on [quiz]. *)
Definition counts_for (quiz : Quiz.t) (user : User.t) (a : QuizAttempt.t) : Prop :=
  QuizAttempt.quiz_id a = Quiz.id quiz
  /\ QuizAttempt.user_id a = User.id user
  /\ QuizAttempt.status a = "completed"%string.

(** [s] is the score of a completed attempt of [user] on [quiz]. *)
Definition eligible_score (db : DB) (quiz : Quiz.t) (user : User.t) (s : Qc) : Prop :=
  exists a, In a (quiz_attempts db) /\ counts_for quiz user a
            /\ QuizAttempt.score a = Some s.






(** *** Binary64 arithmetic

    The floats of the interpreter are IEEE 754 binary64 numbers, which the
    kernel's primitive floats implement.  A score is carried as the rational
    it denotes; the conversions below are exact for the integers below
    [2^53] and for the binary64 numbers whose numerator is below [2^53] and
    whose denominator is below [2^63] when written in lowest terms. *)

Definition binary64_of_Z (z : Z) : PrimFloat.float :=
  match z with
  | Z0 => PrimFloat.zero
  | Zpos _ => PrimFloat.of_uint63 (Uint63.of_Z z)
  | Zneg p => PrimFloat.opp (PrimFloat.of_uint63 (Uint63.of_Z (Zpos p)))
  end.

Definition binary64_of_Qc (q : Qc) : PrimFloat.float :=
  PrimFloat.div (binary64_of_Z (Qnum q)) (binary64_of_Z (Zpos (Qden q))).

(** The rational a finite binary64 number denotes. *)
Definition Qc_of_binary64 (f : PrimFloat.float) : Qc :=
  match FloatOps.Prim2SF f with
  | SpecFloat.S754_finite s m e =>
      Q2Qc (inject_Z (if s then Zneg m else Zpos m) * Qpower (2 # 1) e)
  | _ => 0%Qc
  end.

(** [sum] by left-to-right binary64 addition, starting from 0. *)
Definition binary64_sum (l : list Qc) : Qc :=
  Qc_of_binary64 (fold_left PrimFloat.add (map binary64_of_Qc l) PrimFloat.zero).

(** [x / n] in binary64: the quotient rounded to the nearest binary64 number. *)
Definition binary64_truediv (x : Qc) (n : Z) : result Qc :=
  if Z.eqb n 0 then Raise ZeroDivisionError
  else Ok (Qc_of_binary64 (PrimFloat.div (binary64_of_Qc x) (binary64_of_Z n))).



(** The flash message of the attempt-limit rejection. *)
Definition limit_message : string :=
  "You have reached the maximum number of attempts for this quiz.".

(** [with_published b db]: [db] with the published flag of every quiz set to [b]. *)
Definition set_published (b : bool) (quiz : Quiz.t) : Quiz.t :=
  Quiz.mk (Quiz.id quiz) (Quiz.course_id quiz) (Quiz.max_attemtps quiz)
          (Quiz.passing_score quiz) b (Quiz.is_randomized quiz).

Definition with_published (b : bool) (db : DB) : DB :=
  mkDB (courses db) (enrollments db) (map (set_published b) (quizzes db))
       (questions db) (quiz_attempts db).

(** An enrolled student. *)
Definition student : User.t := User.mk 7 "student".

(** A quiz that is not published, in a course the student is enrolled in. *)
Definition unpublished_quiz : Quiz.t := Quiz.mk 1 1 (Some 3) 70 false false.

Definition unpublished_db : DB :=
  mkDB [Course.mk 1] [Enrollment.mk 7 1 true] [unpublished_quiz]
       [scenario_q1; scenario_q2] [].

(** A quiz that allows one attempt, and two requests of the same student. *)
Definition single_attempt_quiz : Quiz.t := Quiz.mk 1 1 (Some 1) 70 true false.

Definition single_attempt_db : DB :=
  mkDB [Course.mk 1] [Enrollment.mk 7 1 true] [single_attempt_quiz]
       [scenario_q1; scenario_q2] [].

Definition two_requests : list request :=
  [ mkRequest 10 student 1 Arrived; mkRequest 20 student 1 Arrived ].

(** A quiz that allows two attempts. *)
Definition two_attempt_quiz : Quiz.t := Quiz.mk 1 1 (Some 2) 70 true true.

Definition two_attempt_db : DB :=
  mkDB [Course.mk 1] [Enrollment.mk 7 1 true] [two_attempt_quiz]
       [scenario_q1; scenario_q2] [].

(** Two databases that hold the same randomized quiz with different
    question sets. *)
Definition randomized_quiz : Quiz.t := Quiz.mk 1 1 (Some 3) 70 true true.

Definition scenario_q3 : Question.t := Question.mk 3 1 "true_false" "true" 2 2.

Definition two_question_db : DB :=
  mkDB [Course.mk 1] [Enrollment.mk 7 1 true] [randomized_quiz]
       [scenario_q1; scenario_q2] [].

Definition three_question_db : DB :=
  mkDB [Course.mk 1] [Enrollment.mk 7 1 true] [randomized_quiz]
       [scenario_q1; scenario_q2; scenario_q3] [].

(** A parser for the answers text that accepts everything as the empty map. *)
Definition const_answers_loads (s : string) : result (gmap string pyval) := Ok ∅.







(** ** Statements about the further methods and views *)

(** An active enrollment row of [user] in [course]. *)
Definition active_enrollment (db : DB) (course : Course.t) (user : User.t)
    (e : Enrollment.t) : Prop :=
  In e (enrollments db)
  /\ Enrollment.course_id e = Course.id course
  /\ Enrollment.user_id e = User.id user
  /\ Enrollment.is_active e = true.

(** A completed attempt without stored answers, in the scenario database. *)
Definition blank_attempt : QuizAttempt.t :=
  QuizAttempt.mk 2 7 1 "completed" None None None None (Some 0) (Some 5).

(** A codec for lists of texts in the format [json.dumps] writes,
    [["a", "b"]], for texts without quotes, backslashes and control
    characters (which JSON escapes). *)
Definition quoted (x : string) : string := (dquote ++ x ++ dquote)%string.

Fixpoint join_items (l : list string) : string :=
  match l with
  | [] => EmptyString
  | [x] => quoted x
  | x :: l => (quoted x ++ ", " ++ join_items l)%string
  end.

Definition list_dumps (l : list string) : string := ("[" ++ join_items l ++ "]")%string.

Inductive parse_state : Type :=
  | AtStart
  | AfterOpen
  | InText (text : string)
  | AfterText
  | AfterComma
  | BeforeText.

Definition at_end (rest : string) (items : list string) : result (list string) :=
  match rest with
  | EmptyString => Ok items
  | _ => Raise JSONDecodeError
  end.

Fixpoint parse_list (st : parse_state) (items : list string) (s : string)
  : result (list string) :=
  match s with
  | EmptyString => Raise JSONDecodeError
  | String c rest =>
      match st with
      | AtStart =>
          if Ascii.eqb c "[" then parse_list AfterOpen items rest
          else Raise JSONDecodeError
      | AfterOpen =>
          if Ascii.eqb c "]" then at_end rest items
          else if Ascii.eqb c "034" then parse_list (InText EmptyString) items rest
          else Raise JSONDecodeError
      | InText text =>
          if Ascii.eqb c "034" then parse_list AfterText (items ++ [text]) rest
          else parse_list (InText (text ++ String c EmptyString)) items rest
      | AfterText =>
          if Ascii.eqb c "]" then at_end rest items
          else if Ascii.eqb c "," then parse_list AfterComma items rest
          else Raise JSONDecodeError
      | AfterComma =>
          if Ascii.eqb c " " then parse_list BeforeText items rest
          else Raise JSONDecodeError
      | BeforeText =>
          if Ascii.eqb c "034" then parse_list (InText EmptyString) items rest
          else Raise JSONDecodeError
      end
  end.

Definition list_loads (s : string) : result (list string) := parse_list AtStart [] s.

Definition plain_question : QuestionRow.t :=
  QuestionRow.mk scenario_q1 "Pick one" None None.

(** A question that already has options and an explanation. *)
Definition capital_question : QuestionRow.t :=
  QuestionRow.mk scenario_q1 "Capital of France?" (Some (list_dumps ["Rome"]))
                 (Some "See chapter 2").

(** The (user, course) pairs and the primary keys of the enrollment table. *)
Definition enrollment_pairs (s : Store) : list (Z * Z) :=
  map (fun e => (EnrollmentRow.user_id e, EnrollmentRow.course_id e)) (enrollment_rows s).

Definition enrollment_ids (s : Store) : list Z :=
  map EnrollmentRow.id (enrollment_rows s).

(** One row per primary key and per (user, course) pair, as the unique
    constraint of the table demands. *)
Definition enrollments_unique (s : Store) : Prop :=
  NoDup (enrollment_ids s) /\ NoDup (enrollment_pairs s).

(** A published course without enrollments, taught by user 3. *)
Definition open_course : CourseRow.t := CourseRow.mk 1 3 true.

Definition open_store : Store :=
  mkStore [] [open_course] []
          [ Lesson.mk 1 1 20 (Some 10) true false;
            Lesson.mk 2 1 10 (Some 5) true true;
            Lesson.mk 3 1 30 None false true;
            Lesson.mk 4 1 40 (Some 15) true false;
            Lesson.mk 5 2 5 (Some 5) true true ]
          [two_attempt_quiz] [scenario_q1; scenario_q2] [].

(** The order of [order_by(Lesson.order_index)]. *)
Definition lesson_le (a b : Lesson.t) : Prop :=
  Lesson.order_index a <= Lesson.order_index b.

(** The viewer is logged in and some row of the enrollment table is an
    active enrollment of the viewer in the course [cid]. *)
Definition has_active_enrollment (s : Store) (viewer : option User.t) (cid : Z) : Prop :=
  exists u e, viewer = Some u /\ In e (enrollment_rows s)
              /\ EnrollmentRow.user_id e = User.id u
              /\ EnrollmentRow.course_id e = cid
              /\ EnrollmentRow.is_active e = true.

(** The viewer is logged in and is an admin or the instructor of the course. *)
Definition manages (viewer : option User.t) (course : CourseRow.t) : Prop :=
  exists u, viewer = Some u
            /\ (User.role u = "admin"%string
                \/ User.id u = CourseRow.instructor_id course).

(** A store with one active enrollment of the student in the open course. *)
Definition enrolled_store : Store :=
  mkStore [] [open_course]
          [EnrollmentRow.mk 1 7 1 "active" true 0%Qc (Some 4) (Some 0) None None]
          (lessons open_store) [two_attempt_quiz] [scenario_q1; scenario_q2] [].

(** The page [course_details] renders for the enrolled student: the three
    published lessons of the course in [order_index] order, previews or
    not, and the enrollment row. *)
Definition enrolled_page : CourseDetailPage :=
  mkCourseDetail open_course
                 [ Lesson.mk 2 1 10 (Some 5) true true;
                   Lesson.mk 1 1 20 (Some 10) true false;
                   Lesson.mk 4 1 40 (Some 15) true false ]
                 (Some (EnrollmentRow.mk 1 7 1 "active" true 0%Qc (Some 4) (Some 0)
                                         None None))
                 1 (Qc_of_Z 4).

(** A stand-in for the password hashing functions, for concrete runs. *)
Definition toy_hash (password : string) : string := ("h:" ++ password)%string.
Definition toy_check (hash password : string) : bool := String.eqb hash (toy_hash password).

Definition alice : UserRow.t :=
  UserRow.mk 1 "alice" "alice@example.org" (toy_hash "secret1") "Alice" "A"
             "student" true None "UTC" "en".

Definition one_user_store : Store := mkStore [alice] [] [] [] [] [] [].

(** A registration form that passes the validation and asks for the role
    [admin]. *)
Definition bob_form : gmap string string :=
  {[ "username"%string := " bob "%string; "email"%string := "Bob@Example.org"%string;
     "password"%string := "hunter22"%string; "first_name"%string := "Bob"%string;
     "last_name"%string := "B"%string; "role"%string := "admin"%string ]}.


(** The number of rows of a table that satisfy [P]. *)
Definition count_rows {A : Type} (P : A -> Prop) `{!forall x, Decision (P x)}
    (rows : list A) : Z :=
  Z.of_nat (length (filter P rows)).

(** The active enrollments of a user, and those among them that are
    completed. *)
Definition user_active (u : User.t) (e : EnrollmentRow.t) : Prop :=
  EnrollmentRow.user_id e = User.id u /\ EnrollmentRow.is_active e = true.

Definition user_active_completed (u : User.t) (e : EnrollmentRow.t) : Prop :=
  EnrollmentRow.user_id e = User.id u /\ EnrollmentRow.is_active e = true
  /\ EnrollmentRow.status e = "completed"%string.

(** The active enrollments in a course, and those among them that are
    completed. *)
Definition course_active (c : CourseRow.t) (e : EnrollmentRow.t) : Prop :=
  EnrollmentRow.course_id e = CourseRow.id c /\ EnrollmentRow.is_active e = true.

Definition course_active_completed (c : CourseRow.t) (e : EnrollmentRow.t) : Prop :=
  EnrollmentRow.course_id e = CourseRow.id c /\ EnrollmentRow.is_active e = true
  /\ EnrollmentRow.status e = "completed"%string.

(** The attempts of a user, whatever their quiz and status. *)
Definition attempt_of_user (u : User.t) (a : QuizAttempt.t) : Prop :=
  QuizAttempt.user_id a = User.id u.

#[global] Instance user_active_dec u e : Decision (user_active u e).
Proof. unfold user_active. apply _. Defined.

#[global] Instance user_active_completed_dec u e : Decision (user_active_completed u e).
Proof. unfold user_active_completed. apply _. Defined.

#[global] Instance course_active_dec c e : Decision (course_active c e).
Proof. unfold course_active. apply _. Defined.

#[global] Instance course_active_completed_dec c e :
  Decision (course_active_completed c e).
Proof. unfold course_active_completed. apply _. Defined.

#[global] Instance attempt_of_user_dec u a : Decision (attempt_of_user u a).
Proof. unfold attempt_of_user. apply _. Defined.

(** A store with three enrollments of the student (two active, one of them
    completed), one enrollment of another user, and three attempts of which
    two are the student's. *)
Definition busy_store : Store :=
  mkStore [] [open_course; CourseRow.mk 2 3 true; CourseRow.mk 3 3 true]
          [ EnrollmentRow.mk 1 7 1 "completed" true (Qc_of_Z 100) None (Some 0) (Some 9) None;
            EnrollmentRow.mk 2 7 2 "active" true 0%Qc None (Some 0) None None;
            EnrollmentRow.mk 3 7 3 "completed" false (Qc_of_Z 100) None (Some 0) (Some 9) None;
            EnrollmentRow.mk 4 8 1 "active" true 0%Qc None (Some 0) None None ]
          [] [two_attempt_quiz] [scenario_q1; scenario_q2]
          [ QuizAttempt.mk 1 7 1 "completed" None None None None None None;
            QuizAttempt.mk 2 8 1 "in_progress" None None None None None None;
            QuizAttempt.mk 3 7 1 "in_progress" None None None None None None ].
(** * Properties *)

(** ** The string builtins *)

Lemma lstrip_no_leading_space (s : string) :
  match lstrip s with
  | EmptyString => True
  | String c _ => is_space c = false
  end.
Proof.
  induction s as [|c s IH]; simpl; [exact I|].
  destruct (is_space c) eqn:Hc; [exact IH | exact Hc].
Qed.

Lemma append_String (c : ascii) (a b : string) :
  (String c a ++ b)%string = String c (a ++ b)%string.
Proof. reflexivity. Qed.

Lemma lstrip_suffix (s : string) :
  exists ws, s = (ws ++ lstrip s)%string /\ lstrip ws = EmptyString.
Proof.
  induction s as [|c s [ws [Hs Hws]]]; simpl.
  - exists EmptyString. split; reflexivity.
  - destruct (is_space c) eqn:Hc.
    + exists (String c ws). simpl. rewrite Hc, append_String, <- Hs.
      split; [reflexivity | exact Hws].
    + exists EmptyString. split; reflexivity.
Qed.

Lemma rstrip_prefix (s : string) :
  exists ws, s = (rstrip s ++ ws)%string /\ rstrip ws = EmptyString.
Proof.
  induction s as [|c s [ws [Hs Hws]]]; simpl.
  - exists EmptyString. split; reflexivity.
  - destruct (rstrip s) as [|d r] eqn:Hr.
    + change (s = ws) in Hs. subst ws. destruct (is_space c) eqn:Hc.
      * exists (String c s). split; [reflexivity|].
        simpl. rewrite Hr, Hc. reflexivity.
      * exists s. split; [reflexivity | exact Hr].
    + exists ws. rewrite append_String, <- Hs. split; [reflexivity | exact Hws].
Qed.

Lemma lower_char_idem (c : ascii) : lower_char (lower_char c) = lower_char c.
Proof.
  destruct c as [[] [] [] [] [] [] [] []]; reflexivity.
Qed.

Lemma lower_idem (s : string) : lower (lower s) = lower s.
Proof.
  induction s as [|c s IH]; simpl; [reflexivity|].
  rewrite lower_char_idem, IH. reflexivity.
Qed.

Example strip_lower_example :
  lower (strip ("  " ++ String "009" "Paris" ++ String "010" " ")) = "paris"%string.
Proof. reflexivity. Qed.

Example py_str_examples :
  py_str (VBool true) = "True"%string /\ py_str (VInt (-12)) = "-12"%string
  /\ py_str (VInt 0) = "0"%string /\ py_str (VStr "x") = "x"%string.
Proof. repeat split. Qed.

(** ** [Question.check_answer] *)

Lemma check_answer_unrecognized (q : Question.t) (a : pyval) :
  ~ recognized_type (Question.question_type q) -> check_answer q a = false.
Proof.
  intros Hn. unfold check_answer, recognized_type in *.
  repeat match goal with
  | |- context [String.eqb ?x ?y] =>
      lazymatch y with
      | String _ _ =>
          destruct (String.eqb_spec x y) as [He|_]; [exfalso; apply Hn; tauto|]
      end
  end.
  reflexivity.
Qed.

(** *** The builtins against the specification's reading *)

Lemma is_space_spec (c : ascii) : is_space c = true <-> In c ascii_whitespace.
Proof.
  assert (is_space c = existsb (Ascii.eqb c) ascii_whitespace) as ->
    by (destruct c as [[] [] [] [] [] [] [] []]; reflexivity).
  rewrite existsb_exists. split.
  - intros (d & Hd & E). apply Ascii.eqb_eq in E. subst d. exact Hd.
  - intros H. exists c. split; [exact H | apply Ascii.eqb_refl].
Qed.

Lemma lstrip_whitespace (ws : string) : lstrip ws = EmptyString <-> whitespace_only ws.
Proof.
  unfold whitespace_only. induction ws as [|c ws IH]; cbn [lstrip list_ascii_of_string].
  - split; [intros _ c [] | reflexivity].
  - destruct (is_space c) eqn:Hc.
    + rewrite IH. apply is_space_spec in Hc. split.
      * intros H d [<-|Hd]; [exact Hc | apply H; exact Hd].
      * intros H d Hd. apply H. right. exact Hd.
    + split; [discriminate|]. intros H. exfalso.
      specialize (H c (or_introl eq_refl)). apply is_space_spec in H. congruence.
Qed.

Lemma rstrip_whitespace (ws : string) : rstrip ws = EmptyString <-> whitespace_only ws.
Proof.
  unfold whitespace_only. induction ws as [|c ws IH]; cbn [rstrip list_ascii_of_string].
  - split; [intros _ c [] | reflexivity].
  - destruct (rstrip ws) as [|d r] eqn:Hr.
    + destruct (is_space c) eqn:Hc.
      * apply is_space_spec in Hc. split; [|reflexivity].
        intros _ e [<-|He]; [exact Hc | apply IH; [reflexivity | exact He]].
      * split; [discriminate|]. intros H. exfalso.
        specialize (H c (or_introl eq_refl)). apply is_space_spec in H. congruence.
    + split; [discriminate|]. intros H. exfalso.
      assert (String d r = EmptyString) as E; [|discriminate].
      apply IH. intros e He. apply H. right. exact He.
Qed.

Lemma rstrip_no_trailing_space (s r : string) (c : ascii) :
  rstrip s = (r ++ String c EmptyString)%string -> is_space c = false.
Proof.
  revert r. induction s as [|d s IH]; intros r; cbn [rstrip].
  - destruct r; discriminate.
  - destruct (rstrip s) as [|e t] eqn:Hs.
    + destruct (is_space d) eqn:Hd; [destruct r; discriminate|].
      destruct r as [|x r]; [intros [= <-]; exact Hd|].
      rewrite append_String. intros [= _ H]. destruct r; discriminate.
    + destruct r as [|x r]; [discriminate|].
      rewrite append_String. intros [= _ H]. apply (IH r). exact H.
Qed.

Lemma lstrip_app_whitespace (pre y : string) :
  whitespace_only pre -> lstrip (pre ++ y) = lstrip y.
Proof.
  induction pre as [|c pre IH]; intros H; [reflexivity|].
  rewrite append_String. cbn [lstrip].
  assert (is_space c = true) as -> by (apply is_space_spec, H; left; reflexivity).
  apply IH. intros d Hd. apply H. right. exact Hd.
Qed.

Lemma rstrip_app_whitespace (x post : string) :
  whitespace_only post -> rstrip (x ++ post) = rstrip x.
Proof.
  intros H. induction x as [|c x IH].
  - change (EmptyString ++ post)%string with post.
    apply rstrip_whitespace. exact H.
  - rewrite append_String. cbn [rstrip]. rewrite IH. reflexivity.
Qed.

Lemma rstrip_fixed (t : string) :
  (forall r c, t = (r ++ String c EmptyString)%string -> ~ In c ascii_whitespace) ->
  rstrip t = t.
Proof.
  induction t as [|c t IH]; intros H; [reflexivity|].
  cbn [rstrip]. rewrite IH.
  - destruct t as [|d t']; [|reflexivity].
    destruct (is_space c) eqn:Hc; [|reflexivity].
    exfalso. apply (H EmptyString c eq_refl). apply is_space_spec. exact Hc.
  - intros r d ->. apply (H (String c r) d). reflexivity.
Qed.

Lemma strip_trimmed (s : string) : trimmed_of s (strip s).
Proof.
  unfold trimmed_of, strip.
  destruct (lstrip_suffix s) as (pre & Hs & Hpre).
  destruct (rstrip_prefix (lstrip s)) as (post & Hl & Hpost).
  exists pre, post.
  split; [rewrite <- Hl; exact Hs|].
  split; [apply lstrip_whitespace; exact Hpre|].
  split; [apply rstrip_whitespace; exact Hpost|].
  split.
  - intros c r E Hc. apply is_space_spec in Hc.
    pose proof (lstrip_no_leading_space s) as Hn.
    rewrite Hl, E, append_String in Hn. congruence.
  - intros r c E Hc. apply is_space_spec in Hc.
    rewrite (rstrip_no_trailing_space _ _ _ E) in Hc. discriminate.
Qed.

Lemma trimmed_unique (s t : string) : trimmed_of s t -> t = strip s.
Proof.
  intros (pre & post & -> & Hpre & Hpost & Hfirst & Hlast). unfold strip.
  rewrite lstrip_app_whitespace by exact Hpre.
  destruct t as [|c r].
  - change (EmptyString ++ post)%string with post.
    rewrite (proj2 (lstrip_whitespace post) Hpost). reflexivity.
  - rewrite append_String. cbn [lstrip].
    assert (is_space c = false) as ->.
    { destruct (is_space c) eqn:Hc; [|reflexivity].
      exfalso. apply (Hfirst c r eq_refl). apply is_space_spec. exact Hc. }
    rewrite <- append_String, rstrip_app_whitespace by exact Hpost.
    symmetry. apply rstrip_fixed. exact Hlast.
Qed.

Lemma lower_char_spec (c d : ascii) : lowercase_char_of c d <-> d = lower_char c.
Proof.
  unfold lowercase_char_of. split.
  - intros [H | [Hn ->]].
    + cbv [letter_pairs capital_letters small_letters combine list_ascii_of_string In]
        in H.
      repeat (destruct H as [[= <- <-] | H]; [reflexivity|]). destruct H.
    + destruct (existsb (Ascii.eqb c) (map fst letter_pairs)) eqn:E.
      * exfalso. apply Hn. apply existsb_exists in E as (x & Hx & E).
        apply Ascii.eqb_eq in E. subst x. exact Hx.
      * revert E. destruct c as [[] [] [] [] [] [] [] []]; vm_compute;
          first [reflexivity | discriminate].
  - intros ->.
    destruct (existsb (fun p => Ascii.eqb (fst p) c && Ascii.eqb (snd p) (lower_char c))
                      letter_pairs) eqn:E.
    + left. apply existsb_exists in E as ([x y] & Hin & E).
      apply andb_true_iff in E as [E1 E2]. cbn [fst snd] in E1, E2.
      apply Ascii.eqb_eq in E1, E2. subst x y. exact Hin.
    + right.
      assert (existsb (Ascii.eqb c) (map fst letter_pairs) = false
              /\ lower_char c = c) as [E1 E2]
        by (revert E; destruct c as [[] [] [] [] [] [] [] []]; vm_compute;
            first [discriminate | split; reflexivity]).
      split; [|exact E2]. intros Hin.
      assert (existsb (Ascii.eqb c) (map fst letter_pairs) = true) as E3
        by (apply existsb_exists; exists c; split; [exact Hin | apply Ascii.eqb_refl]).
      congruence.
Qed.

Lemma lower_spec (s n : string) : lowercase_of s n <-> n = lower s.
Proof.
  split.
  - induction 1 as [|c d s t Hc _ IH]; [reflexivity|].
    cbn [lower]. apply lower_char_spec in Hc. congruence.
  - intros ->. induction s as [|c s IH]; cbn [lower]; constructor;
      [apply lower_char_spec; reflexivity | exact IH].
Qed.

Lemma normalized_spec (s n : string) : normalized_of s n <-> n = lower (strip s).
Proof.
  unfold normalized_of. split.
  - intros (t & Ht & Hn). apply trimmed_unique in Ht. apply lower_spec in Hn. congruence.
  - intros ->. exists (strip s). split; [apply strip_trimmed | apply lower_spec; reflexivity].
Qed.

Lemma text_of_spec (a : pyval) (t : string) : text_of a t <-> t = py_str a.
Proof.
  split.
  - intros []; reflexivity.
  - intros ->. destruct a as [|[]| |]; constructor.
Qed.

(** C6. On ASCII text, the range on which [strip] and [lower] model
    [str.strip] and [str.lower], [check_answer] (a total function into
    [bool]) answers [true] exactly when the question type is one of
    [multiple_choice], [true_false], [short_answer] and the submitted
    answer, with the whitespace around it removed and its capital letters
    replaced by small ones, equals the canonical answer treated the same
    way, one comparison for the three types; for every other type it
    answers [false]. *)
Theorem check_answer_correct (q : Question.t) (a : pyval) :
  is_ascii (py_str a) = true ->
  is_ascii (Question.correct_answer q) = true ->
  (check_answer q a = true <-> correctnessOf_spec q a)
  /\ (~ recognized_type (Question.question_type q) -> check_answer q a = false).
Proof.
  intros _ _.
  split; [|apply check_answer_unrecognized].
  unfold correctnessOf_spec.
  assert ((exists text n, text_of a text /\ normalized_of text n
                          /\ normalized_of (Question.correct_answer q) n)
          <-> lower (strip (py_str a)) = lower (strip (Question.correct_answer q)))
    as Hspec.
  { split.
    - intros (text & n & Ht & H1 & H2).
      apply text_of_spec in Ht. apply normalized_spec in H1, H2. congruence.
    - intros E. exists (py_str a), (lower (strip (py_str a))).
      split; [apply text_of_spec; reflexivity|].
      split; apply normalized_spec; [reflexivity | exact E]. }
  rewrite Hspec.
  destruct (decide (recognized_type (Question.question_type q))) as [Hr|Hn].
  - assert (check_answer q a
            = String.eqb (lower (strip (py_str a)))
                         (lower (strip (Question.correct_answer q)))) as ->.
    { unfold check_answer.
      destruct Hr as [-> | [-> | ->]]; reflexivity. }
    rewrite String.eqb_eq. tauto.
  - rewrite (check_answer_unrecognized q a Hn). split; [discriminate | tauto].
Qed.

Lemma check_answer_correct_witness :
  (is_ascii (py_str (VStr "paRIS  ")) = true
   /\ is_ascii (Question.correct_answer
                  (Question.mk 1 1 "short_answer" (String "009" " Paris ") 1 0)) = true)
  /\ (check_answer (Question.mk 1 1 "short_answer" (String "009" " Paris ") 1 0)
                   (VStr "paRIS  ") = true
      <-> correctnessOf_spec (Question.mk 1 1 "short_answer" (String "009" " Paris ") 1 0)
                             (VStr "paRIS  ")).
Proof.
  split; [split; reflexivity|].
  apply (check_answer_correct
           (Question.mk 1 1 "short_answer" (String "009" " Paris ") 1 0)
           (VStr "paRIS  ") eq_refl eq_refl).
Defined.

Example check_answer_examples :
  check_answer (Question.mk 1 1 "short_answer" " Paris " 1 0) (VStr "paris") = true
  /\ check_answer (Question.mk 1 1 "true_false" "true" 1 0) (VBool true) = true
  /\ check_answer (Question.mk 1 1 "multiple_choice" "b" 1 0) (VStr "a") = false
  /\ check_answer (Question.mk 1 1 "essay" "b" 1 0) (VStr "b") = false.
Proof. repeat split. Qed.

(** ** [QuizAttempt.get_answers_dict] *)

Lemma get_answers_dict_falsy jl (a : QuizAttempt.t) :
  truthy (QuizAttempt.answers a) = false -> get_answers_dict jl a = Ok ∅.
Proof. intros H. unfold get_answers_dict. rewrite H. reflexivity. Qed.

Lemma get_answers_dict_truthy jl (a : QuizAttempt.t) :
  truthy (QuizAttempt.answers a) = true -> get_answers_dict jl a = Raise AttributeError.
Proof. intros H. unfold get_answers_dict. rewrite H. reflexivity. Qed.

(** Whatever the parser does, the method never reaches it. *)
Lemma get_answers_dict_eval jl (a : QuizAttempt.t) :
  get_answers_dict jl a
  = if truthy (QuizAttempt.answers a) then Raise AttributeError else Ok ∅.
Proof. unfold get_answers_dict. destruct (truthy _); reflexivity. Qed.

(** C4. On the stored text [{}], which is valid JSON, [get_answers_dict]
    raises [AttributeError] (the read of [self.answer]) instead of
    returning the parsed mapping; the handler for [JSONDecodeError] does not
    catch it. *)
Theorem get_answers_dict_valid_json_raises jl :
  get_answers_dict jl empty_object_attempt = Raise AttributeError.
Proof. apply get_answers_dict_truthy. reflexivity. Qed.

(** ** The scoring loop *)

Lemma sumZ_from (l : list Z) (a : Z) : fold_left Z.add l a = a + sumZ l.
Proof.
  unfold sumZ. revert a. induction l as [|x l IH]; intros a; simpl.
  - lia.
  - rewrite (IH (a + x)), (IH (0 + x)). lia.
Qed.

Lemma sumZ_cons (x : Z) (l : list Z) : sumZ (x :: l) = x + sumZ l.
Proof. unfold sumZ at 1. simpl. apply sumZ_from. Qed.

Lemma score_loop_from (d : gmap string pyval) (qs : list Question.t) (t e : Z) :
  fold_left (score_step d) qs (t, e)
  = (t + sumZ (map Question.points qs),
     e + sumZ (map Question.points (List.filter (credited d) qs))).
Proof.
  revert t e. induction qs as [|q qs IH]; intros t e; cbn [fold_left map List.filter].
  - unfold sumZ. simpl. f_equal; lia.
  - change (score_step d (t, e) q)
      with (if credited d q
            then (t + Question.points q, e + Question.points q)
            else (t + Question.points q, e)).
    destruct (credited d q); rewrite IH; simpl; rewrite ?sumZ_cons; f_equal; lia.
Qed.

(** The loop: [total_points] is the sum of the points of all questions,
    [earned_points] the sum over the credited ones. *)
Lemma score_loop_sums (d : gmap string pyval) (qs : list Question.t) :
  score_loop d qs
  = (sumZ (map Question.points qs),
     sumZ (map Question.points (List.filter (credited d) qs))).
Proof. unfold score_loop. rewrite score_loop_from. reflexivity. Qed.

Lemma sumZ_nonneg (l : list Z) : Forall (fun x => 0 <= x) l -> 0 <= sumZ l.
Proof.
  induction 1 as [|x l Hx _ IH]; [unfold sumZ; simpl; lia|].
  rewrite sumZ_cons. lia.
Qed.

Lemma sumZ_filter_le {A : Type} (f : A -> Z) (p : A -> bool) (l : list A) :
  Forall (fun x => 0 <= f x) l ->
  0 <= sumZ (map f (List.filter p l)) <= sumZ (map f l).
Proof.
  induction 1 as [|x l Hx _ IH]; simpl.
  - unfold sumZ. simpl. lia.
  - destruct (p x); simpl; rewrite ?sumZ_cons; lia.
Qed.

Lemma score_loop_bounds (d : gmap string pyval) (qs : list Question.t) :
  Forall (fun q => 0 <= Question.points q) qs ->
  0 <= snd (score_loop d qs) <= fst (score_loop d qs).
Proof.
  intros H. rewrite score_loop_sums. simpl. apply sumZ_filter_le. exact H.
Qed.

(** ** The percentage *)

Lemma Qc_of_Z_pos (t : Z) : 0 < t -> (0 < Qc_of_Z t)%Qc.
Proof. intros H. rewrite <- Z2Qc_inj_0. apply (proj1 (Z2Qc_inj_lt 0 t)). exact H. Qed.

Lemma Qc_of_Z_nonzero (t : Z) : t <> 0 -> Qc_of_Z t <> 0%Qc.
Proof. intros H E. apply H. apply Z2Qc_inj. rewrite E, Z2Qc_inj_0. reflexivity. Qed.

Lemma percentage_pos (e t : Z) :
  0 < t -> percentage e t = Ok (Qc_of_Z e / Qc_of_Z t * Qc_of_Z 100)%Qc.
Proof.
  intros Ht. unfold percentage, truediv.
  destruct (Z.ltb_spec 0 t) as [_|]; [|lia].
  destruct (decide (Qc_of_Z t = 0%Qc)) as [E|_]; [|reflexivity].
  exfalso. apply (Qc_of_Z_nonzero t); [lia | exact E].
Qed.

Lemma percentage_nonpos (e t : Z) : t <= 0 -> percentage e t = Ok 0%Qc.
Proof.
  intros Ht. unfold percentage.
  destruct (Z.ltb_spec 0 t) as [|_]; [lia | reflexivity].
Qed.

(** The conditional guards the division: no [ZeroDivisionError]. *)
Lemma percentage_defined (e t : Z) : exists p, percentage e t = Ok p.
Proof.
  destruct (Z_lt_le_dec 0 t).
  - eexists. apply percentage_pos. assumption.
  - eexists. apply percentage_nonpos. assumption.
Qed.

Lemma percentage_range (e t : Z) (p : Qc) :
  0 <= e <= t -> percentage e t = Ok p -> (0 <= p <= Qc_of_Z 100)%Qc.
Proof.
  intros [He Het] Hp.
  destruct (Z_lt_le_dec 0 t) as [Ht|Ht].
  - rewrite (percentage_pos e t Ht) in Hp. injection Hp as <-.
    assert (0 < Qc_of_Z t)%Qc as Hqt by (apply Qc_of_Z_pos; exact Ht).
    assert (0 <= Qc_of_Z e)%Qc as Hqe
      by (rewrite <- Z2Qc_inj_0; apply (proj1 (Z2Qc_inj_le 0 e)); exact He).
    assert (0 <= Qc_of_Z 100)%Qc as Hh
      by (rewrite <- Z2Qc_inj_0; apply (proj1 (Z2Qc_inj_le 0 100)); lia).
    assert (0 <= / Qc_of_Z t)%Qc as Hinv
      by (apply Qclt_le_weak, Qcinv_pos; exact Hqt).
    assert (0 <= Qc_of_Z e / Qc_of_Z t <= 1)%Qc as [H0 H1].
    { unfold Qcdiv. split.
      - apply Qcmult_nonneg_nonneg; assumption.
      - rewrite <- (Qcmult_inv_r (Qc_of_Z t)) by (apply Qc_of_Z_nonzero; lia).
        apply Qcmult_le_mono_nonneg_r; [exact Hinv|].
        apply (proj1 (Z2Qc_inj_le e t)). exact Het. }
    split.
    + apply Qcmult_nonneg_nonneg; assumption.
    + rewrite <- (Qcmult_1_l (Qc_of_Z 100)) at 2.
      apply Qcmult_le_mono_nonneg_r; assumption.
  - rewrite (percentage_nonpos e t Ht) in Hp. injection Hp as <-.
    split; [apply Qcle_refl|].
    rewrite <- Z2Qc_inj_0. apply (proj1 (Z2Qc_inj_le 0 100)). lia.
Qed.

(** On the parsed map of the scenario the loop and the percentage give
    the figures of the specification: earned 3, total 4, percentage 75. *)
Example scenario_loop :
  score_loop scenario_answers [scenario_q1; scenario_q2] = (4, 3)
  /\ percentage 3 4 = Ok (Qc_of_Z 75).
Proof.
  split; [vm_compute; reflexivity|].
  rewrite percentage_pos by lia. f_equal. apply Qc_is_canon. reflexivity.
Qed.

(** ** [QuizAttempt.calculate_score] *)


(** A completed attempt whose answers text is non-empty cannot be scored. *)
Lemma calculate_score_truthy jl (db : DB) (a : QuizAttempt.t) :
  is_completed a = true -> truthy (QuizAttempt.answers a) = true ->
  calculate_score jl db a = Raise AttributeError.
Proof.
  unfold is_completed, calculate_score. intros -> H.
  rewrite (get_answers_dict_truthy jl a H). reflexivity.
Qed.

(** A completed attempt without answers text: every question counts for the
    total, nothing is earned. *)
Lemma calculate_score_falsy jl (db : DB) (a : QuizAttempt.t) (quiz : Quiz.t) :
  is_completed a = true -> truthy (QuizAttempt.answers a) = false ->
  get_quiz db (QuizAttempt.quiz_id a) = Some quiz ->
  exists a',
    calculate_score jl db a = Ok a'
    /\ QuizAttempt.total_points a' = Some (get_total_points db quiz)
    /\ QuizAttempt.earned_points a' = Some 0
    /\ QuizAttempt.score a' = Some 0%Qc.
Proof.
  unfold is_completed, calculate_score, get_total_points. intros -> H Hq.
  rewrite (get_answers_dict_falsy jl a H), Hq. cbn [negb bind].
  rewrite score_loop_sums.
  assert (List.filter (credited ∅) (questions_of db (Quiz.id quiz)) = []) as ->.
  { induction (questions_of db (Quiz.id quiz)) as [|q l IH]; [reflexivity|].
    cbn [List.filter]. unfold credited at 1, dict_get. rewrite lookup_empty.
    exact IH. }
  change (sumZ (map Question.points [])) with 0.
  destruct (percentage_defined 0 (sumZ (map Question.points (questions_of db (Quiz.id quiz)))))
    as [p Hp].
  rewrite Hp. cbn [bind]. eexists. split; [reflexivity|].
  cbn. repeat split. f_equal.
  destruct (Z_lt_le_dec 0 (sumZ (map Question.points (questions_of db (Quiz.id quiz)))))
    as [Ht|Ht].
  - rewrite (percentage_pos _ _ Ht) in Hp. injection Hp as <-.
    rewrite Z2Qc_inj_0. unfold Qcdiv. rewrite !Qcmult_0_l. reflexivity.
  - rewrite (percentage_nonpos _ _ Ht) in Hp. injection Hp as <-. reflexivity.
Qed.

(** The method never raises [ZeroDivisionError]. *)
Lemma calculate_score_no_zero_division jl (db : DB) (a : QuizAttempt.t) :
  calculate_score jl db a <> Raise ZeroDivisionError.
Proof.
  unfold calculate_score.
  destruct (negb _); [discriminate|].
  rewrite get_answers_dict_eval.
  destruct (truthy _); [discriminate|]. cbn [bind].
  destruct (get_quiz _ _) as [quiz|]; [|discriminate]. cbn [bind].
  destruct (score_loop _ _) as [t e].
  destruct (percentage_defined e t) as [p ->]. discriminate.
Qed.

(** C1. On the scenario of the specification (questions worth 1 and 3
    points, stored answers [{"2": "b"}], attempt completed)
    [calculate_score] raises [AttributeError] and stores nothing, where the
    specification expects earned 3, total 4, percentage 75. *)
Theorem calculate_score_scenario_raises jl :
  calculate_score jl scenario_db scenario_attempt = Raise AttributeError
  /\ after (calculate_score jl scenario_db scenario_attempt) scenario_attempt
     = scenario_attempt.
Proof.
  assert (calculate_score jl scenario_db scenario_attempt = Raise AttributeError) as H
    by (apply calculate_score_truthy; reflexivity).
  rewrite H. split; reflexivity.
Qed.

Lemma get_total_points_no_questions (db : DB) (quiz : Quiz.t) :
  questions_of db (Quiz.id quiz) = [] -> get_total_points db quiz = 0.
Proof. unfold get_total_points. intros ->. reflexivity. Qed.

(** C7. On a quiz without questions [get_total_points] is 0, but scoring a
    completed attempt whose stored answers are the text [{}] raises
    [AttributeError]: no result 0/0/0 is stored. *)
Theorem calculate_score_no_questions_raises jl :
  get_total_points no_question_db no_question_quiz = 0
  /\ calculate_score jl no_question_db empty_object_attempt = Raise AttributeError.
Proof.
  split; [reflexivity|]. apply calculate_score_truthy; reflexivity.
Qed.

(** The method reads the database only through the quiz row and its
    questions: rows added to other tables between two calls do not matter. *)
Lemma calculate_score_ext jl (db db' : DB) (a : QuizAttempt.t) :
  quizzes db' = quizzes db -> questions db' = questions db ->
  calculate_score jl db' a = calculate_score jl db a.
Proof.
  intros Hz Hq. unfold calculate_score, get_quiz, questions_of.
  rewrite Hz, Hq. reflexivity.
Qed.

(** Evaluates a closed term that holds rationals: after evaluation, equal
    rationals may differ in their proofs of being in lowest terms. *)
Ltac qc_value :=
  vm_compute;
  first [ reflexivity
        | apply Qc_is_canon; reflexivity
        | f_equal; first [reflexivity | apply Qc_is_canon; reflexivity]
        | do 2 f_equal; first [reflexivity | apply Qc_is_canon; reflexivity] ].






(** ** [Quiz.get_user_best_score] *)

Lemma py_max_spec (l : list Qc) (x : Qc) :
  (py_max x l = x \/ In (py_max x l) l)
  /\ (x <= py_max x l)%Qc
  /\ (forall y, In y l -> (y <= py_max x l)%Qc).
Proof.
  unfold py_max. revert x. induction l as [|y l IH]; intros x; cbn [fold_left].
  - split; [left; reflexivity|]. split; [apply Qcle_refl|]. intros y [].
  - set (x' := if decide (x < y)%Qc then y else x).
    assert ((x <= x')%Qc /\ (y <= x')%Qc /\ (x' = x \/ x' = y)) as (Hx & Hy & Hx').
    { subst x'. destruct (decide (x < y)%Qc) as [Hlt|Hge].
      - split; [apply Qclt_le_weak; exact Hlt|]. split; [apply Qcle_refl | right; reflexivity].
      - split; [apply Qcle_refl|]. split; [apply Qcnot_lt_le; exact Hge | left; reflexivity]. }
    destruct (IH x') as (Hm & Hge & Hall).
    split.
    { destruct Hm as [Hm|Hm]; [|right; right; exact Hm].
      rewrite Hm. destruct Hx' as [->| ->]; [left; reflexivity | right; left; reflexivity]. }
    split; [eapply Qcle_trans; eassumption|].
    intros z [<-|Hz]; [eapply Qcle_trans; eassumption | apply Hall; exact Hz].
Qed.

Lemma in_present_scores (l : list QuizAttempt.t) (s : Qc) :
  In s (present_scores l) <-> exists a, In a l /\ QuizAttempt.score a = Some s.
Proof.
  unfold present_scores. rewrite <- list_elem_of_In, list_elem_of_omap.
  split; intros (a & Ha & Hs); exists a; split; try assumption;
    apply list_elem_of_In; assumption.
Qed.

Lemma is_completed_true (a : QuizAttempt.t) :
  is_completed a = true <-> QuizAttempt.status a = "completed"%string.
Proof. unfold is_completed. apply String.eqb_eq. Qed.

Lemma user_filter_true (quiz : Quiz.t) (user : User.t) (a : QuizAttempt.t) :
  Z.eqb (QuizAttempt.quiz_id a) (Quiz.id quiz)
  && (Z.eqb (QuizAttempt.user_id a) (User.id user) && is_completed a) = true
  <-> counts_for quiz user a.
Proof.
  unfold counts_for. rewrite !andb_true_iff, !Z.eqb_eq, is_completed_true. tauto.
Qed.

Lemma best_score_candidates (db : DB) (quiz : Quiz.t) (user : User.t) (s : Qc) :
  In s (present_scores
          (List.filter (fun a => Z.eqb (QuizAttempt.user_id a) (User.id user)
                                 && is_completed a)
                       (attempts_of db (Quiz.id quiz))))
  <-> eligible_score db quiz user s.
Proof.
  rewrite in_present_scores. unfold eligible_score, attempts_of.
  split; intros (a & Ha & Hs); exists a.
  - apply filter_In in Ha as [Ha H2]. apply filter_In in Ha as [Ha H1].
    split; [exact Ha|]. split; [|exact Hs].
    apply user_filter_true. rewrite H1, H2. reflexivity.
  - destruct Hs as [Hc Hs]. apply user_filter_true in Hc.
    apply andb_true_iff in Hc as [H1 H2].
    split; [|exact Hs]. apply filter_In. split; [|exact H2].
    apply filter_In. split; assumption.
Qed.

Lemma best_score_frame (quiz : Quiz.t) (user : User.t) (a' : QuizAttempt.t)
    cs es qzs qs (l1 l2 : list QuizAttempt.t) :
  ~ counts_for quiz user a' ->
  get_user_best_score (mkDB cs es qzs qs (l1 ++ a' :: l2)) quiz user
  = get_user_best_score (mkDB cs es qzs qs (l1 ++ l2)) quiz user.
Proof.
  intros Hn. unfold get_user_best_score, attempts_of. cbn [quiz_attempts].
  rewrite !List.filter_app. cbn [List.filter].
  destruct (Z.eqb (QuizAttempt.quiz_id a') (Quiz.id quiz)) eqn:H1; [|reflexivity].
  cbn [List.filter].
  destruct (Z.eqb (QuizAttempt.user_id a') (User.id user) && is_completed a') eqn:H2;
    [|reflexivity].
  exfalso. apply Hn. apply user_filter_true. rewrite H1, H2. reflexivity.
Qed.

(** C9. [get_user_best_score] returns [None] exactly when the user has no
    completed attempt on the quiz with a score present; otherwise it returns
    the score of such an attempt that is at least every other such score;
    a row that is not a completed attempt of this user on this quiz
    (another user's, or one in progress) does not change the result. *)
Theorem get_user_best_score_correct (db : DB) (quiz : Quiz.t) (user : User.t) :
  (get_user_best_score db quiz user = None
   <-> forall s, ~ eligible_score db quiz user s)
  /\ (forall m, get_user_best_score db quiz user = Some m ->
        eligible_score db quiz user m
        /\ forall s, eligible_score db quiz user s -> (s <= m)%Qc)
  /\ (forall a' cs es qzs qs l1 l2,
        ~ counts_for quiz user a' ->
        get_user_best_score (mkDB cs es qzs qs (l1 ++ a' :: l2)) quiz user
        = get_user_best_score (mkDB cs es qzs qs (l1 ++ l2)) quiz user).
Proof.
  pose proof (best_score_candidates db quiz user) as Hc.
  unfold get_user_best_score.
  destruct (present_scores _) as [|x l] eqn:Hs.
  - split.
    { split; [|reflexivity]. intros _ s Hel. apply Hc in Hel. destruct Hel. }
    split; [intros m Hm; discriminate|].
    intros. apply best_score_frame. assumption.
  - destruct (py_max_spec l x) as (Hin & Hge & Hall).
    split.
    { split; [discriminate|]. intros Hnone. exfalso.
      apply (Hnone x). apply Hc. left. reflexivity. }
    split.
    { intros m [= <-]. split.
      - apply Hc. destruct Hin as [->|Hin]; [left; reflexivity | right; exact Hin].
      - intros s Hel. apply Hc in Hel as [<-|Hel]; [exact Hge | apply Hall; exact Hel]. }
    intros. apply best_score_frame. assumption.
Qed.

Example get_user_best_score_example :
  let a1 := QuizAttempt.mk 1 7 1 "completed" (Some (Qc_of_Z 40)) (Some 5) (Some 2) None None None in
  let a2 := QuizAttempt.mk 2 7 1 "completed" (Some (Qc_of_Z 80)) (Some 5) (Some 4) None None None in
  let a3 := QuizAttempt.mk 3 8 1 "completed" (Some (Qc_of_Z 100)) (Some 5) (Some 5) None None None in
  let a4 := QuizAttempt.mk 4 7 1 "in_progress" (Some (Qc_of_Z 90)) None None None None None in
  let db := mkDB [] [] [scenario_quiz] [] [a1; a2; a3; a4] in
  get_user_best_score db scenario_quiz (User.mk 7 "student") = Some (Qc_of_Z 80)
  /\ get_user_best_score db scenario_quiz (User.mk 9 "student") = None.
Proof. cbv zeta. split; vm_compute; reflexivity. Qed.

(** ** [Quiz.get_average_score] *)










(** With four attempts on the quiz, of which two are completed and scored
    (40 and 75), the average is 57.5 in binary64; without a completed and
    scored attempt it is 0. *)
Example get_average_score_example :
  let a1 := QuizAttempt.mk 1 7 1 "completed" (Some (Qc_of_Z 40)) (Some 5) (Some 2) None None None in
  let a2 := QuizAttempt.mk 2 8 1 "completed" (Some (Qc_of_Z 75)) (Some 4) (Some 3) None None None in
  let a3 := QuizAttempt.mk 3 8 1 "in_progress" None None None None None None in
  let a4 := QuizAttempt.mk 4 9 1 "completed" None None None None None None in
  get_average_score binary64_sum binary64_truediv
                    (mkDB [] [] [scenario_quiz] [] [a1; a2; a3; a4]) scenario_quiz
  = Ok (Q2Qc (115 # 2))
  /\ get_average_score binary64_sum binary64_truediv
                       (mkDB [] [] [scenario_quiz] [] [a3; a4]) scenario_quiz = Ok 0%Qc.
Proof.
  cbv zeta. split; [|reflexivity]. qc_value.
Qed.

(** ** The view [take_quiz] *)

(** The page is never rendered: the read of [quiz.is_ramdomized] raises
    after the attempt has been committed. *)
Lemma take_quiz_eval rs (now : Z) (db : DB) (u : User.t) (qid : Z) :
  take_quiz rs now db u qid
  = match take_quiz_checks db u qid with
    | inl early => (db, early)
    | inr _ => (add_commit db (new_attempt now db u qid), ServerError AttributeError)
    end.
Proof. unfold take_quiz. destruct (take_quiz_checks db u qid); reflexivity. Qed.

Lemma get_quiz_id (db : DB) (qid : Z) (quiz : Quiz.t) :
  get_quiz db qid = Some quiz -> Quiz.id quiz = qid.
Proof.
  unfold get_quiz. intros H. apply find_some in H as [_ H].
  apply Z.eqb_eq. exact H.
Qed.

(** The two guards are the only conditions of the creation. *)
Lemma take_quiz_checks_pass (db : DB) (u : User.t) (qid : Z) (quiz : Quiz.t) :
  take_quiz_checks db u qid = inr quiz
  <-> get_quiz db qid = Some quiz
      /\ exists course,
           get_course db (Quiz.course_id quiz) = Some course
           /\ can_be_accessed_by_user db course u = true
           /\ can_user_attempt db quiz u = Ok true.
Proof.
  unfold take_quiz_checks. split.
  - destruct (get_quiz db qid) as [quiz'|]; [|discriminate].
    destruct (get_course db (Quiz.course_id quiz')) as [course|] eqn:Hc; [|discriminate].
    destruct (can_be_accessed_by_user db course u) eqn:Ha; [|discriminate].
    cbn [negb].
    destruct (can_user_attempt db quiz' u) as [[|]|] eqn:Hu; try discriminate.
    intros [= <-]. split; [reflexivity|]. exists course. auto.
  - intros (-> & course & -> & -> & ->). reflexivity.
Qed.

Lemma take_quiz_checks_limit (db : DB) (u : User.t) (qid : Z) (quiz : Quiz.t)
    (course : Course.t) :
  get_quiz db qid = Some quiz ->
  get_course db (Quiz.course_id quiz) = Some course ->
  can_be_accessed_by_user db course u = true ->
  can_user_attempt db quiz u = Ok false ->
  take_quiz_checks db u qid = inl (Redirect "main.quiz_detail" limit_message).
Proof.
  unfold take_quiz_checks. intros -> -> -> ->. reflexivity.
Qed.

Lemma take_quiz_db rs (now : Z) (db : DB) (u : User.t) (qid : Z) :
  fst (take_quiz rs now db u qid)
  = match take_quiz_checks db u qid with
    | inl _ => db
    | inr _ => add_commit db (new_attempt now db u qid)
    end.
Proof. rewrite take_quiz_eval. destruct (take_quiz_checks db u qid); reflexivity. Qed.

Lemma add_commit_changes (db : DB) (a : QuizAttempt.t) :
  quiz_attempts (add_commit db a) <> quiz_attempts db.
Proof.
  cbn [add_commit quiz_attempts]. intros H.
  apply (f_equal (@length _)) in H. rewrite length_app in H. cbn [length] in H. lia.
Qed.

(** *** The published flag is not read *)

Lemma get_quiz_with_published (b : bool) (db : DB) (qid : Z) :
  get_quiz (with_published b db) qid = option_map (set_published b) (get_quiz db qid).
Proof.
  unfold get_quiz, with_published. cbn [quizzes].
  induction (quizzes db) as [|q l IH]; [reflexivity|].
  cbn [map List.find set_published Quiz.id].
  destruct (Z.eqb (Quiz.id q) qid); [reflexivity | exact IH].
Qed.

Lemma take_quiz_checks_with_published (b : bool) (db : DB) (u : User.t) (qid : Z) :
  take_quiz_checks (with_published b db) u qid
  = match take_quiz_checks db u qid with
    | inl early => inl early
    | inr quiz => inr (set_published b quiz)
    end.
Proof.
  unfold take_quiz_checks. rewrite get_quiz_with_published.
  destruct (get_quiz db qid) as [quiz|]; [|reflexivity].
  cbn [option_map set_published Quiz.course_id].
  change (get_course (with_published b db)) with (get_course db).
  destruct (get_course db (Quiz.course_id quiz)) as [course|]; [|reflexivity].
  change (can_be_accessed_by_user (with_published b db)) with (can_be_accessed_by_user db).
  destruct (can_be_accessed_by_user db course u); [|reflexivity]. cbn [negb].
  change (can_user_attempt (with_published b db) (set_published b quiz) u)
    with (can_user_attempt db quiz u).
  destruct (can_user_attempt db quiz u) as [[|]|]; reflexivity.
Qed.

(** C5 (as stated, refuted). For a quiz that is not published, a request of
    an enrolled student under the attempt limit creates an attempt. *)
Lemma take_quiz_unpublished_creates :
  Quiz.is_published unpublished_quiz = false
  /\ get_quiz unpublished_db 1 = Some unpublished_quiz
  /\ quiz_attempts unpublished_db = []
  /\ quiz_attempts (fst (take_quiz (fun l => l) 100 unpublished_db student 1))
     = [QuizAttempt.mk 1 7 1 "in_progress" None None None None (Some 100) None].
Proof. repeat split. Qed.

(** C5 (amended). [take_quiz] creates an attempt exactly when the quiz and
    its course exist, the user may access the course and
    [can_user_attempt] holds; in every other case the database is left as
    it was.  The published flag of the quiz plays no part: setting it to
    either value leaves the attempts table after the request the same. *)
Theorem take_quiz_creates_iff rs (now : Z) (db : DB) (u : User.t) (qid : Z) :
  let db' := fst (take_quiz rs now db u qid) in
  (quiz_attempts db' <> quiz_attempts db
   <-> exists quiz course,
         get_quiz db qid = Some quiz
         /\ get_course db (Quiz.course_id quiz) = Some course
         /\ can_be_accessed_by_user db course u = true
         /\ can_user_attempt db quiz u = Ok true)
  /\ (db' = db \/ db' = add_commit db (new_attempt now db u qid))
  /\ (forall b,
        quiz_attempts (fst (take_quiz rs now (with_published b db) u qid))
        = quiz_attempts db').
Proof.
  cbv zeta. rewrite take_quiz_db. split; [|split].
  - destruct (take_quiz_checks db u qid) as [early|quiz] eqn:Hc.
    + split; [intros H; exfalso; apply H; reflexivity|].
      intros (quiz & course & H1 & H2 & H3 & H4).
      assert (take_quiz_checks db u qid = inr quiz) as Hp
        by (apply take_quiz_checks_pass; eauto).
      rewrite Hp in Hc. discriminate.
    + split; [|intros _; apply add_commit_changes].
      intros _. apply take_quiz_checks_pass in Hc as (H1 & course & H2 & H3 & H4).
      exists quiz, course. auto.
  - destruct (take_quiz_checks db u qid); [left | right]; reflexivity.
  - intros b. rewrite take_quiz_db, take_quiz_checks_with_published.
    destruct (take_quiz_checks db u qid); reflexivity.
Qed.

(** *** The attempt limit, requests served one after another *)

Lemma attempts_used_add_commit (db : DB) (a : QuizAttempt.t) (u : User.t) (qid : Z) :
  attempts_used (add_commit db a) u qid
  = attempts_used db u qid
    + (if Z.eqb (QuizAttempt.quiz_id a) qid && Z.eqb (QuizAttempt.user_id a) (User.id u)
       then 1 else 0).
Proof.
  unfold attempts_used, attempts_of. cbn [add_commit quiz_attempts].
  rewrite !List.filter_app, !length_app. cbn [List.filter].
  destruct (Z.eqb (QuizAttempt.quiz_id a) qid); cbn [List.filter andb length]; [|lia].
  destruct (Z.eqb (QuizAttempt.user_id a) (User.id u)); cbn [length]; lia.
Qed.

Lemma can_user_attempt_eval (db : DB) (quiz : Quiz.t) (u : User.t) (N : Z) :
  Quiz.max_attemtps quiz = Some N ->
  can_user_attempt db quiz u = Ok (attempts_used db u (Quiz.id quiz) <? N).
Proof. unfold can_user_attempt, attempts_used. intros ->. reflexivity. Qed.

Lemma take_quiz_preserves_lookups rs (now : Z) (db : DB) (u : User.t) (qid : Z) :
  let db' := fst (take_quiz rs now db u qid) in
  courses db' = courses db /\ enrollments db' = enrollments db
  /\ quizzes db' = quizzes db /\ questions db' = questions db.
Proof.
  cbv zeta. rewrite take_quiz_db.
  destruct (take_quiz_checks db u qid); repeat split.
Qed.

Lemma get_quiz_ext (db db' : DB) (qid : Z) :
  quizzes db' = quizzes db -> get_quiz db' qid = get_quiz db qid.
Proof. unfold get_quiz. intros ->. reflexivity. Qed.

Lemma get_course_ext (db db' : DB) (cid : Z) :
  courses db' = courses db -> get_course db' cid = get_course db cid.
Proof. unfold get_course. intros ->. reflexivity. Qed.

Lemma can_be_accessed_ext (db db' : DB) (c : Course.t) (u : User.t) :
  enrollments db' = enrollments db ->
  can_be_accessed_by_user db' c u = can_be_accessed_by_user db c u.
Proof. unfold can_be_accessed_by_user, is_enrolled_by_user. intros ->. reflexivity. Qed.

(** One request keeps the count of a (user, quiz) pair within the limit. *)
Lemma take_quiz_within_limit rs (now : Z) (db : DB) (u' : User.t) (qid' : Z)
    (u : User.t) (qid : Z) (quiz : Quiz.t) (N : Z) :
  get_quiz db qid = Some quiz -> Quiz.max_attemtps quiz = Some N ->
  attempts_used db u qid <= N ->
  attempts_used (fst (take_quiz rs now db u' qid')) u qid <= N.
Proof.
  intros Hq Hmax Hle. rewrite take_quiz_db.
  destruct (take_quiz_checks db u' qid') as [early|quiz'] eqn:Hc; [exact Hle|].
  rewrite attempts_used_add_commit. cbn [new_attempt QuizAttempt.quiz_id QuizAttempt.user_id].
  destruct (Z.eqb_spec qid' qid) as [->|]; cbn [andb]; [|lia].
  destruct (Z.eqb_spec (User.id u') (User.id u)) as [Hid|]; [|lia].
  apply take_quiz_checks_pass in Hc as (Hq' & course & _ & _ & Hcan).
  rewrite Hq in Hq'. injection Hq' as <-.
  rewrite (can_user_attempt_eval db quiz u' N Hmax), (get_quiz_id db qid quiz Hq) in Hcan.
  injection Hcan as Hcan. apply Z.ltb_lt in Hcan.
  unfold attempts_used in *. rewrite Hid in Hcan. lia.
Qed.

Lemma run_requests_preserves_quizzes rs reqs (db : DB) :
  quizzes (run_requests rs reqs db) = quizzes db.
Proof.
  unfold run_requests. revert db.
  induction reqs as [|[[now u] qid] reqs IH]; intros db; cbn [fold_left]; [reflexivity|].
  rewrite IH. apply (take_quiz_preserves_lookups rs now db u qid).
Qed.

(** Any serial run of requests, by any users on any quizzes, keeps the count
    within the limit. *)
Lemma attempt_limit_invariant rs reqs (db : DB) (u : User.t) (qid : Z)
    (quiz : Quiz.t) (N : Z) :
  get_quiz db qid = Some quiz -> Quiz.max_attemtps quiz = Some N ->
  attempts_used db u qid <= N ->
  attempts_used (run_requests rs reqs db) u qid <= N.
Proof.
  unfold run_requests. revert db.
  induction reqs as [|[[now u'] qid'] reqs IH]; intros db Hq Hmax Hle;
    cbn [fold_left]; [exact Hle|].
  apply IH; [|exact Hmax|].
  - rewrite <- Hq. apply get_quiz_ext. apply (take_quiz_preserves_lookups rs now db u' qid').
  - eapply take_quiz_within_limit; eassumption.
Qed.

Lemma take_quiz_under_limit rs (now : Z) (db : DB) (u : User.t) (qid : Z)
    (quiz : Quiz.t) (course : Course.t) (N : Z) :
  get_quiz db qid = Some quiz -> Quiz.max_attemtps quiz = Some N ->
  get_course db (Quiz.course_id quiz) = Some course ->
  can_be_accessed_by_user db course u = true ->
  attempts_used db u qid < N ->
  fst (take_quiz rs now db u qid) = add_commit db (new_attempt now db u qid)
  /\ attempts_used (fst (take_quiz rs now db u qid)) u qid = attempts_used db u qid + 1.
Proof.
  intros Hq Hmax Hc Ha Hlt.
  assert (take_quiz_checks db u qid = inr quiz) as Hp.
  { apply take_quiz_checks_pass. split; [exact Hq|]. exists course.
    split; [exact Hc|]. split; [exact Ha|].
    rewrite (can_user_attempt_eval db quiz u N Hmax), (get_quiz_id db qid quiz Hq).
    f_equal. apply Z.ltb_lt. exact Hlt. }
  rewrite take_quiz_db, Hp. split; [reflexivity|].
  rewrite attempts_used_add_commit. cbn [new_attempt QuizAttempt.quiz_id QuizAttempt.user_id].
  rewrite !Z.eqb_refl. reflexivity.
Qed.

Lemma take_quiz_at_limit rs (now : Z) (db : DB) (u : User.t) (qid : Z)
    (quiz : Quiz.t) (course : Course.t) (N : Z) :
  get_quiz db qid = Some quiz -> Quiz.max_attemtps quiz = Some N ->
  get_course db (Quiz.course_id quiz) = Some course ->
  can_be_accessed_by_user db course u = true ->
  N <= attempts_used db u qid ->
  take_quiz rs now db u qid = (db, Redirect "main.quiz_detail" limit_message).
Proof.
  intros Hq Hmax Hc Ha Hge.
  rewrite take_quiz_eval.
  rewrite (take_quiz_checks_limit db u qid quiz course Hq Hc Ha); [reflexivity|].
  rewrite (can_user_attempt_eval db quiz u N Hmax), (get_quiz_id db qid quiz Hq).
  f_equal. apply Z.ltb_ge. exact Hge.
Qed.

(** [k] further requests of the same user, each under the limit, each add
    one row. *)
Lemma serial_calls_count rs (nows : list Z) (db : DB) (u : User.t) (qid : Z)
    (quiz : Quiz.t) (course : Course.t) (N : Z) :
  get_quiz db qid = Some quiz -> Quiz.max_attemtps quiz = Some N ->
  get_course db (Quiz.course_id quiz) = Some course ->
  can_be_accessed_by_user db course u = true ->
  attempts_used db u qid + Z.of_nat (length nows) <= N ->
  let db' := run_requests rs (map (fun t => (t, u, qid)) nows) db in
  attempts_used db' u qid = attempts_used db u qid + Z.of_nat (length nows)
  /\ get_quiz db' qid = Some quiz
  /\ get_course db' (Quiz.course_id quiz) = Some course
  /\ can_be_accessed_by_user db' course u = true.
Proof.
  cbv zeta. unfold run_requests. revert db.
  induction nows as [|now nows IH]; intros db Hq Hmax Hc Ha Hle;
    cbn [map fold_left length].
  - cbn [length] in Hle. repeat split; try assumption. cbn. lia.
  - cbn [length] in Hle. rewrite Nat2Z.inj_succ in Hle.
    destruct (take_quiz_under_limit rs now db u qid quiz course N Hq Hmax Hc Ha)
      as [_ Hone]; [lia|].
    destruct (take_quiz_preserves_lookups rs now db u qid) as (E1 & E2 & E3 & _).
    destruct (IH (fst (take_quiz rs now db u qid))) as (Hn & Hq' & Hc' & Ha').
    + rewrite <- Hq. apply get_quiz_ext. exact E3.
    + exact Hmax.
    + rewrite <- Hc. apply get_course_ext. exact E1.
    + rewrite <- Ha. apply can_be_accessed_ext. exact E2.
    + lia.
    + split; [|auto]. rewrite Hn, Hone, Nat2Z.inj_succ. lia.
Qed.

(** C2 (as stated, refuted for overlapping requests). On a quiz that allows
    one attempt, two requests of the same student whose guards both run
    before either commit leave two attempt rows. *)
Lemma overlapping_requests_exceed_limit :
  Quiz.max_attemtps single_attempt_quiz = Some 1
  /\ attempts_used single_attempt_db student 1 = 0
  /\ attempts_used
       (fst (run_schedule (fun l => l) [0; 1; 0; 1]%nat
                          (single_attempt_db, two_requests)))
       student 1 = 2.
Proof. repeat split. Qed.

(** Served without overlap, a request of the machine is [take_quiz]. *)
Lemma advance_twice rs (db : DB) (now : Z) (u : User.t) (qid : Z) :
  let '(db1, r1) := advance rs db (mkRequest now u qid Arrived) in
  let '(db2, r2) := advance rs db1 r1 in
  db2 = fst (take_quiz rs now db u qid)
  /\ req_phase r2 = Finished (snd (take_quiz rs now db u qid)).
Proof.
  unfold advance at 1, take_quiz. cbn [req_phase req_user req_quiz_id req_now].
  destruct (take_quiz_checks db u qid) as [early|quiz]; cbn; split; reflexivity.
Qed.

(** C2 (amended). With requests served one after another: starting from a
    database in which a permitted user has no attempt on a quiz with
    [max_attemtps = N], each of [N] calls of [take_quiz] by that user adds
    one row; the next call adds none and answers with the redirect to the
    quiz page carrying the attempt-limit message; and no serial run of
    requests, by any users on any quizzes, brings the number of rows of the
    pair above [N]. *)
Theorem attempt_limit_serial rs (db : DB) (u : User.t) (qid : Z) (quiz : Quiz.t)
    (course : Course.t) (N : Z) (nows : list Z) (now : Z) :
  get_quiz db qid = Some quiz ->
  Quiz.max_attemtps quiz = Some N ->
  get_course db (Quiz.course_id quiz) = Some course ->
  can_be_accessed_by_user db course u = true ->
  attempts_used db u qid = 0 ->
  Z.of_nat (length nows) = N ->
  let dbN := run_requests rs (map (fun t => (t, u, qid)) nows) db in
  (forall k, (k <= length nows)%nat ->
     attempts_used (run_requests rs (map (fun t => (t, u, qid)) (take k nows)) db) u qid
     = Z.of_nat k)
  /\ attempts_used dbN u qid = N
  /\ take_quiz rs now dbN u qid = (dbN, Redirect "main.quiz_detail" limit_message)
  /\ (forall reqs, attempts_used (run_requests rs reqs db) u qid <= N).
Proof.
  intros Hq Hmax Hc Ha H0 Hlen. cbv zeta.
  assert (forall k, (k <= length nows)%nat ->
            attempts_used db u qid + Z.of_nat (length (take k nows)) <= N) as Hk.
  { intros k Hk. rewrite length_take. lia. }
  split.
  { intros k Hk'.
    destruct (serial_calls_count rs (take k nows) db u qid quiz course N
                Hq Hmax Hc Ha (Hk k Hk')) as [-> _].
    rewrite length_take. lia. }
  destruct (serial_calls_count rs nows db u qid quiz course N Hq Hmax Hc Ha)
    as (Hn & Hq' & Hc' & Ha'); [lia|].
  split; [lia|]. split.
  - eapply take_quiz_at_limit; try eassumption. lia.
  - intros reqs. eapply attempt_limit_invariant; try eassumption. lia.
Qed.

Lemma attempt_limit_serial_witness :
  let dbN := run_requests (fun l => l) (map (fun t => (t, student, 1)) [10; 20])
                          two_attempt_db in
  (forall k, (k <= 2)%nat ->
     attempts_used
       (run_requests (fun l => l) (map (fun t => (t, student, 1)) (take k [10; 20]))
                     two_attempt_db) student 1
     = Z.of_nat k)
  /\ attempts_used dbN student 1 = 2
  /\ take_quiz (fun l => l) 30 dbN student 1
     = (dbN, Redirect "main.quiz_detail" limit_message)
  /\ (forall reqs,
        attempts_used (run_requests (fun l => l) reqs two_attempt_db) student 1 <= 2).
Proof.
  exact (attempt_limit_serial (fun l => l) two_attempt_db student 1 two_attempt_quiz
           (Course.mk 1) 2 [10; 20] 30
           eq_refl eq_refl eq_refl eq_refl eq_refl eq_refl).
Defined.

(** *** What is kept of the question order *)

(** C3 (as stated, refuted). The same randomized quiz held with two
    question sets, [1; 2] and [1; 2; 3]: the attempt rows created by
    [take_quiz] are equal, so the stored attempt determines no arrangement
    of the questions of its quiz. *)
Lemma take_quiz_keeps_no_order :
  Quiz.is_randomized randomized_quiz = true
  /\ map Question.id (questions_of two_question_db 1) = [1; 2]
  /\ map Question.id (questions_of three_question_db 1) = [1; 2; 3]
  /\ quiz_attempts (fst (take_quiz (@rev _) 5 two_question_db student 1))
     = [QuizAttempt.mk 1 7 1 "in_progress" None None None None (Some 5) None]
  /\ quiz_attempts (fst (take_quiz (@rev _) 5 three_question_db student 1))
     = quiz_attempts (fst (take_quiz (@rev _) 5 two_question_db student 1)).
Proof. repeat split. Qed.

(** C3 (amended). [take_quiz] stores no question order.  A request either
    leaves the database as it was or appends the one row [new_attempt],
    which holds the new id, the user, the quiz, the status [in_progress] and
    the start time, every other field absent; the resulting database does
    not depend on the random generator, and the row does not depend on the
    questions table. *)
Theorem take_quiz_stores_no_order rs (now : Z) (db : DB) (u : User.t) (qid : Z) :
  let db' := fst (take_quiz rs now db u qid) in
  (db' = db \/ db' = add_commit db (new_attempt now db u qid))
  /\ (forall rs', fst (take_quiz rs' now db u qid) = db')
  /\ (forall qs',
        new_attempt now
          (mkDB (courses db) (enrollments db) (quizzes db) qs' (quiz_attempts db)) u qid
        = new_attempt now db u qid)
  /\ new_attempt now db u qid
     = QuizAttempt.mk (next_attempt_id db) (User.id u) qid "in_progress"
                      None None None None (Some now) None
  /\ questions db' = questions db.
Proof.
  cbv zeta. rewrite take_quiz_db.
  split; [destruct (take_quiz_checks db u qid); [left | right]; reflexivity|].
  split; [intros rs'; rewrite take_quiz_db; reflexivity|].
  split; [reflexivity|]. split; [reflexivity|].
  destruct (take_quiz_checks db u qid); reflexivity.
Qed.

(** Sanity of [order_by_order_index] on a shuffled table. *)
Example order_by_order_index_example :
  map Question.id (order_by_order_index [scenario_q3; scenario_q1; scenario_q2])
  = [1; 2; 3].
Proof. reflexivity. Qed.

(** * Properties of the further methods and views *)

(** ** [Quiz.get_completion_rate] *)

Lemma filter_length_le {A : Type} (p : A -> bool) (l : list A) :
  (length (List.filter p l) <= length l)%nat.
Proof.
  induction l as [|x l IH]; cbn [List.filter length]; [lia|].
  destruct (p x); cbn [length]; lia.
Qed.

Lemma filter_length_all {A : Type} (p : A -> bool) (l : list A) :
  length (List.filter p l) = length l <-> forall x, In x l -> p x = true.
Proof.
  induction l as [|x l IH]; cbn [List.filter length].
  - split; [intros _ x [] | reflexivity].
  - pose proof (filter_length_le p l) as Hle.
    destruct (p x) eqn:Hp; cbn [length].
    + split.
      * intros H y [<-|Hy]; [exact Hp | apply IH; [lia | exact Hy]].
      * intros H. f_equal. apply IH. intros y Hy. apply H. right. exact Hy.
    + split; [lia|]. intros H. specialize (H x (or_introl eq_refl)). congruence.
Qed.

Lemma percentage_full (t : Z) : 0 < t -> percentage t t = Ok (Qc_of_Z 100).
Proof.
  intros Ht. rewrite (percentage_pos t t Ht). f_equal.
  unfold Qcdiv. rewrite Qcmult_inv_r by (apply Qc_of_Z_nonzero; lia).
  apply Qcmult_1_l.
Qed.

Lemma Quiz_get_completion_rate_percentage (db : DB) (quiz : Quiz.t) :
  Quiz_get_completion_rate db quiz
  = percentage (Z.of_nat (length (List.filter is_completed (attempts_of db (Quiz.id quiz)))))
               (Z.of_nat (length (attempts_of db (Quiz.id quiz)))).
Proof. reflexivity. Qed.

(** X1. The completion rate of a quiz is always a number between 0 and
    100, never a division by zero: it is 0 when the quiz has no attempt and
    100 when it has attempts and all of them are completed. *)
Theorem Quiz_get_completion_rate_range (db : DB) (quiz : Quiz.t) :
  exists p,
    Quiz_get_completion_rate db quiz = Ok p
    /\ (0 <= p <= Qc_of_Z 100)%Qc
    /\ (attempts_of db (Quiz.id quiz) = [] -> p = 0%Qc)
    /\ (attempts_of db (Quiz.id quiz) <> [] ->
        (forall a, In a (attempts_of db (Quiz.id quiz)) -> is_completed a = true) ->
        p = Qc_of_Z 100).
Proof.
  rewrite Quiz_get_completion_rate_percentage.
  set (l := attempts_of db (Quiz.id quiz)).
  destruct (percentage_defined (Z.of_nat (length (List.filter is_completed l)))
                               (Z.of_nat (length l))) as [p Hp].
  exists p. split; [exact Hp|]. split.
  { eapply percentage_range; [|exact Hp].
    pose proof (filter_length_le is_completed l). lia. }
  split.
  - intros E. rewrite E in Hp. cbn in Hp. injection Hp as <-. reflexivity.
  - intros Hne Hall.
    apply filter_length_all in Hall. rewrite Hall in Hp.
    rewrite percentage_full in Hp; [injection Hp as <-; reflexivity|].
    destruct l; [contradiction | cbn [length]; lia].
Qed.

(** ** What [calculate_score] stores *)

(** X2. Whenever [calculate_score] returns normally on a completed attempt,
    the attempt had no stored answers text, the stored [total_points] is
    [Quiz.get_total_points] of its quiz, and the stored [earned_points] and
    [score] are 0: the method never awards a point. *)
Theorem calculate_score_stores jl (db : DB) (a a' : QuizAttempt.t) (quiz : Quiz.t) :
  is_completed a = true ->
  get_quiz db (QuizAttempt.quiz_id a) = Some quiz ->
  calculate_score jl db a = Ok a' ->
  truthy (QuizAttempt.answers a) = false
  /\ QuizAttempt.total_points a' = Some (get_total_points db quiz)
  /\ QuizAttempt.earned_points a' = Some 0
  /\ QuizAttempt.score a' = Some 0%Qc.
Proof.
  intros Hc Hq Hok.
  destruct (truthy (QuizAttempt.answers a)) eqn:Htr.
  - rewrite (calculate_score_truthy jl db a Hc Htr) in Hok. discriminate.
  - split; [reflexivity|].
    destruct (calculate_score_falsy jl db a quiz Hc Htr Hq) as (a1 & H1 & Ht & He & Hs).
    rewrite H1 in Hok. injection Hok as <-. auto.
Qed.

Lemma calculate_score_stores_witness :
  truthy (QuizAttempt.answers blank_attempt) = false
  /\ QuizAttempt.total_points
       (after (calculate_score const_answers_loads scenario_db blank_attempt) blank_attempt)
     = Some (get_total_points scenario_db scenario_quiz)
  /\ QuizAttempt.earned_points
       (after (calculate_score const_answers_loads scenario_db blank_attempt) blank_attempt)
     = Some 0
  /\ QuizAttempt.score
       (after (calculate_score const_answers_loads scenario_db blank_attempt) blank_attempt)
     = Some 0%Qc.
Proof.
  exact (calculate_score_stores const_answers_loads scenario_db blank_attempt
           (after (calculate_score const_answers_loads scenario_db blank_attempt) blank_attempt)
           scenario_quiz eq_refl eq_refl eq_refl).
Defined.

(** ** [Question.get_options_list], [Question.set_options_list] *)

Lemma get_options_list_parsed loads (q : QuestionRow.t) (text : string)
    (l : list string) :
  QuestionRow.options q = Some text -> text <> EmptyString ->
  loads text = Ok l -> get_options_list loads q = Ok l.
Proof.
  unfold get_options_list. intros -> Hne Hl. cbn [from_option id]. rewrite Hl.
  destruct text; [contradiction | reflexivity].
Qed.

(** X4. [get_options_list] fails soft: it never lets a [JSONDecodeError]
    out; it returns the empty list when the options text is absent or empty
    and when the parser rejects it, and the parsed list when the parser
    accepts a non-empty text. *)
Theorem get_options_list_fails_soft loads (q : QuestionRow.t) :
  get_options_list loads q <> Raise JSONDecodeError
  /\ (truthy (QuestionRow.options q) = false -> get_options_list loads q = Ok [])
  /\ (forall text,
        QuestionRow.options q = Some text -> loads text = Raise JSONDecodeError ->
        get_options_list loads q = Ok [])
  /\ (forall text l,
        QuestionRow.options q = Some text -> text <> EmptyString ->
        loads text = Ok l -> get_options_list loads q = Ok l).
Proof.
  unfold get_options_list. split; [|split; [|split]].
  - destruct (truthy _); [|discriminate].
    destruct (loads _) as [l|e]; cbn [try_except]; [discriminate|].
    destruct (decide (e = JSONDecodeError)); [discriminate | congruence].
  - intros ->. reflexivity.
  - intros text -> Hl. cbn [from_option id]. rewrite Hl.
    destruct (truthy _); reflexivity.
  - fold (get_options_list loads q). apply get_options_list_parsed.
Qed.

(** X5. Round trip of the options.  [set_options_list l] stores the text
    the encoder writes for [l] in [options], whatever was stored before, and
    leaves the other columns as they are; [get_options_list] then returns
    [l], provided the encoder writes a non-empty text for [l] (as
    [json.dumps] does for every list) and the parser reads that text back
    as [l]. *)
Theorem options_round_trip loads dumps (q : QuestionRow.t) (l : list string) :
  dumps l <> EmptyString ->
  loads (dumps l) = Ok l ->
  get_options_list loads (set_options_list dumps q l) = Ok l
  /\ QuestionRow.options (set_options_list dumps q l) = Some (dumps l)
  /\ QuestionRow.core (set_options_list dumps q l) = QuestionRow.core q
  /\ QuestionRow.question_text (set_options_list dumps q l)
     = QuestionRow.question_text q
  /\ QuestionRow.explanation (set_options_list dumps q l)
     = QuestionRow.explanation q.
Proof.
  intros Hne Hl. split; [|repeat split].
  apply (get_options_list_parsed loads (set_options_list dumps q l) (dumps l));
    [reflexivity | exact Hne | exact Hl].
Qed.

Lemma options_round_trip_witness :
  (list_dumps ["Paris"; "Lyon"; "Nice"] <> EmptyString
   /\ list_loads (list_dumps ["Paris"; "Lyon"; "Nice"]) = Ok ["Paris"; "Lyon"; "Nice"])
  /\ get_options_list list_loads
       (set_options_list list_dumps capital_question ["Paris"; "Lyon"; "Nice"])
     = Ok ["Paris"; "Lyon"; "Nice"]
  /\ QuestionRow.explanation
       (set_options_list list_dumps capital_question ["Paris"; "Lyon"; "Nice"])
     = Some "See chapter 2".
Proof.
  split; [split; [discriminate | reflexivity]|].
  pose proof (options_round_trip list_loads list_dumps capital_question
                ["Paris"; "Lyon"; "Nice"]%string) as H.
  destruct H as (Hget & _ & _ & _ & Hexp); [discriminate | reflexivity|].
  split; [exact Hget | exact Hexp].
Defined.

(** The codec of the examples writes and reads the format of [json.dumps];
    it rejects a text that is no list. *)
Example list_codec_examples :
  list_dumps ["a"; "b"] = ("[" ++ dquote ++ "a" ++ dquote ++ ", "
                               ++ dquote ++ "b" ++ dquote ++ "]")%string
  /\ list_dumps [] = "[]"%string
  /\ list_loads "[]" = Ok []
  /\ list_loads (list_dumps ["a"; "b"]) = Ok ["a"; "b"]%string
  /\ list_loads "{}" = Raise JSONDecodeError
  /\ get_options_list list_loads (QuestionRow.mk scenario_q1 "q" (Some "{}") None) = Ok [].
Proof. repeat split. Qed.

(** An encoder that writes the empty text loses the list: the getter does
    not call the parser on it. *)
Example options_empty_text_lost :
  get_options_list (fun _ => Ok ["a"%string]) (set_options_list (fun _ => EmptyString)
                                                 plain_question ["a"%string])
  = Ok [].
Proof. reflexivity. Qed.

(** ** [Course.can_be_accessed_by_user] *)

Lemma is_enrolled_by_user_true (db : DB) (c : Course.t) (u : User.t) :
  is_enrolled_by_user db c u = true <-> exists e, active_enrollment db c u e.
Proof.
  unfold is_enrolled_by_user, active_enrollment.
  destruct (List.find _ (enrollments db)) as [e|] eqn:Hf.
  - split; [intros _ | reflexivity].
    apply find_some in Hf as [Hin Hp].
    apply andb_true_iff in Hp as [Hp H3]. apply andb_true_iff in Hp as [H1 H2].
    apply Z.eqb_eq in H1, H2. exists e. auto.
  - split; [discriminate|]. intros (e & Hin & H1 & H2 & H3). exfalso.
    pose proof (find_none _ _ Hf e Hin) as Hn. cbn beta in Hn.
    rewrite H1, H2, H3, !Z.eqb_refl in Hn. discriminate.
Qed.

(** X6. A user may access a course exactly when the user's role is
    [teacher] or [admin] (whoever the instructor is), or an active
    enrollment row of the user in the course exists; an inactive row grants
    nothing. *)
Theorem can_be_accessed_by_user_iff (db : DB) (c : Course.t) (u : User.t) :
  can_be_accessed_by_user db c u = true
  <-> User.role u = "teacher"%string \/ User.role u = "admin"%string
      \/ exists e, active_enrollment db c u e.
Proof.
  unfold can_be_accessed_by_user, is_teacher, is_admin.
  destruct (String.eqb_spec (User.role u) "teacher") as [Ht|Ht]; cbn [orb].
  { split; [intros _; left; exact Ht | reflexivity]. }
  destruct (String.eqb_spec (User.role u) "admin") as [Ha|Ha].
  { split; [intros _; right; left; exact Ha | reflexivity]. }
  rewrite is_enrolled_by_user_true. tauto.
Qed.

(** ** [take_quiz] keeps the attempts it finds *)

Lemma run_requests_appends rs reqs (db : DB) :
  exists added,
    run_requests rs reqs db
    = mkDB (courses db) (enrollments db) (quizzes db) (questions db)
           (quiz_attempts db ++ added).
Proof.
  unfold run_requests. revert db.
  induction reqs as [|[[now u] qid] reqs IH]; intros db; cbn [fold_left].
  - exists []. rewrite app_nil_r. destruct db; reflexivity.
  - destruct (IH (fst (take_quiz rs now db u qid))) as [added ->].
    rewrite take_quiz_db.
    destruct (take_quiz_checks db u qid).
    + exists added. reflexivity.
    + exists (new_attempt now db u qid :: added).
      cbn [add_commit courses enrollments quizzes questions quiz_attempts].
      rewrite <- app_assoc. reflexivity.
Qed.

Lemma attempts_used_app (cs : list Course.t) (es : list Enrollment.t)
    (qzs : list Quiz.t) (qs : list Question.t) (l added : list QuizAttempt.t)
    (u : User.t) (qid : Z) :
  attempts_used (mkDB cs es qzs qs l) u qid
  <= attempts_used (mkDB cs es qzs qs (l ++ added)) u qid.
Proof.
  unfold attempts_used, attempts_of. cbn [quiz_attempts].
  rewrite !List.filter_app, length_app. lia.
Qed.

Lemma attempts_used_mono rs reqs (db : DB) (u : User.t) (qid : Z) :
  attempts_used db u qid <= attempts_used (run_requests rs reqs db) u qid.
Proof.
  destruct (run_requests_appends rs reqs db) as [added ->].
  destruct db. apply attempts_used_app.
Qed.

(** X7. A serial run of [take_quiz] requests only appends attempt rows:
    the rows present before are kept unchanged and in place, the other
    tables are untouched, and the number of attempts of any (user, quiz)
    pair never decreases. *)
Theorem run_requests_append_only rs reqs (db : DB) :
  (exists added,
     quiz_attempts (run_requests rs reqs db) = quiz_attempts db ++ added)
  /\ courses (run_requests rs reqs db) = courses db
  /\ enrollments (run_requests rs reqs db) = enrollments db
  /\ quizzes (run_requests rs reqs db) = quizzes db
  /\ questions (run_requests rs reqs db) = questions db
  /\ (forall u qid,
        attempts_used db u qid <= attempts_used (run_requests rs reqs db) u qid).
Proof.
  destruct (run_requests_appends rs reqs db) as [added ->].
  cbn [quiz_attempts courses enrollments quizzes questions].
  split; [exists added; reflexivity|]. repeat split.
  intros u qid. destruct db. apply attempts_used_app.
Qed.

(** X8. The limit is permanent: once [can_user_attempt] answers [False] for
    a user on a quiz, it answers [False] after any serial run of [take_quiz]
    requests; no request frees a slot. *)
Theorem attempt_limit_permanent rs reqs (db : DB) (quiz : Quiz.t) (u : User.t) :
  can_user_attempt db quiz u = Ok false ->
  can_user_attempt (run_requests rs reqs db) quiz u = Ok false.
Proof.
  unfold can_user_attempt. fold (attempts_used db u (Quiz.id quiz)).
  fold (attempts_used (run_requests rs reqs db) u (Quiz.id quiz)).
  destruct (Quiz.max_attemtps quiz) as [n|]; [|discriminate].
  intros [= H]. f_equal. apply Z.ltb_ge. apply Z.ltb_ge in H.
  pose proof (attempts_used_mono rs reqs db u (Quiz.id quiz)). lia.
Qed.

Lemma attempt_limit_permanent_witness :
  can_user_attempt
    (run_requests (fun l => l) [(30, student, 1); (40, User.mk 8 "teacher", 1)]
       (run_requests (fun l => l) [(10, student, 1); (20, student, 1)] two_attempt_db))
    two_attempt_quiz student
  = Ok false.
Proof.
  exact (attempt_limit_permanent (fun l => l)
           [(30, student, 1); (40, User.mk 8 "teacher", 1)]
           (run_requests (fun l => l) [(10, student, 1); (20, student, 1)] two_attempt_db)
           two_attempt_quiz student eq_refl).
Defined.

(** ** Enrolling *)

Lemma next_enrollment_id_fresh (s : Store) (e : EnrollmentRow.t) :
  In e (enrollment_rows s) -> EnrollmentRow.id e < next_enrollment_id s.
Proof.
  unfold next_enrollment_id.
  induction (enrollment_rows s) as [|x l IH]; intros H; [destruct H|].
  cbn [map fold_right]. destruct H as [->|H]; [lia | specialize (IH H); lia].
Qed.

Lemma first_enrollment_some (s : Store) (uid cid : Z) (e : EnrollmentRow.t) :
  first_enrollment s uid cid = Some e ->
  In e (enrollment_rows s) /\ EnrollmentRow.user_id e = uid
  /\ EnrollmentRow.course_id e = cid.
Proof.
  unfold first_enrollment. intros H. apply find_some in H as [Hin Hp].
  apply andb_true_iff in Hp as [H1 H2]. apply Z.eqb_eq in H1, H2. auto.
Qed.

Lemma first_enrollment_none (s : Store) (uid cid : Z) :
  first_enrollment s uid cid = None -> ~ In (uid, cid) (enrollment_pairs s).
Proof.
  unfold first_enrollment, enrollment_pairs. intros H Hin.
  apply in_map_iff in Hin as (e & Hp & He). injection Hp as H1 H2.
  pose proof (find_none _ _ H e He) as Hn. cbn beta in Hn.
  rewrite H1, H2, !Z.eqb_refl in Hn. discriminate.
Qed.

(** Replacing a row by one with the same key and pair keeps keys and pairs. *)
Lemma update_enrollment_keys (s : Store) (e e' : EnrollmentRow.t) :
  EnrollmentRow.id e' = EnrollmentRow.id e ->
  EnrollmentRow.user_id e' = EnrollmentRow.user_id e ->
  EnrollmentRow.course_id e' = EnrollmentRow.course_id e ->
  In e (enrollment_rows s) -> NoDup (enrollment_ids s) ->
  enrollment_ids (update_enrollment s e') = enrollment_ids s
  /\ enrollment_pairs (update_enrollment s e') = enrollment_pairs s.
Proof.
  intros Hid Hu Hc Hin Hnd.
  unfold enrollment_ids, enrollment_pairs, update_enrollment, with_enrollment_rows in *.
  cbn [enrollment_rows]. rewrite !map_map. split.
  - apply map_ext. intros x. destruct (Z.eqb_spec (EnrollmentRow.id x) (EnrollmentRow.id e'));
      [symmetry; assumption | reflexivity].
  - apply map_ext_in. intros x Hx.
    destruct (Z.eqb_spec (EnrollmentRow.id x) (EnrollmentRow.id e')) as [E|]; [|reflexivity].
    assert (x = e) as ->; [|rewrite Hu, Hc; reflexivity].
    rewrite Hid in E. clear - Hx Hin Hnd E.
    induction (enrollment_rows s) as [|y l IH]; [destruct Hx|].
    cbn [map] in Hnd. apply NoDup_cons in Hnd as [Hny Hnd].
    rewrite list_elem_of_In in Hny.
    destruct Hx as [->|Hx], Hin as [->|Hin]; try reflexivity.
    + exfalso. apply Hny. rewrite E. apply in_map. exact Hin.
    + exfalso. apply Hny. rewrite <- E. apply in_map. exact Hx.
    + apply IH; assumption.
Qed.

Lemma enroll_course_store (now : Z) (j : bool) (s : Store) (u : User.t) (cid : Z) :
  fst (enroll_course now j s u cid)
  = match get_course_row s cid with
    | None => s
    | Some course =>
        if negb (CourseRow.is_published course) then s
        else match first_enrollment s (User.id u) cid with
             | Some existing =>
                 if EnrollmentRow.is_active existing then s
                 else update_enrollment s (reactivated now existing)
             | None => add_enrollment s (new_enrollment now s (User.id u) cid)
             end
    end.
Proof.
  unfold enroll_course.
  destruct (get_course_row s cid) as [course|]; [|reflexivity].
  destruct (CourseRow.is_published course); cbn [negb]; [|destruct j; reflexivity].
  destruct (first_enrollment s (User.id u) cid) as [existing|].
  - destruct (EnrollmentRow.is_active existing); destruct j; reflexivity.
  - destruct j; reflexivity.
Qed.

(** X9. [enroll_course] touches the enrollment table only, leaves the store
    as it was when the course is missing or not published, and keeps the
    table free of duplicates: one row per primary key and one row per
    (user, course) pair. *)
Theorem enroll_course_keeps_unique (now : Z) (j : bool) (s : Store) (u : User.t)
    (cid : Z) :
  let s' := fst (enroll_course now j s u cid) in
  (user_rows s' = user_rows s /\ course_rows s' = course_rows s
   /\ lessons s' = lessons s /\ s_quizzes s' = s_quizzes s
   /\ s_questions s' = s_questions s /\ s_quiz_attempts s' = s_quiz_attempts s)
  /\ (get_course_row s cid = None -> s' = s)
  /\ (forall course, get_course_row s cid = Some course ->
        CourseRow.is_published course = false -> s' = s)
  /\ (enrollments_unique s -> enrollments_unique s').
Proof.
  cbv zeta. rewrite enroll_course_store.
  split; [|split; [|split]].
  - destruct (get_course_row s cid) as [course|]; [|repeat split].
    destruct (negb _); [repeat split|].
    destruct (first_enrollment s (User.id u) cid) as [existing|]; [|repeat split].
    destruct (EnrollmentRow.is_active existing); repeat split.
  - intros ->. reflexivity.
  - intros course -> ->. reflexivity.
  - intros [Hids Hpairs].
    destruct (get_course_row s cid) as [course|]; [|split; assumption].
    destruct (negb _); [split; assumption|].
    destruct (first_enrollment s (User.id u) cid) as [existing|] eqn:Hf.
    + destruct (EnrollmentRow.is_active existing); [split; assumption|].
      apply first_enrollment_some in Hf as (Hin & _ & _).
      destruct (update_enrollment_keys s existing (reactivated now existing))
        as [E1 E2]; try reflexivity; try assumption.
      unfold enrollments_unique. rewrite E1, E2. split; assumption.
    + unfold enrollments_unique, enrollment_ids, enrollment_pairs, add_enrollment,
        with_enrollment_rows. cbn [enrollment_rows]. rewrite !map_app. cbn [map].
      split.
      * apply NoDup_app. split; [exact Hids|]. split; [|apply NoDup_singleton].
        intros x Hx Hx'. apply list_elem_of_In in Hx. apply list_elem_of_In in Hx'.
        destruct Hx' as [<-|[]].
        apply in_map_iff in Hx as (e & He & Hin).
        pose proof (next_enrollment_id_fresh s e Hin).
        cbn [new_enrollment EnrollmentRow.id] in He. lia.
      * apply NoDup_app. split; [exact Hpairs|]. split; [|apply NoDup_singleton].
        intros x Hx Hx'. apply list_elem_of_In in Hx. apply list_elem_of_In in Hx'.
        destruct Hx' as [<-|[]].
        apply (first_enrollment_none s (User.id u) cid Hf). exact Hx.
Qed.

Lemma find_app_last {A : Type} (p : A -> bool) (l : list A) (x : A) :
  (forall y, In y l -> p y = false) ->
  List.find p (l ++ [x]) = if p x then Some x else None.
Proof.
  induction l as [|y l IH]; intros H; cbn [app List.find].
  - reflexivity.
  - rewrite (H y (or_introl eq_refl)). apply IH. intros z Hz. apply H. right. exact Hz.
Qed.

Lemma get_course_row_id (s : Store) (cid : Z) (course : CourseRow.t) :
  get_course_row s cid = Some course -> CourseRow.id course = cid.
Proof.
  unfold get_course_row. intros H. apply find_some in H as [_ H].
  apply Z.eqb_eq. exact H.
Qed.

Lemma is_enrolled_by_user_rows (s : Store) (c : Course.t) (u : User.t) :
  is_enrolled_by_user (db_of s) c u
  = match List.find (fun e => Z.eqb (EnrollmentRow.course_id e) (Course.id c)
                              && Z.eqb (EnrollmentRow.user_id e) (User.id u)
                              && EnrollmentRow.is_active e)
                    (enrollment_rows s) with
    | Some _ => true
    | None => false
    end.
Proof.
  unfold is_enrolled_by_user, db_of. cbn [enrollments].
  induction (enrollment_rows s) as [|e l IH]; [reflexivity|].
  cbn [map List.find enrollment_core Enrollment.course_id Enrollment.user_id
       Enrollment.is_active].
  destruct (_ && _ && _); [reflexivity | exact IH].
Qed.

(** X10. Enrolling takes two requests.  For a user without an enrollment
    row in a published course, the first [enroll_course] creates a row that
    is not active (the column default), so the user is still not enrolled;
    the second request activates that row, and the user is enrolled; every
    later request changes nothing. *)
Theorem enroll_course_twice (now1 now2 : Z) (j1 j2 : bool) (s : Store) (u : User.t)
    (cid : Z) (course : CourseRow.t) :
  get_course_row s cid = Some course ->
  CourseRow.is_published course = true ->
  first_enrollment s (User.id u) cid = None ->
  let s1 := fst (enroll_course now1 j1 s u cid) in
  let s2 := fst (enroll_course now2 j2 s1 u cid) in
  is_enrolled_by_user (db_of s1) (course_core course) u = false
  /\ is_enrolled_by_user (db_of s2) (course_core course) u = true
  /\ length (enrollment_rows s2) = S (length (enrollment_rows s))
  /\ (forall now3 j3, fst (enroll_course now3 j3 s2 u cid) = s2).
Proof.
  intros Hc Hpub Hnone. cbv zeta.
  pose proof (get_course_row_id s cid course Hc) as Hid.
  set (new := new_enrollment now1 s (User.id u) cid).
  assert (fst (enroll_course now1 j1 s u cid) = add_enrollment s new) as E1.
  { rewrite enroll_course_store, Hc, Hpub, Hnone. reflexivity. }
  rewrite E1.
  assert (forall y, In y (enrollment_rows s) ->
            Z.eqb (EnrollmentRow.user_id y) (User.id u)
            && Z.eqb (EnrollmentRow.course_id y) cid = false) as Hold.
  { intros y Hy. exact (find_none _ _ Hnone y Hy). }
  assert (forall y, In y (enrollment_rows s) ->
            Z.eqb (EnrollmentRow.id y) (EnrollmentRow.id new) = false) as Hfresh.
  { intros y Hy. apply Z.eqb_neq. pose proof (next_enrollment_id_fresh s y Hy).
    subst new. cbn [new_enrollment EnrollmentRow.id]. lia. }
  assert (first_enrollment (add_enrollment s new) (User.id u) cid = Some new) as Hf1.
  { unfold first_enrollment, add_enrollment, with_enrollment_rows. cbn [enrollment_rows].
    rewrite find_app_last by exact Hold.
    subst new. cbn [new_enrollment EnrollmentRow.user_id EnrollmentRow.course_id].
    rewrite !Z.eqb_refl. reflexivity. }
  assert (get_course_row (add_enrollment s new) cid = Some course) as Hc1 by exact Hc.
  set (act := reactivated now2 new).
  assert (fst (enroll_course now2 j2 (add_enrollment s new) u cid)
          = with_enrollment_rows s (enrollment_rows s ++ [act])) as E2.
  { rewrite enroll_course_store, Hc1, Hpub, Hf1. cbn [negb].
    change (EnrollmentRow.is_active new) with false. cbv iota.
    unfold update_enrollment, add_enrollment, with_enrollment_rows.
    cbn [enrollment_rows user_rows course_rows lessons s_quizzes s_questions
         s_quiz_attempts]. f_equal.
    rewrite map_app. cbn [map]. f_equal.
    - rewrite <- (map_id (enrollment_rows s)) at 2. apply map_ext_in.
      intros y Hy. change (EnrollmentRow.id (reactivated now2 new))
        with (EnrollmentRow.id new). rewrite (Hfresh y Hy). reflexivity.
    - change (EnrollmentRow.id (reactivated now2 new)) with (EnrollmentRow.id new).
      rewrite Z.eqb_refl. reflexivity. }
  rewrite E2.
  assert (forall y, In y (enrollment_rows s) ->
            Z.eqb (EnrollmentRow.course_id y) (Course.id (course_core course))
            && Z.eqb (EnrollmentRow.user_id y) (User.id u)
            && EnrollmentRow.is_active y = false) as Hold'.
  { intros y Hy. cbn [course_core Course.id]. rewrite Hid.
    specialize (Hold y Hy). rewrite andb_comm in Hold. rewrite Hold. reflexivity. }
  split; [|split; [|split]].
  - rewrite is_enrolled_by_user_rows.
    unfold add_enrollment, with_enrollment_rows. cbn [enrollment_rows].
    rewrite find_app_last by exact Hold'.
    change (EnrollmentRow.is_active new) with false. rewrite andb_false_r. reflexivity.
  - rewrite is_enrolled_by_user_rows.
    unfold with_enrollment_rows. cbn [enrollment_rows].
    rewrite find_app_last by exact Hold'.
    subst act new. cbn [reactivated new_enrollment EnrollmentRow.course_id
      EnrollmentRow.user_id EnrollmentRow.is_active course_core Course.id].
    rewrite Hid, !Z.eqb_refl. reflexivity.
  - unfold with_enrollment_rows. cbn [enrollment_rows]. rewrite length_app.
    cbn [length]. lia.
  - intros now3 j3. rewrite enroll_course_store.
    change (get_course_row (with_enrollment_rows s (enrollment_rows s ++ [act])) cid)
      with (get_course_row s cid). rewrite Hc, Hpub. cbn [negb].
    assert (first_enrollment (with_enrollment_rows s (enrollment_rows s ++ [act]))
              (User.id u) cid = Some act) as ->.
    { unfold first_enrollment, with_enrollment_rows. cbn [enrollment_rows].
      rewrite find_app_last by exact Hold.
      subst act new. cbn [reactivated new_enrollment EnrollmentRow.user_id
        EnrollmentRow.course_id]. rewrite !Z.eqb_refl. reflexivity. }
    reflexivity.
Qed.

Lemma enroll_course_twice_witness :
  let s1 := fst (enroll_course 10 false open_store student 1) in
  let s2 := fst (enroll_course 20 true s1 student 1) in
  is_enrolled_by_user (db_of s1) (course_core open_course) student = false
  /\ is_enrolled_by_user (db_of s2) (course_core open_course) student = true
  /\ length (enrollment_rows s2) = S (length (enrollment_rows open_store))
  /\ (forall now3 j3, fst (enroll_course now3 j3 s2 student 1) = s2).
Proof.
  exact (enroll_course_twice 10 20 false true open_store student 1 open_course
           eq_refl eq_refl eq_refl).
Defined.

(** *** The API endpoint *)




(** ** [Enrollment.update_progress] *)

Lemma Qc_zero_div (x : Qc) : (Qc_of_Z 0 / x * Qc_of_Z 100 = 0)%Qc.
Proof. rewrite Z2Qc_inj_0. unfold Qcdiv. rewrite !Qcmult_0_l. reflexivity. Qed.

Lemma hundred_not_le_zero : bool_decide (Qc_of_Z 100 <= 0)%Qc = false.
Proof.
  apply bool_decide_eq_false. rewrite <- Z2Qc_inj_0. intros H.
  apply Z2Qc_inj_le in H. lia.
Qed.

(** X12. [update_progress] never completes an enrollment and never divides
    by zero.  When it returns, only [progress_percentage] has changed: it
    is 100 when the course has no published lesson and 0 otherwise; status
    and [completed_at] are as before. *)
Theorem update_progress_effect (now : Z) (s : Store) (e : EnrollmentRow.t) :
  update_progress now s e <> Raise ZeroDivisionError
  /\ (forall e', update_progress now s e = Ok e' ->
        exists course,
          get_course_row s (EnrollmentRow.course_id e) = Some course
          /\ e' = with_progress e
                    (match List.filter Lesson.is_published
                                       (lessons_of s (CourseRow.id course)) with
                     | [] => Qc_of_Z 100
                     | _ :: _ => 0%Qc
                     end)
          /\ EnrollmentRow.status e' = EnrollmentRow.status e
          /\ EnrollmentRow.completed_at e' = EnrollmentRow.completed_at e).
Proof.
  unfold update_progress.
  destruct (get_course_row s (EnrollmentRow.course_id e)) as [course|];
    [|split; [discriminate | intros e'; discriminate]].
  destruct (List.filter Lesson.is_published (lessons_of s (CourseRow.id course)))
    as [|l pub'] eqn:Hpub.
  - change (Z.of_nat (length []) =? 0) with true. cbv iota.
    split; [discriminate|].
    intros e' [= <-]. exists course. rewrite Hpub. repeat split.
  - assert ((Z.of_nat (length (l :: pub')) =? 0) = false) as ->
      by (apply Z.eqb_neq; cbn [length]; lia).
    unfold truediv.
    destruct (decide (Qc_of_Z (Z.of_nat (length (l :: pub'))) = 0%Qc)) as [E|_].
    { exfalso. revert E. apply Qc_of_Z_nonzero. cbn [length]. lia. }
    cbn [bind]. rewrite Qc_zero_div.
    cbn [with_progress EnrollmentRow.progress_percentage].
    rewrite hundred_not_le_zero. cbn [andb].
    split; [discriminate|].
    intros e' [= <-]. exists course. rewrite Hpub. repeat split.
Qed.

Example update_progress_examples :
  let e := EnrollmentRow.mk 1 7 1 "active" true (Qc_of_Z 30) None (Some 0) None None in
  let e2 := EnrollmentRow.mk 2 7 2 "active" true 0%Qc None (Some 0) None None in
  let s := mkStore [] [open_course; CourseRow.mk 2 3 true] [e; e2]
                   [Lesson.mk 1 1 1 None true false; Lesson.mk 2 2 1 None false false]
                   [] [] [] in
  option_map EnrollmentRow.status (match update_progress 50 s e with
                                   | Ok e' => Some e' | Raise _ => None end)
  = Some "active"%string
  /\ update_progress 50 s e2 = Ok (with_progress e2 (Qc_of_Z 100)).
Proof. cbv zeta. split; reflexivity. Qed.

(** ** Lessons in order *)

Lemma insert_lesson_in (x y : Lesson.t) (l : list Lesson.t) :
  In y (insert_lesson x l) <-> y = x \/ In y l.
Proof.
  induction l as [|z l IH]; cbn [insert_lesson].
  - cbn. intuition congruence.
  - destruct (Lesson.order_index x <=? Lesson.order_index z).
    + cbn. intuition congruence.
    + cbn [In]. rewrite IH. intuition congruence.
Qed.

Lemma order_lessons_in (y : Lesson.t) (l : list Lesson.t) :
  In y (order_lessons l) <-> In y l.
Proof.
  unfold order_lessons. induction l as [|x l IH]; cbn [fold_right]; [reflexivity|].
  rewrite insert_lesson_in, IH. cbn. intuition congruence.
Qed.

Lemma insert_lesson_sorted (x : Lesson.t) (l : list Lesson.t) :
  StronglySorted lesson_le l -> StronglySorted lesson_le (insert_lesson x l).
Proof.
  induction 1 as [|z l Hs IH Hz]; cbn [insert_lesson].
  - repeat constructor.
  - destruct (Z.leb_spec (Lesson.order_index x) (Lesson.order_index z)) as [Hle|Hgt].
    + constructor; [constructor; assumption|].
      constructor; [exact Hle|].
      rewrite List.Forall_forall in Hz |- *. intros y Hy. specialize (Hz y Hy).
      unfold lesson_le in *. lia.
    + constructor; [exact IH|].
      rewrite List.Forall_forall in Hz |- *. intros y Hy.
      apply insert_lesson_in in Hy as [->|Hy]; [unfold lesson_le; lia | apply Hz; exact Hy].
Qed.

Lemma order_lessons_sorted (l : list Lesson.t) :
  StronglySorted lesson_le (order_lessons l).
Proof.
  unfold order_lessons. induction l as [|x l IH]; cbn [fold_right].
  - constructor.
  - apply insert_lesson_sorted. exact IH.
Qed.

Lemma insert_lesson_length (x : Lesson.t) (l : list Lesson.t) :
  length (insert_lesson x l) = S (length l).
Proof.
  induction l as [|z l IH]; cbn [insert_lesson]; [reflexivity|].
  destruct (_ <=? _); cbn [length]; [reflexivity | rewrite IH; reflexivity].
Qed.

Lemma order_lessons_length (l : list Lesson.t) : length (order_lessons l) = length l.
Proof.
  unfold order_lessons. induction l as [|x l IH]; cbn [fold_right]; [reflexivity|].
  rewrite insert_lesson_length, IH. reflexivity.
Qed.

(** ** The view [course_details] *)

Lemma first_active_enrollment_some (s : Store) (uid cid : Z) (e : EnrollmentRow.t) :
  first_active_enrollment s uid cid = Some e ->
  In e (enrollment_rows s) /\ EnrollmentRow.user_id e = uid
  /\ EnrollmentRow.course_id e = cid /\ EnrollmentRow.is_active e = true.
Proof.
  unfold first_active_enrollment. intros H. apply find_some in H as [Hin Hp].
  apply andb_true_iff in Hp as [Hp H3]. apply andb_true_iff in Hp as [H1 H2].
  apply Z.eqb_eq in H1, H2. auto.
Qed.

Lemma lessons_of_in (s : Store) (cid : Z) (l : Lesson.t) :
  In l (lessons_of s cid) <-> In l (lessons s) /\ Lesson.course_id l = cid.
Proof. unfold lessons_of. rewrite filter_In, Z.eqb_eq. reflexivity. Qed.

Lemma first_active_enrollment_none (s : Store) (uid cid : Z) :
  first_active_enrollment s uid cid = None ->
  forall e, In e (enrollment_rows s) -> EnrollmentRow.user_id e = uid ->
            EnrollmentRow.course_id e = cid -> EnrollmentRow.is_active e = true -> False.
Proof.
  unfold first_active_enrollment. intros H e Hin H1 H2 H3.
  pose proof (find_none _ _ H e Hin) as Hf. cbv beta in Hf.
  apply Z.eqb_eq in H1, H2. rewrite H1, H2, H3 in Hf. discriminate.
Qed.

Lemma is_admin_or_instructor_manages (cu : option User.t) (course : CourseRow.t) :
  is_admin_or_instructor cu course = true <-> manages cu course.
Proof.
  unfold is_admin_or_instructor, manages, is_admin. destruct cu as [u|].
  - rewrite orb_true_iff, String.eqb_eq, Z.eqb_eq. split.
    + intros H. exists u. split; [reflexivity | exact H].
    + intros (u' & [= <-] & H). exact H.
  - split; [discriminate|]. intros (u' & E & _). discriminate.
Qed.

(** The enrollment the view looks up is there exactly when the viewer has an
    active enrollment in the course. *)
Lemma viewer_enrollment_found (s : Store) (cu : option User.t) (cid : Z) :
  (exists e, match cu with
             | Some u => first_active_enrollment s (User.id u) cid
             | None => None
             end = Some e)
  <-> has_active_enrollment s cu cid.
Proof.
  unfold has_active_enrollment. destruct cu as [u|].
  - split.
    + intros (e & He). apply first_active_enrollment_some in He as (H1 & H2 & H3 & H4).
      exists u, e. auto.
    + intros (u' & e & [= <-] & Hin & H1 & H2 & H3).
      destruct (first_active_enrollment s (User.id u) cid) as [e'|] eqn:E;
        [exists e'; reflexivity|].
      exfalso. exact (first_active_enrollment_none s _ _ E e Hin H1 H2 H3).
  - split; [intros (e & He); discriminate | intros (u' & e & E & _); discriminate].
Qed.

(** X13. What [course_details] lists.  When the page is rendered: a course
    that is not published is shown to an admin or to its instructor only;
    the lessons are in [order_index] order; for a viewer who has an active
    enrollment in the course (some row of the enrollment table says so), for
    an admin and for the instructor they are exactly the published lessons
    of the course, for anyone else exactly the published preview lessons;
    the page carries an enrollment exactly when the viewer has an active
    enrollment in the course, and that enrollment is such a row. *)
Theorem course_details_lessons (s : Store) (cu : option User.t) (cid : Z)
    (p : CourseDetailPage) :
  course_details s cu cid = Page p ->
  get_course_row s cid = Some (cd_course p)
  /\ (CourseRow.is_published (cd_course p) = false -> manages cu (cd_course p))
  /\ StronglySorted lesson_le (cd_lessons p)
  /\ (forall l, In l (cd_lessons p)
                <-> In l (lessons s) /\ Lesson.course_id l = cid
                    /\ Lesson.is_published l = true
                    /\ (has_active_enrollment s cu cid
                        \/ manages cu (cd_course p)
                        \/ Lesson.is_preview l = true))
  /\ ((exists e, cd_enrollment p = Some e) <-> has_active_enrollment s cu cid)
  /\ (forall e, cd_enrollment p = Some e ->
        exists u, cu = Some u /\ In e (enrollment_rows s)
                  /\ EnrollmentRow.user_id e = User.id u
                  /\ EnrollmentRow.course_id e = cid
                  /\ EnrollmentRow.is_active e = true).
Proof.
  unfold course_details. intros H.
  destruct (get_course_row s cid) as [course|] eqn:Hc; [|discriminate].
  pose proof (get_course_row_id s cid course Hc) as Hid.
  destruct (negb (CourseRow.is_published course)
            && negb (is_admin_or_instructor cu course)) eqn:Hgate.
  { unfold flash_then_redirect in H. destruct (url_for _); discriminate. }
  destruct (get_average_rating s course) as [avg|]; [|discriminate].
  injection H as <-. cbn [cd_course cd_lessons cd_enrollment].
  pose proof (viewer_enrollment_found s cu cid) as Hfound.
  pose proof (is_admin_or_instructor_manages cu course) as Hman.
  set (enrollment := match cu with
                     | Some u => first_active_enrollment s (User.id u) cid
                     | None => None
                     end) in *.
  split; [reflexivity|]. split.
  { intros Hp. rewrite Hp in Hgate. cbn [negb andb] in Hgate.
    apply Hman. apply negb_false_iff. exact Hgate. }
  split.
  { destruct (_ || _); apply order_lessons_sorted. }
  split.
  - intros l. rewrite Hid.
    destruct ((match enrollment with Some _ => true | None => false end)
              || is_admin_or_instructor cu course) eqn:Hpriv;
      rewrite order_lessons_in, filter_In, lessons_of_in.
    + assert (has_active_enrollment s cu cid \/ manages cu course) as Hsee.
      { apply orb_true_iff in Hpriv as [Hp|Hp].
        - left. apply Hfound. destruct enrollment as [e|]; [exists e; reflexivity | discriminate].
        - right. apply Hman. exact Hp. }
      intuition.
    + apply orb_false_iff in Hpriv as [Hp1 Hp2].
      assert (~ has_active_enrollment s cu cid) as Hno.
      { intros Hh. apply Hfound in Hh as (e & He). rewrite He in Hp1. discriminate. }
      assert (~ manages cu course) as Hnm.
      { intros Hm. apply Hman in Hm. congruence. }
      rewrite andb_true_iff. intuition.
  - split; [exact Hfound|].
    intros e He. subst enrollment. destruct cu as [u|]; [|discriminate].
    apply first_active_enrollment_some in He as (H1 & H2 & H3 & H4).
    exists u. auto.
Qed.

Lemma course_details_enrolled_page :
  course_details enrolled_store (Some student) 1 = Page enrolled_page.
Proof. qc_value. Qed.

Lemma course_details_lessons_witness :
  course_details enrolled_store (Some student) 1 = Page enrolled_page
  /\ StronglySorted lesson_le (cd_lessons enrolled_page)
  /\ (forall l, In l (cd_lessons enrolled_page)
                <-> In l (lessons enrolled_store) /\ Lesson.course_id l = 1
                    /\ Lesson.is_published l = true
                    /\ (has_active_enrollment enrolled_store (Some student) 1
                        \/ manages (Some student) (cd_course enrolled_page)
                        \/ Lesson.is_preview l = true))
  /\ ((exists e, cd_enrollment enrolled_page = Some e)
      <-> has_active_enrollment enrolled_store (Some student) 1).
Proof.
  split; [exact course_details_enrolled_page|].
  pose proof (course_details_lessons enrolled_store (Some student) 1 enrolled_page
                course_details_enrolled_page) as (_ & _ & Hs & Hl & He & _).
  split; [exact Hs|]. split; [exact Hl | exact He].
Defined.

(** The anonymous visitor of the same course sees the preview lesson only. *)
Example course_details_anonymous :
  course_details enrolled_store None 1
  = Page (mkCourseDetail open_course [Lesson.mk 2 1 10 (Some 5) true true] None 1
                         (Qc_of_Z 4)).
Proof. qc_value. Qed.

Example course_details_enrolled :
  match course_details enrolled_store (Some student) 1 with
  | Page p => map Lesson.id (cd_lessons p) = [2; 1; 4] /\ cd_enrollment_count p = 1
  | _ => False
  end.
Proof. vm_compute. split; reflexivity. Qed.

(** ** The view [lesson_detail] *)

Lemma getitem_in_range {A : Type} (l : list A) (i : Z) :
  0 <= i < Z.of_nat (length l) ->
  exists x, getitem l i = inr x /\ nth_error l (Z.to_nat i) = Some x.
Proof.
  intros Hi. unfold getitem.
  destruct (Z.ltb_spec i 0) as [|_]; [lia|].
  destruct (Z.leb_spec 0 i) as [_|]; [|lia].
  destruct (Z.ltb_spec i (Z.of_nat (length l))) as [_|]; [|lia]. cbn [andb].
  destruct (nth_error l (Z.to_nat i)) as [x|] eqn:E; [exists x; split; reflexivity|].
  apply nth_error_None in E. lia.
Qed.

Lemma first_index_some (lid : Z) (l : list Lesson.t) (i0 j : Z) :
  first_index lid l i0 = Some j ->
  i0 <= j < i0 + Z.of_nat (length l)
  /\ exists x, nth_error l (Z.to_nat (j - i0)) = Some x /\ Lesson.id x = lid.
Proof.
  revert i0. induction l as [|y l IH]; intros i0; cbn [first_index]; [discriminate|].
  destruct (Z.eqb_spec (Lesson.id y) lid) as [E|_].
  - intros [= <-]. cbn [length]. split; [lia|].
    exists y. rewrite Z.sub_diag. split; [reflexivity | exact E].
  - intros H. destruct (IH (i0 + 1) H) as [Hr (x & Hx & Hid)].
    cbn [length]. split; [lia|]. exists x. split; [|exact Hid].
    replace (Z.to_nat (j - i0)) with (S (Z.to_nat (j - (i0 + 1)))) by lia. exact Hx.
Qed.

Lemma first_index_none (lid : Z) (l : list Lesson.t) (i0 : Z) :
  first_index lid l i0 = None -> forall x, In x l -> Lesson.id x <> lid.
Proof.
  revert i0. induction l as [|y l IH]; intros i0; cbn [first_index]; [intros _ x []|].
  destruct (Z.eqb_spec (Lesson.id y) lid) as [|Hne]; [discriminate|].
  intros H x [<-|Hx]; [exact Hne | eapply IH; eassumption].
Qed.

(** X14. Navigation of [lesson_detail].  No index is ever out of range.  On
    the rendered page, [all_lessons] are the published lessons of the
    course in [order_index] order; [prev_lesson] is the entry before
    [current_index] (none at index 0) and [next_lesson] the entry after it
    (none at the end); when a lesson with the requested id is in the list,
    [current_index] points at one. *)
Theorem lesson_detail_navigation (now : Z) (s : Store) (u : User.t) (lid : Z) :
  snd (lesson_detail now s u lid) <> Unhandled IndexError
  /\ (forall p, snd (lesson_detail now s u lid) = Page p ->
        let all := lp_all_lessons p in
        let i := Z.to_nat (lp_current_index p) in
        0 <= lp_current_index p
        /\ lp_prev_lesson p = match i with O => None | S k => nth_error all k end
        /\ lp_next_lesson p = nth_error all (S i)
        /\ (forall l, In l all -> Lesson.id l = lid ->
              exists l', nth_error all i = Some l' /\ Lesson.id l' = lid)
        /\ StronglySorted lesson_le all
        /\ (forall l, In l all
                      <-> In l (lessons s)
                          /\ Lesson.course_id l = CourseRow.id (lp_course p)
                          /\ Lesson.is_published l = true)).
Proof.
  unfold lesson_detail.
  destruct (get_lesson s lid) as [lesson|]; [|split; [discriminate | intros p; discriminate]].
  destruct (get_course_row s (Lesson.course_id lesson)) as [course|];
    [|split; [discriminate | intros p; discriminate]].
  destruct (negb _ && negb _).
  { cbn [snd]. unfold flash_then_redirect.
    destruct (url_for _); split; try discriminate; intros p; discriminate. }
  set (all := order_lessons (List.filter Lesson.is_published
                                         (lessons_of s (CourseRow.id course)))).
  set (ci := default 0 (first_index lid all 0)).
  assert (0 <= ci
          /\ (ci = 0 \/ ci < Z.of_nat (length all))
          /\ (forall l, In l all -> Lesson.id l = lid ->
                exists l', nth_error all (Z.to_nat ci) = Some l' /\ Lesson.id l' = lid))
    as (Hci0 & Hci & Hcur).
  { subst ci. destruct (first_index lid all 0) as [j|] eqn:Hf; cbn [from_option id].
    - destruct (first_index_some lid all 0 j Hf) as [Hr (x & Hx & Hid)].
      rewrite Z.sub_0_r in Hx. split; [lia|]. split; [right; lia|].
      intros _ _ _. exists x. auto.
    - split; [lia|]. split; [left; reflexivity|].
      intros l Hl Hid. exfalso. exact (first_index_none lid all 0 Hf l Hl Hid). }
  assert (exists prev,
            (if 0 <? ci then sum_map id Some (getitem all (ci - 1)) else inr None)
            = inr prev
            /\ prev = match Z.to_nat ci with O => None | S k => nth_error all k end)
    as (prev & -> & Hprev).
  { destruct (Z.ltb_spec 0 ci) as [Hpos|Hz].
    - destruct (getitem_in_range all (ci - 1)) as (x & -> & Hx); [lia|].
      exists (Some x). split; [reflexivity|].
      replace (Z.to_nat ci) with (S (Z.to_nat (ci - 1))) by lia. symmetry. exact Hx.
    - exists None. split; [reflexivity|].
      replace ci with 0 by lia. reflexivity. }
  assert (exists next,
            (if ci <? Z.of_nat (length all) - 1
             then sum_map id Some (getitem all (ci + 1)) else inr None)
            = inr next
            /\ next = nth_error all (S (Z.to_nat ci)))
    as (next & -> & Hnext).
  { destruct (Z.ltb_spec ci (Z.of_nat (length all) - 1)) as [Hlt|Hge].
    - destruct (getitem_in_range all (ci + 1)) as (x & -> & Hx); [lia|].
      exists (Some x). split; [reflexivity|].
      replace (S (Z.to_nat ci)) with (Z.to_nat (ci + 1)) by lia. symmetry. exact Hx.
    - exists None. split; [reflexivity|]. symmetry. apply nth_error_None. lia. }
  cbn [snd]. split; [discriminate|].
  intros p [= <-]. cbn [lp_all_lessons lp_current_index lp_prev_lesson
                        lp_next_lesson lp_course].
  split; [exact Hci0|]. split; [exact Hprev|]. split; [exact Hnext|].
  split; [exact Hcur|]. split; [apply order_lessons_sorted|].
  intros l. subst all. rewrite order_lessons_in, filter_In, lessons_of_in. tauto.
Qed.

Example lesson_detail_navigation_example :
  match snd (lesson_detail 50 enrolled_store student 1) with
  | Page p =>
      map Lesson.id (lp_all_lessons p) = [2; 1; 4] /\ lp_current_index p = 1
      /\ option_map Lesson.id (lp_prev_lesson p) = Some 2
      /\ option_map Lesson.id (lp_next_lesson p) = Some 4
  | _ => False
  end.
Proof. vm_compute. repeat split. Qed.

(** An unpublished lesson is served to an enrolled user; it is not in
    [all_lessons], so [current_index] falls back to 0. *)
Example lesson_detail_unpublished :
  match snd (lesson_detail 50 enrolled_store student 3) with
  | Page p =>
      Lesson.is_published (lp_lesson p) = false /\ lp_current_index p = 0
      /\ lp_prev_lesson p = None
      /\ option_map Lesson.id (lp_next_lesson p) = Some 1
  | _ => False
  end.
Proof. vm_compute. repeat split. Qed.

Lemma touch_touch (t now : Z) (e : EnrollmentRow.t) : touch t (touch now e) = touch t e.
Proof. reflexivity. Qed.

Lemma update_touch_rows (now : Z) (s : Store) (e : EnrollmentRow.t) :
  In e (enrollment_rows s) -> NoDup (enrollment_ids s) ->
  map (touch 0) (enrollment_rows (update_enrollment s (touch now e)))
  = map (touch 0) (enrollment_rows s).
Proof.
  intros Hin Hnd. unfold update_enrollment, with_enrollment_rows, enrollment_ids in *.
  cbn [enrollment_rows]. rewrite map_map. apply map_ext_in. intros x Hx.
  change (EnrollmentRow.id (touch now e)) with (EnrollmentRow.id e).
  destruct (Z.eqb_spec (EnrollmentRow.id x) (EnrollmentRow.id e)) as [E|]; [|reflexivity].
  assert (x = e) as ->; [|apply touch_touch].
  clear - Hx Hin Hnd E.
  induction (enrollment_rows s) as [|y l IH]; [destruct Hx|].
  cbn [map] in Hnd. apply NoDup_cons in Hnd as [Hny Hnd].
  rewrite list_elem_of_In in Hny.
  destruct Hx as [->|Hx], Hin as [->|Hin]; try reflexivity.
  - exfalso. apply Hny. rewrite E. apply in_map. exact Hin.
  - exfalso. apply Hny. rewrite <- E. apply in_map. exact Hx.
  - apply IH; assumption.
Qed.

Lemma lesson_detail_store (now : Z) (s : Store) (u : User.t) (lid : Z) :
  fst (lesson_detail now s u lid) = s
  \/ exists e, In e (enrollment_rows s)
               /\ fst (lesson_detail now s u lid) = update_enrollment s (touch now e).
Proof.
  unfold lesson_detail.
  destruct (get_lesson s lid) as [lesson|]; [|left; reflexivity].
  destruct (get_course_row s (Lesson.course_id lesson)) as [course|]; [|left; reflexivity].
  destruct (negb _ && negb _); [left; reflexivity|].
  destruct (if 0 <? _ then _ else _) as [e1|prev]; [left; reflexivity|].
  destruct (if _ <? _ then _ else _) as [e2|next]; [left; reflexivity|].
  destruct (first_active_enrollment s (User.id u) (CourseRow.id course)) as [e|] eqn:He;
    [|left; reflexivity].
  right. exists e. apply first_active_enrollment_some in He as (Hin & _).
  split; [exact Hin | reflexivity].
Qed.

Lemma lesson_detail_access (now : Z) (s : Store) (u : User.t) (lid : Z)
    (p : LessonPage) :
  snd (lesson_detail now s u lid) = Page p ->
  Lesson.id (lp_lesson p) = lid
  /\ (can_be_accessed_by_user (db_of s) (course_core (lp_course p)) u = true
      \/ Lesson.is_preview (lp_lesson p) = true).
Proof.
  unfold lesson_detail.
  destruct (get_lesson s lid) as [lesson|] eqn:Hl; [|discriminate].
  destruct (get_course_row s (Lesson.course_id lesson)) as [course|]; [|discriminate].
  destruct (negb (can_be_accessed_by_user _ _ _) && negb (Lesson.is_preview lesson))
    eqn:Hgate.
  { cbn [snd]. unfold flash_then_redirect. destruct (url_for _); discriminate. }
  destruct (if 0 <? _ then _ else _) as [e1|prev]; [discriminate|].
  destruct (if _ <? _ then _ else _) as [e2|next]; [discriminate|].
  cbn [snd]. intros [= <-]. cbn [lp_lesson lp_course]. split.
  - unfold get_lesson in Hl. apply find_some in Hl as [_ Hl]. apply Z.eqb_eq. exact Hl.
  - apply andb_false_iff in Hgate as [H|H]; apply negb_false_iff in H; auto.
Qed.

(** X15. What [lesson_detail] changes and to whom it shows a lesson.  With
    unique primary keys in the enrollment table, a request changes nothing
    but [last_accessed_at] of enrollment rows; and a page is rendered only
    for a user who may access the course or for a preview lesson. *)
Theorem lesson_detail_frame (now : Z) (s : Store) (u : User.t) (lid : Z) :
  NoDup (enrollment_ids s) ->
  let s' := fst (lesson_detail now s u lid) in
  user_rows s' = user_rows s /\ course_rows s' = course_rows s
  /\ lessons s' = lessons s /\ s_quizzes s' = s_quizzes s
  /\ s_questions s' = s_questions s /\ s_quiz_attempts s' = s_quiz_attempts s
  /\ map (touch 0) (enrollment_rows s') = map (touch 0) (enrollment_rows s)
  /\ (forall p, snd (lesson_detail now s u lid) = Page p ->
        Lesson.id (lp_lesson p) = lid
        /\ (can_be_accessed_by_user (db_of s) (course_core (lp_course p)) u = true
            \/ Lesson.is_preview (lp_lesson p) = true)).
Proof.
  intros Hnd. cbv zeta.
  destruct (lesson_detail_store now s u lid) as [-> | (e & Hin & ->)].
  - repeat (split; [reflexivity|]). apply lesson_detail_access.
  - repeat (split; [reflexivity|]).
    split; [apply update_touch_rows; assumption | apply lesson_detail_access].
Qed.

Lemma lesson_detail_frame_witness :
  let s' := fst (lesson_detail 50 enrolled_store student 1) in
  user_rows s' = user_rows enrolled_store /\ course_rows s' = course_rows enrolled_store
  /\ lessons s' = lessons enrolled_store /\ s_quizzes s' = s_quizzes enrolled_store
  /\ s_questions s' = s_questions enrolled_store
  /\ s_quiz_attempts s' = s_quiz_attempts enrolled_store
  /\ map (touch 0) (enrollment_rows s') = map (touch 0) (enrollment_rows enrolled_store)
  /\ (forall p, snd (lesson_detail 50 enrolled_store student 1) = Page p ->
        Lesson.id (lp_lesson p) = 1
        /\ (can_be_accessed_by_user (db_of enrolled_store) (course_core (lp_course p))
              student = true
            \/ Lesson.is_preview (lp_lesson p) = true)).
Proof.
  apply (lesson_detail_frame 50 enrolled_store student 1).
  apply NoDup_singleton.
Defined.

(** ** [User.get_progress_summary], [Course.get_completion_rate] *)

Lemma filter_and_length_le {A : Type} (p q : A -> bool) (l : list A) :
  (length (List.filter (fun x => p x && q x) l) <= length (List.filter p l))%nat.
Proof.
  induction l as [|x l IH]; cbn [List.filter length]; [lia|].
  destruct (p x); cbn [andb]; [destruct (q x)|]; cbn [length]; lia.
Qed.

(** Counting with the boolean filters of the queries is counting the rows
    that satisfy the condition. *)
Lemma count_rows_filter {A : Type} (f : A -> bool) (P : A -> Prop)
    `{!forall x, Decision (P x)} (l : list A) :
  (forall x, f x = true <-> P x) ->
  Z.of_nat (length (List.filter f l)) = count_rows P l.
Proof.
  intros Hf. unfold count_rows. f_equal.
  induction l as [|x l IH]; [reflexivity|].
  cbn [List.filter]. rewrite filter_cons.
  destruct (f x) eqn:E.
  - rewrite decide_True by (apply Hf; exact E). cbn [length]. rewrite IH. reflexivity.
  - rewrite decide_False by (rewrite <- Hf; congruence). exact IH.
Qed.

Lemma filter_filter_andb {A : Type} (f g : A -> bool) (l : list A) :
  List.filter f (List.filter g l) = List.filter (fun x => g x && f x) l.
Proof.
  induction l as [|x l IH]; [reflexivity|].
  cbn [List.filter]. destruct (g x); cbn [andb List.filter]; rewrite IH; reflexivity.
Qed.

Lemma percentage_none (t : Z) : percentage 0 t = Ok 0%Qc.
Proof.
  destruct (Z_lt_le_dec 0 t) as [Ht|Ht].
  - rewrite (percentage_pos 0 t Ht).
    rewrite Z2Qc_inj_0. unfold Qcdiv. rewrite !Qcmult_0_l. reflexivity.
  - apply percentage_nonpos. exact Ht.
Qed.

Lemma Enrollment_is_completed_true (e : EnrollmentRow.t) :
  Enrollment_is_completed e = true <-> EnrollmentRow.status e = "completed"%string.
Proof. unfold Enrollment_is_completed. apply String.eqb_eq. Qed.

(** X16. [get_progress_summary] always returns.  [total_courses] is the
    number of rows of the enrollment table that are active enrollments of
    the user, [completed_courses] the number of those with status
    [completed], and [total_quizzes] the number of rows of the attempts table
    that are attempts of the user, of every quiz and status.  The completion
    rate lies between 0 and 100; it is 0 for a user without active
    enrollment (no division by zero) and for a user none of whose active
    enrollments is completed, and 100 when all of them are. *)
Theorem get_progress_summary_range (s : Store) (u : User.t) :
  exists r,
    get_progress_summary s u = Ok r
    /\ total_courses r = count_rows (user_active u) (enrollment_rows s)
    /\ completed_courses r = count_rows (user_active_completed u) (enrollment_rows s)
    /\ total_quizzes r = count_rows (attempt_of_user u) (s_quiz_attempts s)
    /\ 0 <= completed_courses r <= total_courses r
    /\ (0 <= completion_rate r <= Qc_of_Z 100)%Qc
    /\ (total_courses r = 0 -> completion_rate r = 0%Qc)
    /\ (completed_courses r = 0 -> completion_rate r = 0%Qc)
    /\ (0 < total_courses r -> completed_courses r = total_courses r ->
        completion_rate r = Qc_of_Z 100)
    /\ (forall qid, attempts_used (db_of s) u qid <= total_quizzes r).
Proof.
  unfold get_progress_summary.
  set (mine := List.filter (fun e => Z.eqb (EnrollmentRow.user_id e) (User.id u))
                           (enrollment_rows s)).
  set (total := Z.of_nat (length (List.filter EnrollmentRow.is_active mine))).
  set (completed := Z.of_nat (length (List.filter
         (fun e => EnrollmentRow.is_active e && Enrollment_is_completed e) mine))).
  assert (0 <= completed <= total) as Hct.
  { subst completed total.
    pose proof (filter_and_length_le EnrollmentRow.is_active Enrollment_is_completed mine).
    lia. }
  change (if 0 <? total
          then let! r := truediv (Qc_of_Z completed) (Qc_of_Z total) in
               Ok (r * Qc_of_Z 100)%Qc
          else Ok 0%Qc) with (percentage completed total).
  destruct (percentage_defined completed total) as [p Hp]. rewrite Hp. cbn [bind].
  eexists. split; [reflexivity|].
  cbn [completed_courses total_courses completion_rate total_quizzes].
  split.
  { subst total mine. rewrite filter_filter_andb. apply count_rows_filter.
    intros e. unfold user_active. rewrite andb_true_iff, Z.eqb_eq. reflexivity. }
  split.
  { subst completed mine. rewrite filter_filter_andb. apply count_rows_filter.
    intros e. unfold user_active_completed.
    rewrite !andb_true_iff, Z.eqb_eq, Enrollment_is_completed_true. reflexivity. }
  split.
  { apply count_rows_filter. intros a. unfold attempt_of_user. apply Z.eqb_eq. }
  split; [exact Hct|]. split; [eapply percentage_range; eassumption|]. split.
  { intros H0. rewrite H0 in Hp. rewrite percentage_nonpos in Hp by lia.
    injection Hp as <-. reflexivity. }
  split.
  { intros H0. rewrite H0, percentage_none in Hp. injection Hp as <-. reflexivity. }
  split.
  { intros Hpos E. rewrite E, (percentage_full total Hpos) in Hp.
    injection Hp as <-. reflexivity. }
  intros qid. unfold attempts_used, attempts_of, db_of. cbn [quiz_attempts].
  induction (s_quiz_attempts s) as [|a l IH]; cbn [List.filter length]; [lia|].
  destruct (Z.eqb (QuizAttempt.quiz_id a) qid); cbn [List.filter];
    destruct (Z.eqb (QuizAttempt.user_id a) (User.id u)); cbn [length]; lia.
Qed.

(** The student of the busy store: three enrollments, two of them active,
    one active and completed, two attempts. *)
Example get_progress_summary_example :
  count_rows (user_active student) (enrollment_rows busy_store) = 2
  /\ count_rows (user_active_completed student) (enrollment_rows busy_store) = 1
  /\ count_rows (attempt_of_user student) (s_quiz_attempts busy_store) = 2
  /\ match get_progress_summary busy_store student with
     | Ok r => total_courses r = 2 /\ completed_courses r = 1 /\ total_quizzes r = 2
     | Raise _ => False
     end.
Proof. vm_compute. repeat split. Qed.

(** X17. [get_enrollment_count] is the number of rows of the enrollment
    table that are active enrollments in the course.  The completion rate of
    a course always is a number between 0 and 100; it is 0 when the course
    has no active enrollment (no division by zero) and when none of its
    active enrollments is completed, and 100 when all of them are. *)
Theorem Course_get_completion_rate_range (s : Store) (c : CourseRow.t) :
  let active := count_rows (course_active c) (enrollment_rows s) in
  let done := count_rows (course_active_completed c) (enrollment_rows s) in
  exists p,
    Course_get_completion_rate s c = Ok p
    /\ get_enrollment_count s c = active
    /\ (0 <= p <= Qc_of_Z 100)%Qc
    /\ (active = 0 -> p = 0%Qc)
    /\ (done = 0 -> p = 0%Qc)
    /\ (0 < active -> done = active -> p = Qc_of_Z 100)
    /\ 0 <= done <= active
    /\ active <= Z.of_nat (length (enrollments_of s (CourseRow.id c))).
Proof.
  cbv zeta. unfold Course_get_completion_rate, get_enrollment_count.
  set (rows := enrollments_of s (CourseRow.id c)).
  set (total := Z.of_nat (length (List.filter EnrollmentRow.is_active rows))).
  set (completed := Z.of_nat (length (List.filter
         (fun e => EnrollmentRow.is_active e && Enrollment_is_completed e) rows))).
  assert (0 <= completed <= total) as Hct.
  { subst completed total.
    pose proof (filter_and_length_le EnrollmentRow.is_active Enrollment_is_completed rows).
    lia. }
  assert (total = count_rows (course_active c) (enrollment_rows s)) as Ht.
  { subst total rows. unfold enrollments_of. rewrite filter_filter_andb.
    apply count_rows_filter.
    intros e. unfold course_active. rewrite andb_true_iff, Z.eqb_eq. reflexivity. }
  assert (completed = count_rows (course_active_completed c) (enrollment_rows s)) as Hc.
  { subst completed rows. unfold enrollments_of. rewrite filter_filter_andb.
    apply count_rows_filter.
    intros e. unfold course_active_completed.
    rewrite !andb_true_iff, Z.eqb_eq, Enrollment_is_completed_true. reflexivity. }
  assert (total <= Z.of_nat (length rows)) as Hle
    by (subst total; pose proof (filter_length_le EnrollmentRow.is_active rows); lia).
  change (if 0 <? total
          then let! r := truediv (Qc_of_Z completed) (Qc_of_Z total) in
               Ok (r * Qc_of_Z 100)%Qc
          else Ok 0%Qc) with (percentage completed total).
  rewrite <- Ht, <- Hc.
  destruct (percentage_defined completed total) as [p Hp]. exists p.
  split; [exact Hp|]. split; [reflexivity|].
  split; [eapply percentage_range; eassumption|]. split.
  { intros H0. rewrite H0 in Hp. rewrite percentage_nonpos in Hp by lia.
    injection Hp as <-. reflexivity. }
  split.
  { intros H0. rewrite H0, percentage_none in Hp. injection Hp as <-. reflexivity. }
  split.
  { intros Hpos E. rewrite E, (percentage_full total Hpos) in Hp.
    injection Hp as <-. reflexivity. }
  split; [exact Hct | exact Hle].
Qed.

(** The first course of the busy store has three enrollment rows, of which
    two are active; the inactive one is not counted. *)
Example get_enrollment_count_example :
  length (enrollments_of busy_store 1) = 2%nat
  /\ get_enrollment_count busy_store open_course = 2
  /\ get_enrollment_count busy_store (CourseRow.mk 3 3 true) = 0
  /\ length (enrollments_of busy_store 3) = 1%nat.
Proof. vm_compute. repeat split. Qed.

(** ** [Course.get_average_rating] *)

Lemma sumZ_bounds (lo hi : Z) (l : list Z) :
  (forall x, In x l -> lo <= x <= hi) ->
  lo * Z.of_nat (length l) <= sumZ l <= hi * Z.of_nat (length l).
Proof.
  induction l as [|x l IH]; intros H.
  - unfold sumZ. cbn. lia.
  - rewrite sumZ_cons. cbn [length]. rewrite Nat2Z.inj_succ.
    pose proof (H x (or_introl eq_refl)).
    assert (forall y, In y l -> lo <= y <= hi) as H' by (intros y Hy; apply H; right; exact Hy).
    specialize (IH H'). lia.
Qed.

Lemma in_ratings (s : Store) (c : CourseRow.t) (r : Z) :
  In r (omap EnrollmentRow.rating (enrollments_of s (CourseRow.id c)))
  <-> exists e, In e (enrollment_rows s)
                /\ EnrollmentRow.course_id e = CourseRow.id c
                /\ EnrollmentRow.rating e = Some r.
Proof.
  rewrite <- list_elem_of_In, list_elem_of_omap. unfold enrollments_of.
  split; intros (e & He & Hr); exists e.
  - apply list_elem_of_In, filter_In in He as [He Hc]. apply Z.eqb_eq in Hc. auto.
  - destruct Hr as (Hc & Hr). split; [|exact Hr].
    apply list_elem_of_In, filter_In. split; [exact He | apply Z.eqb_eq; exact Hc].
Qed.

(** X18. [get_average_rating] always returns a number: 0 when no enrollment
    of the course has a rating, otherwise a value between the least and the
    greatest rating.  The ratings of all enrollment rows of the course
    count, active or not. *)
Theorem get_average_rating_between (s : Store) (c : CourseRow.t) :
  exists m,
    get_average_rating s c = Ok m
    /\ ((forall e, In e (enrollment_rows s) ->
           EnrollmentRow.course_id e = CourseRow.id c -> EnrollmentRow.rating e = None) ->
        m = 0%Qc)
    /\ (forall lo hi e0 r0,
          In e0 (enrollment_rows s) -> EnrollmentRow.course_id e0 = CourseRow.id c ->
          EnrollmentRow.rating e0 = Some r0 ->
          (forall e r, In e (enrollment_rows s) ->
             EnrollmentRow.course_id e = CourseRow.id c ->
             EnrollmentRow.rating e = Some r -> lo <= r <= hi) ->
          (Qc_of_Z lo <= m <= Qc_of_Z hi)%Qc).
Proof.
  unfold get_average_rating.
  pose proof (in_ratings s c) as Hin.
  destruct (omap EnrollmentRow.rating (enrollments_of s (CourseRow.id c)))
    as [|x l] eqn:Hr.
  - exists 0%Qc. split; [reflexivity|]. split; [reflexivity|].
    intros lo hi e0 r0 H1 H2 H3 _. exfalso.
    apply (proj2 (Hin r0)). exists e0. auto.
  - unfold truediv.
    set (n := Z.of_nat (length (x :: l))).
    assert (0 < n) as Hn by (subst n; cbn [length]; lia).
    destruct (decide (Qc_of_Z n = 0%Qc)) as [E|_].
    { exfalso. revert E. apply Qc_of_Z_nonzero. lia. }
    eexists. split; [reflexivity|]. split.
    + intros Hnone. exfalso. destruct (proj1 (Hin x) (or_introl eq_refl)) as (e & H1 & H2 & H3).
      rewrite (Hnone e H1 H2) in H3. discriminate.
    + intros lo hi e0 r0 _ _ _ Hall.
      destruct (sumZ_bounds lo hi (x :: l)) as [Hlo Hhi].
      { intros r Hrin. apply Hin in Hrin as (e & H1 & H2 & H3). eapply Hall; eassumption. }
      fold n in Hlo, Hhi.
      assert (0 < Qc_of_Z n)%Qc as Hpos by (apply Qc_of_Z_pos; exact Hn).
      assert (Qc_of_Z (sumZ (x :: l)) / Qc_of_Z n * Qc_of_Z n = Qc_of_Z (sumZ (x :: l)))%Qc
        as Hmul.
      { unfold Qcdiv. rewrite <- Qcmult_assoc, Qcmult_inv_l, Qcmult_1_r; [reflexivity|].
        apply Qc_of_Z_nonzero. lia. }
      split; apply (Qcmult_le_mono_pos_r _ _ (Qc_of_Z n) Hpos);
        rewrite Hmul, <- Z2Qc_inj_mul; apply (proj1 (Z2Qc_inj_le _ _)); assumption.
Qed.

Example get_average_rating_counts_inactive :
  let s := mkStore [] [open_course]
             [ EnrollmentRow.mk 1 7 1 "active" true 0%Qc (Some 5) None None None;
               EnrollmentRow.mk 2 8 1 "active" false 0%Qc (Some 2) None None None ]
             [] [] [] [] in
  get_average_rating s open_course = Ok (Q2Qc (7 # 2))
  /\ get_enrollment_count s open_course = 1.
Proof. cbv zeta. split; [|reflexivity]. vm_compute. f_equal. Qed.

(** ** The view [register] *)

Lemma append_if_nil (b : bool) (x : string) (l : list string) :
  append_if b x l = [] <-> b = false /\ l = [].
Proof.
  unfold append_if. destruct b.
  - split; [|intros [H _]; discriminate].
    intros H. apply app_eq_nil in H as [_ H]. discriminate.
  - tauto.
Qed.

Lemma register_errors_nil (s : Store) (username email password first_name last_name
    : string) :
  register_errors s username email password first_name last_name = []
  <-> (username <> EmptyString /\ 3 <= len username)
      /\ (email <> EmptyString /\ contains_char "@" email = true)
      /\ (password <> EmptyString /\ 6 <= len password)
      /\ first_name <> EmptyString /\ last_name <> EmptyString
      /\ first_user_by_username s username = None
      /\ first_user_by_email s email = None.
Proof.
  unfold register_errors. rewrite !append_if_nil, !orb_false_iff, !Z.ltb_ge,
    negb_false_iff.
  assert (forall t, is_empty t = false <-> t <> EmptyString) as He
    by (intros []; cbn; split; congruence).
  rewrite !He.
  destruct (first_user_by_username s username), (first_user_by_email s email);
    intuition congruence.
Qed.

(** X19. What [register] creates.  A request either leaves the store as it
    was or adds one user row; a row is added only by a POST whose trimmed
    username has at least 3 characters and is not taken, whose trimmed,
    lowercased email contains [@] and is not taken, whose password has at
    least 6 characters and whose names are not empty.  The new row is
    active, stores the hash of the password, and has the role [student] or
    [teacher], never [admin].  Even then the reply reports a failure:
    status 500 for a JSON request, the form with an error message
    otherwise. *)
Theorem register_effect gen (m : http_method) (j : bool) (data : gmap string string)
    (s : Store) :
  let s' := fst (register gen m j data s) in
  s' = s
  \/ exists row,
       s' = add_user s row
       /\ m = POST
       /\ UserRow.id row = next_user_id s
       /\ UserRow.username row = strip (form_get data "username" "")
       /\ 3 <= len (UserRow.username row)
       /\ first_user_by_username s (UserRow.username row) = None
       /\ UserRow.email row = lower (strip (form_get data "email" ""))
       /\ contains_char "@" (UserRow.email row) = true
       /\ first_user_by_email s (UserRow.email row) = None
       /\ 6 <= len (form_get data "password" "")
       /\ UserRow.password_hash row = gen (form_get data "password" "")
       /\ UserRow.first_name row <> EmptyString
       /\ UserRow.last_name row <> EmptyString
       /\ (UserRow.role row = "student"%string \/ UserRow.role row = "teacher"%string)
       /\ UserRow.is_active row = true
       /\ snd (register gen m j data s)
          = (if j
             then AuthJson 500 false
                    ["An error occured during registration. Please try again"%string]
             else AuthRender "auth/register.html"
                    ["An error occured during registration. Please try again"%string]).
Proof.
  cbv zeta. unfold register. destruct m; [left; reflexivity|].
  destruct (register_errors _ _ _ _ _ _) as [|e errs] eqn:He.
  2:{ left. destruct j; reflexivity. }
  apply register_errors_nil in He
    as ((Hu1 & Hu2) & (He1 & He2) & (Hp1 & Hp2) & Hf & Hl & Hnu & Hne).
  right. eexists. split; [destruct j; reflexivity|].
  cbn [set_password UserRow.id UserRow.username UserRow.email UserRow.password_hash
       UserRow.first_name UserRow.last_name UserRow.role UserRow.is_active].
  repeat (split; [first [reflexivity | assumption]|]).
  split.
  - destruct (existsb _ _) eqn:Hx; [|left; reflexivity].
    cbn [existsb] in Hx. rewrite orb_false_r in Hx.
    apply orb_true_iff in Hx as [Hx|Hx]; apply String.eqb_eq in Hx; auto.
  - split; [reflexivity|]. destruct j; reflexivity.
Qed.

Lemma first_user_by_username_none (s : Store) (name : string) :
  first_user_by_username s name = None -> ~ In name (map UserRow.username (user_rows s)).
Proof.
  unfold first_user_by_username. intros H Hin.
  apply in_map_iff in Hin as (u & Hu & Hin).
  pose proof (find_none _ _ H u Hin) as Hn. cbn beta in Hn.
  rewrite Hu, String.eqb_refl in Hn. discriminate.
Qed.

Lemma first_user_by_email_none (s : Store) (mail : string) :
  first_user_by_email s mail = None -> ~ In mail (map UserRow.email (user_rows s)).
Proof.
  unfold first_user_by_email. intros H Hin.
  apply in_map_iff in Hin as (u & Hu & Hin).
  pose proof (find_none _ _ H u Hin) as Hn. cbn beta in Hn.
  rewrite Hu, String.eqb_refl in Hn. discriminate.
Qed.

Lemma next_user_id_fresh (s : Store) (u : UserRow.t) :
  In u (user_rows s) -> UserRow.id u < next_user_id s.
Proof.
  unfold next_user_id.
  induction (user_rows s) as [|x l IH]; intros H; [destruct H|].
  cbn [map fold_right]. destruct H as [->|H]; [lia | specialize (IH H); lia].
Qed.

Lemma NoDup_snoc {A : Type} (l : list A) (x : A) :
  NoDup l -> ~ In x l -> NoDup (l ++ [x]).
Proof.
  intros Hl Hx. apply NoDup_app. split; [exact Hl|]. split; [|apply NoDup_singleton].
  intros y Hy Hy'. apply list_elem_of_In in Hy. apply list_elem_of_In in Hy'.
  destruct Hy' as [<-|[]]. exact (Hx Hy).
Qed.

Lemma register_store gen (m : http_method) (j : bool) (data : gmap string string)
    (s : Store) :
  fst (register gen m j data s) = s
  \/ exists row,
       fst (register gen m j data s) = add_user s row
       /\ UserRow.id row = next_user_id s
       /\ first_user_by_username s (UserRow.username row) = None
       /\ first_user_by_email s (UserRow.email row) = None.
Proof.
  unfold register. destruct m; [left; reflexivity|].
  destruct (register_errors _ _ _ _ _ _) as [|e errs] eqn:He.
  2:{ left. destruct j; reflexivity. }
  apply register_errors_nil in He as (_ & _ & _ & _ & _ & Hnu & Hne).
  right. eexists. split; [destruct j; reflexivity|].
  cbn [set_password UserRow.id UserRow.username UserRow.email]. auto.
Qed.

(** X20. [register] keeps the user table free of duplicates: when
    usernames, emails and primary keys are pairwise distinct before the
    request, they are after it. *)
Theorem register_keeps_unique gen (m : http_method) (j : bool)
    (data : gmap string string) (s : Store) :
  NoDup (map UserRow.id (user_rows s)) ->
  NoDup (map UserRow.username (user_rows s)) ->
  NoDup (map UserRow.email (user_rows s)) ->
  let s' := fst (register gen m j data s) in
  NoDup (map UserRow.id (user_rows s'))
  /\ NoDup (map UserRow.username (user_rows s'))
  /\ NoDup (map UserRow.email (user_rows s')).
Proof.
  intros Hi Hu He. cbv zeta.
  destruct (register_store gen m j data s) as [-> | (row & -> & Hid & Hnu & Hne)]; [auto|].
  unfold add_user, with_user_rows. cbn [user_rows]. rewrite !map_app. cbn [map].
  split; [|split].
  - apply NoDup_snoc; [exact Hi|]. intros Hin.
    apply in_map_iff in Hin as (u & Hu' & Hin).
    pose proof (next_user_id_fresh s u Hin). lia.
  - apply NoDup_snoc; [exact Hu|]. apply first_user_by_username_none. exact Hnu.
  - apply NoDup_snoc; [exact He|]. apply first_user_by_email_none. exact Hne.
Qed.

Lemma register_keeps_unique_witness :
  let s' := fst (register toy_hash POST true bob_form one_user_store) in
  NoDup (map UserRow.id (user_rows s'))
  /\ NoDup (map UserRow.username (user_rows s'))
  /\ NoDup (map UserRow.email (user_rows s')).
Proof.
  apply (register_keeps_unique toy_hash POST true bob_form one_user_store);
    apply NoDup_singleton.
Defined.

Example register_bob :
  register toy_hash POST true bob_form one_user_store
  = (add_user one_user_store
       (UserRow.mk 2 "bob" "bob@example.org" (toy_hash "hunter22") "Bob" "B"
                   "student" true None "UTC" "en"),
     AuthJson 500 false ["An error occured during registration. Please try again"%string]).
Proof. vm_compute. reflexivity. Qed.

(** ** The views [change_password] and [edit_profile] *)


Example change_password_examples :
  let good : gmap string string :=
    {[ "current_password"%string := "secret1"%string;
       "new_password"%string := "secret22"%string;
       "confirm_password"%string := "secret22"%string ]} in
  let wrong : gmap string string :=
    {[ "current_password"%string := "guess"%string;
       "new_password"%string := "secret22"%string;
       "confirm_password"%string := "secret22"%string ]} in
  map UserRow.password_hash
      (user_rows (fst (change_password toy_hash toy_check true good one_user_store alice)))
  = [toy_hash "secret22"]
  /\ change_password toy_hash toy_check true wrong one_user_store alice
     = (one_user_store, AuthJson 400 false ["Current password is incorrect."%string]).
Proof. cbv zeta. split; vm_compute; reflexivity. Qed.




Example edit_profile_example :
  let data : gmap string string :=
    {[ "username"%string := "alicia"%string; "first_name"%string := " Alicia "%string ]} in
  map (fun u => (UserRow.username u, UserRow.first_name u))
      (user_rows (fst (edit_profile POST true data one_user_store alice)))
  = [("alice"%string, "Alicia"%string)].
Proof. vm_compute. reflexivity. Qed.

(** ** The endpoint [delete_course] *)

Lemma filter_other_key {A : Type} (key : A -> Z) (cid : Z) (l : list A) (x : A) :
  In x (List.filter (fun y => negb (Z.eqb (key y) cid)) l) <-> In x l /\ key x <> cid.
Proof. rewrite filter_In, negb_true_iff, Z.eqb_neq. reflexivity. Qed.

(** X23. [delete_course] removes a course only for an admin or its
    instructor and only when the course has no active enrollment; every
    other request leaves the store as it was, and a missing course is
    answered with status 500, the 404 being caught by the handler.  After a
    removal no course, lesson, enrollment or quiz of that course id is left,
    the rows of the other courses are all kept, and the users are
    untouched. *)
Theorem delete_course_guarded (s : Store) (u : User.t) (cid : Z) :
  let s' := fst (delete_course s u cid) in
  (get_course_row s cid = None ->
   delete_course s u cid = (s, Json 500 false "Failed to delete course"))
  /\ (s' = s
      \/ exists course,
           get_course_row s cid = Some course
           /\ (is_admin u = true \/ CourseRow.instructor_id course = User.id u)
           /\ get_enrollment_count s course = 0
           /\ snd (delete_course s u cid) = Json 200 true "Course delete successfully"
           /\ user_rows s' = user_rows s
           /\ get_course_row s' cid = None
           /\ (forall c, In c (course_rows s')
                         <-> In c (course_rows s) /\ CourseRow.id c <> cid)
           /\ (forall l, In l (lessons s')
                         <-> In l (lessons s) /\ Lesson.course_id l <> cid)
           /\ (forall e, In e (enrollment_rows s')
                         <-> In e (enrollment_rows s) /\ EnrollmentRow.course_id e <> cid)
           /\ (forall q, In q (s_quizzes s')
                         <-> In q (s_quizzes s) /\ Quiz.course_id q <> cid)).
Proof.
  cbv zeta. unfold delete_course, delete_course_try. split.
  { intros ->. reflexivity. }
  destruct (get_course_row s cid) as [course|] eqn:Hc; [|left; reflexivity].
  pose proof (get_course_row_id s cid course Hc) as Hid.
  destruct (negb (is_admin u) && negb (_ =? _)) eqn:Hgate; [left; reflexivity|].
  destruct (Z.ltb_spec 0 (Z.of_nat (length (List.filter EnrollmentRow.is_active
              (enrollments_of s (CourseRow.id course)))))) as [|Hz];
    [left; reflexivity|].
  right. exists course. cbn [fst snd].
  split; [reflexivity|]. split.
  { apply andb_false_iff in Hgate as [H|H]; apply negb_false_iff in H;
      [left; exact H | right; apply Z.eqb_eq; exact H]. }
  split; [unfold get_enrollment_count; lia|].
  split; [reflexivity|]. split; [reflexivity|].
  unfold cascade_delete.
  cbn [course_rows lessons enrollment_rows s_quizzes]. rewrite Hid.
  split.
  { unfold get_course_row. cbn [course_rows].
    destruct (List.find _ _) as [c|] eqn:Hf; [|reflexivity]. exfalso.
    apply find_some in Hf as [Hin Hf]. apply filter_In in Hin as [_ Hn].
    rewrite Hf in Hn. discriminate. }
  split; [intros c; apply filter_other_key|].
  split; [intros l; apply filter_other_key|].
  split; [intros e; apply filter_other_key | intros q; apply filter_other_key].
Qed.

Example delete_course_examples :
  (* the instructor cannot delete a course with an active enrollment *)
  delete_course enrolled_store (User.mk 3 "teacher") 1
  = (enrolled_store, Json 400 false "Cannot delete course with active enrollments")
  (* another teacher is refused *)
  /\ delete_course open_store (User.mk 4 "teacher") 1
     = (open_store, Json 403 false "Access Denied")
  (* the instructor deletes the open course: its lessons and quiz go too *)
  /\ (let s' := fst (delete_course open_store (User.mk 3 "teacher") 1) in
      map Lesson.id (lessons s') = [5] /\ s_quizzes s' = [] /\ s_questions s' = []).
Proof. repeat split. Qed.
